(** * Courier route optimisation API: data model and day scheduling

    A shallow embedding of [src/api/main.py]: the request and response
    records, [compute_time_matrix], [create_data_model], [solve_vrp] and the
    [optimize_routes] handler, followed by the properties of the
    specification that concern them.

    Python exceptions are modelled by the [result] monad; the routing solver,
    the travel-time service and the date parser are external collaborators
    gathered in the record [Env]. *)

From stdpp Require Import base decidable option list strings gmap pretty sorting.

Local Open Scope Z_scope.

(** ** Exceptions *)

Inductive exn : Type :=
  | HTTPException (status_code : Z) (detail : string)
  | IndexError
  | KeyError (key : string)
  | RoutesApiError (msg : string).

Inductive result (A : Type) : Type :=
  | Ok (a : A)
  | Raise (e : exn).
Arguments Ok {A} a.
Arguments Raise {A} e.

#[global] Instance result_ret : MRet result := λ A a, Ok a.
#[global] Instance result_bind : MBind result := λ A B f m,
  match m with
  | Ok a => f a
  | Raise e => Raise e
  end.

(** [try: body except Exception as e: handler e] *)
Definition try_except {A} (body : result A) (handler : exn → result A) : result A :=
  match body with
  | Ok a => Ok a
  | Raise e => handler e
  end.

Definition is_ok {A} (r : result A) : bool :=
  match r with Ok _ => true | Raise _ => false end.

(** [str(e)] *)
Definition str_exn (e : exn) : string :=
  match e with
  | HTTPException status_code detail => pretty status_code +:+ ": " +:+ detail
  | IndexError => "list index out of range"
  | KeyError key => "'" +:+ key +:+ "'"
  | RoutesApiError msg => msg
  end.

(** [l[i]] on a Python list, for a non-negative [i] *)
Definition list_index {A} (l : list A) (i : nat) : result A :=
  match l !! i with
  | Some x => Ok x
  | None => Raise IndexError
  end.

(** [d[k]] on a Python dict with string keys *)
Definition dict_index {A} (d : gmap string A) (k : string) : result A :=
  match d !! k with
  | Some x => Ok x
  | None => Raise (KeyError k)
  end.

(** Truth value of an [Optional[str]] and of an [Optional[List[str]]] *)
Definition truthy_str (o : option string) : bool :=
  match o with
  | Some s => negb (String.eqb s "")
  | None => false
  end.

Definition truthy_list {A} (o : option (list A)) : bool :=
  match o with
  | Some (_ :: _) => true
  | _ => false
  end.

Definition HTTP_400_BAD_REQUEST : Z := 400.
Definition HTTP_500_INTERNAL_SERVER_ERROR : Z := 500.

(** ** Request and response models *)

Module JobModel.
Record t : Type := mk {
  id : string;
  location : string;
  type : string;
  related_job_id : option string;
  preferred_date : option (list string)
}.
End JobModel.

Module DriverModel.
Record t : Type := mk {
  id : string;
  available_hours : Z;
  name : option string;
  email : option string;
  phone : option string
}.
End DriverModel.

Module OptimizationRequest.
Record t : Type := mk {
  jobs : list JobModel.t;
  drivers : list DriverModel.t;
  num_drivers_per_day : Z
}.
End OptimizationRequest.

Module JobStop.
Record t : Type := mk {
  job_id : string;
  window : Z * Z
}.
End JobStop.

Module RouteModel.
Record t : Type := mk {
  driver_id : string;
  day : Z;
  stops : list JobStop.t;
  total_time : Z
}.
End RouteModel.

Module OptimizationResponse.
Record t : Type := mk {
  routes : list RouteModel.t;
  unassigned : list string
}.
End OptimizationResponse.

(** ** The solver's data model *)

(** An element of [jobs_with_indices] *)
Module JobEntry.
Record t : Type := mk {
  id : string;
  location_idx : nat;
  type : string;
  related_job_id : option string;
  preferred_date : option (list string)
}.
End JobEntry.

Module DataModel.
Record t : Type := mk {
  time_matrix : list (list Z);
  num_locations : nat;
  depot : nat;
  num_vehicles : Z;
  jobs : list JobEntry.t;
  job_pairs : list (nat * nat);
  jobs_by_day : list (list nat);
  max_time_per_vehicle : Z
}.
End DataModel.

(** A route as [solve_vrp] returns it *)
Module VehicleRoute.
Record t : Type := mk {
  vehicle_id : nat;
  stops : list JobStop.t;
  total_time : Z
}.
End VehicleRoute.

(** ** The routing solver, seen from outside

    [RoutingModel.t] records what [solve_vrp] tells the solver; an
    [Assignment] is what the extraction loop reads back: for each vehicle the
    nodes from [routing.Start] up to, not including, the end index, each with
    [solution.Min] of its cumulative time. *)

Module RoutingModel.
Record t : Type := mk {
  num_nodes : nat;
  num_vehicles : Z;
  depot : nat;
  transit : list (list Z);
  slack_max : Z;
  capacity : Z;
  fix_start_cumul_to_zero : bool;
  pickups_deliveries : list (nat * nat);
  removed_values : list (nat * nat);
  time_limit_seconds : Z
}.
End RoutingModel.

Definition Assignment : Type := nat → list (nat * Z).

(** ** External collaborators *)

Record Env : Type := mkEnv {
  GOOGLE_MAPS_API_KEY : option string;
  DEPOT_LOCATION : string;
  (** the Routes API round trips: a matrix, or the message of the exception *)
  routes_api : list string → string + list (list Z);
  (** [datetime.fromisoformat(s.replace('Z', '+00:00')).date()] as a day
      number, [None] when it raises *)
  fromisoformat_date : string → option Z;
  (** [datetime.now().date()] as a day number *)
  today : Z;
  (** the outcome of the search that the call for day [day_index] starts:
      the search is bounded by wall-clock time, so two calls on the same
      model need not agree; [None] when no solution is found *)
  SolveWithParameters : nat → RoutingModel.t → option Assignment
}.

(** ** [compute_time_matrix] *)

Definition dummy_time_matrix (n : nat) : list (list Z) :=
  (λ i, (λ j, Z.max 30 (Z.abs (i - j) * 20)) <$> seqZ 0 (Z.of_nat n)) <$> seqZ 0 (Z.of_nat n).

Definition compute_time_matrix (env : Env) (locations : list string)
  : result (list (list Z)) :=
  if negb (truthy_str (GOOGLE_MAPS_API_KEY env)) then
    Ok (dummy_time_matrix (length locations))
  else
    try_except
      match routes_api env locations with
      | inr matrix => Ok matrix
      | inl msg => Raise (RoutesApiError msg)
      end
      (λ e, Raise (HTTPException HTTP_500_INTERNAL_SERVER_ERROR
                     ("Failed to compute travel times: " +:+ str_exn e))).

(** ** [create_data_model] *)

(** [enumerate(l)] *)
Definition enumerate {A} (l : list A) : list (nat * A) := imap pair l.

(** One round of the loop that fills [unique_locations] and
    [location_indices] *)
Definition index_location (acc : list string * gmap string nat) (location : string)
  : list string * gmap string nat :=
  let '(unique_locations, location_indices) := acc in
  match location_indices !! location with
  | None => (unique_locations ++ [location],
             <[location := length unique_locations]> location_indices)
  | Some _ => acc
  end.

Definition index_locations (all_locations : list string)
  : list string * gmap string nat :=
  foldl index_location ([], ∅) all_locations.

Definition job_with_index (location_indices : gmap string nat) (job : JobModel.t)
  : result JobEntry.t :=
  location_idx ← dict_index location_indices (JobModel.location job);
  mret {| JobEntry.id := JobModel.id job;
          JobEntry.location_idx := location_idx;
          JobEntry.type := JobModel.type job;
          JobEntry.related_job_id := JobModel.related_job_id job;
          JobEntry.preferred_date := JobModel.preferred_date job |}.

Fixpoint map_jobs_with_indices (location_indices : gmap string nat)
  (jobs : list JobModel.t) : result (list JobEntry.t) :=
  match jobs with
  | [] => mret []
  | job :: jobs' =>
      entry ← job_with_index location_indices job;
      entries ← map_jobs_with_indices location_indices jobs';
      mret (entry :: entries)
  end.

(** [{job["id"]: i for i, job in enumerate(jobs_with_indices)}] *)
Definition job_id_to_idx (jobs_with_indices : list JobEntry.t) : gmap string nat :=
  foldl (λ d '(i, job), <[JobEntry.id job := i]> d) ∅ (enumerate jobs_with_indices).

Definition add_job_pair (job_id_to_idx : gmap string nat)
  (job_pairs : list (nat * nat)) (ij : nat * JobEntry.t) : list (nat * nat) :=
  let '(i, job) := ij in
  if String.eqb (JobEntry.type job) "collection"
     && truthy_str (JobEntry.related_job_id job) then
    match JobEntry.related_job_id job ≫= (job_id_to_idx !!.) with
    | Some related_idx => job_pairs ++ [(i, related_idx)]
    | None => job_pairs
    end
  else job_pairs.

Definition build_job_pairs (jobs_with_indices : list JobEntry.t) : list (nat * nat) :=
  foldl (add_job_pair (job_id_to_idx jobs_with_indices)) []
        (enumerate jobs_with_indices).

(** [jobs_by_day[d].append(i)] *)
Definition append_day (i : nat) (jobs_by_day : list (list nat)) (d : nat)
  : list (list nat) :=
  alter (λ l, l ++ [i]) d jobs_by_day.

(** [for d in range(5): jobs_by_day[d].append(i)] *)
Definition append_all_days (i : nat) (jobs_by_day : list (list nat))
  : list (list nat) :=
  foldl (append_day i) jobs_by_day (seq 0 5).

(** The body of [for date_str in job["preferred_date"]] *)
Definition add_preferred_date (env : Env) (i : nat)
  (jobs_by_day : list (list nat)) (date_str : string) : list (list nat) :=
  match fromisoformat_date env date_str with
  | Some job_date =>
      let day_diff := job_date - today env in
      if bool_decide (0 ≤ day_diff < 5) then
        append_day i jobs_by_day (Z.to_nat day_diff)
      else jobs_by_day
  | None => append_all_days i jobs_by_day
  end.

Definition add_job_days (env : Env) (jobs_by_day : list (list nat))
  (ij : nat * JobEntry.t) : list (list nat) :=
  let '(i, job) := ij in
  if truthy_list (JobEntry.preferred_date job) then
    foldl (add_preferred_date env i) jobs_by_day
          (default [] (JobEntry.preferred_date job))
  else append_all_days i jobs_by_day.

Definition build_jobs_by_day (env : Env) (jobs_with_indices : list JobEntry.t)
  : list (list nat) :=
  foldl (add_job_days env) (replicate 5 []) (enumerate jobs_with_indices).

Definition create_data_model (env : Env) (jobs : list JobModel.t)
  (num_drivers_per_day : Z) (max_hours_per_driver : Z) : result DataModel.t :=
  let all_locations := DEPOT_LOCATION env :: (JobModel.location <$> jobs) in
  let '(unique_locations, location_indices) := index_locations all_locations in
  time_matrix ← compute_time_matrix env unique_locations;
  jobs_with_indices ← map_jobs_with_indices location_indices jobs;
  mret {| DataModel.time_matrix := time_matrix;
          DataModel.num_locations := length unique_locations;
          DataModel.depot := 0;
          DataModel.num_vehicles := num_drivers_per_day;
          DataModel.jobs := jobs_with_indices;
          DataModel.job_pairs := build_job_pairs jobs_with_indices;
          DataModel.jobs_by_day := build_jobs_by_day env jobs_with_indices;
          DataModel.max_time_per_vehicle := max_hours_per_driver * 60 |}.

(** ** [solve_vrp] *)

Definition time_callback (data_model : DataModel.t) (from_node to_node : nat)
  : result Z :=
  row ← list_index (DataModel.time_matrix data_model) from_node;
  list_index row to_node.

(** The pickup and delivery nodes handed to [AddPickupAndDelivery] *)
Fixpoint pickup_delivery_nodes (data_model : DataModel.t)
  (job_pairs : list (nat * nat)) : result (list (nat * nat)) :=
  match job_pairs with
  | [] => mret []
  | job_pair :: job_pairs' =>
      pickup_job ← list_index (DataModel.jobs data_model) job_pair.1;
      delivery_job ← list_index (DataModel.jobs data_model) job_pair.2;
      others ← pickup_delivery_nodes data_model job_pairs';
      mret ((JobEntry.location_idx pickup_job,
             JobEntry.location_idx delivery_job) :: others)
  end.

(** [[data_model['jobs'][j]['location_idx'] for j in allowed_jobs]] *)
Fixpoint job_locations (data_model : DataModel.t) (allowed_jobs : list nat)
  : result (list nat) :=
  match allowed_jobs with
  | [] => mret []
  | j :: allowed_jobs' =>
      job ← list_index (DataModel.jobs data_model) j;
      others ← job_locations data_model allowed_jobs';
      mret (JobEntry.location_idx job :: others)
  end.

(** The (node, vehicle) values taken away by [RemoveValue] *)
Definition removed_nodes (data_model : DataModel.t) (allowed_locations : gset nat)
  : list (nat * nat) :=
  vehicle_id ← seq 0 (Z.to_nat (DataModel.num_vehicles data_model));
  node_idx ← seq 1 (DataModel.num_locations data_model - 1);
  if decide (node_idx ∉ allowed_locations) then [(node_idx, vehicle_id)] else [].

Definition routing_model (data_model : DataModel.t)
  (pickups_deliveries : list (nat * nat)) (allowed_locations : gset nat)
  : RoutingModel.t :=
  {| RoutingModel.num_nodes := DataModel.num_locations data_model;
     RoutingModel.num_vehicles := DataModel.num_vehicles data_model;
     RoutingModel.depot := DataModel.depot data_model;
     RoutingModel.transit := DataModel.time_matrix data_model;
     RoutingModel.slack_max := 60;
     RoutingModel.capacity := DataModel.max_time_per_vehicle data_model;
     RoutingModel.fix_start_cumul_to_zero := false;
     RoutingModel.pickups_deliveries := pickups_deliveries;
     RoutingModel.removed_values := removed_nodes data_model allowed_locations;
     RoutingModel.time_limit_seconds := 30 |}.

(** [for job_idx, job in enumerate(data_model['jobs'])] with its [break] *)
Fixpoint attach_job (jobs : list JobEntry.t) (node_index : nat)
  (arrival_time max_time_per_vehicle : Z) (route : list JobStop.t)
  : list JobStop.t :=
  match jobs with
  | [] => route
  | job :: jobs' =>
      if decide (JobEntry.location_idx job = node_index) then
        let window_start := arrival_time in
        let window_end := Z.min (arrival_time + 180) max_time_per_vehicle in
        route ++ [ {| JobStop.job_id := JobEntry.id job;
                      JobStop.window := (window_start, window_end) |} ]
      else attach_job jobs' node_index arrival_time max_time_per_vehicle route
  end.

(** [while not routing.IsEnd(index)], over the nodes still to be visited *)
Fixpoint walk_route (data_model : DataModel.t) (path : list (nat * Z))
  (route : list JobStop.t) (route_time : Z) : result (list JobStop.t * Z) :=
  match path with
  | [] => mret (route, route_time)
  | (node_index, arrival_time) :: path' =>
      let route' :=
        if decide (node_index ≠ 0%nat) then
          attach_job (DataModel.jobs data_model) node_index arrival_time
            (DataModel.max_time_per_vehicle data_model) route
        else route in
      let next_node :=
        match path' with
        | [] => DataModel.depot data_model
        | (n, _) :: _ => n
        end in
      transit ← time_callback data_model node_index next_node;
      walk_route data_model path' route' (route_time + transit)
  end.

(** [for vehicle_id in range(data_model['num_vehicles'])] *)
Fixpoint extract_routes (data_model : DataModel.t) (solution : Assignment)
  (vehicle_ids : list nat) (routes : list VehicleRoute.t)
  : result (list VehicleRoute.t) :=
  match vehicle_ids with
  | [] => mret routes
  | vehicle_id :: vehicle_ids' =>
      '(route, route_time) ← walk_route data_model (solution vehicle_id) [] 0;
      let routes' :=
        match route with
        | [] => routes
        | _ :: _ =>
            routes ++ [ {| VehicleRoute.vehicle_id := vehicle_id;
                           VehicleRoute.stops := route;
                           VehicleRoute.total_time := route_time |} ]
        end in
      extract_routes data_model solution vehicle_ids' routes'
  end.

Definition is_assigned (routes : list VehicleRoute.t) (job_id : string) : bool :=
  existsb (λ route,
             existsb (λ stop, String.eqb (JobStop.job_id stop) job_id)
                     (VehicleRoute.stops route))
          routes.

Definition add_unassigned (routes : list VehicleRoute.t) (allowed_jobs : list nat)
  (unassigned : list string) (ij : nat * JobEntry.t) : list string :=
  let '(job_idx, job) := ij in
  let job_id := JobEntry.id job in
  if negb (is_assigned routes job_id) && bool_decide (job_idx ∈ allowed_jobs)
  then unassigned ++ [job_id]
  else unassigned.

Definition collect_unassigned (jobs : list JobEntry.t)
  (routes : list VehicleRoute.t) (allowed_jobs : list nat) : list string :=
  foldl (add_unassigned routes allowed_jobs) [] (enumerate jobs).

Definition solve_vrp (env : Env) (data_model : DataModel.t) (day_index : nat)
  : result (list VehicleRoute.t * list string) :=
  pickups_deliveries ←
    pickup_delivery_nodes data_model (DataModel.job_pairs data_model);
  allowed_jobs ← list_index (DataModel.jobs_by_day data_model) day_index;
  locations ← job_locations data_model allowed_jobs;
  let allowed_locations : gset nat := list_to_set locations ∪ {[ 0%nat ]} in
  let routing := routing_model data_model pickups_deliveries allowed_locations in
  routes ←
    match SolveWithParameters env day_index routing with
    | Some solution =>
        extract_routes data_model solution
          (seq 0 (Z.to_nat (DataModel.num_vehicles data_model))) []
    | None => mret []
    end;
  mret (routes, collect_unassigned (DataModel.jobs data_model) routes allowed_jobs).

(** ** [optimize_routes] *)

(** [max([d.available_hours for d in drivers], default=9)] *)
Definition max_driver_hours (drivers : list DriverModel.t) : Z :=
  match DriverModel.available_hours <$> drivers with
  | [] => 9
  | h :: hs => foldl Z.max h hs
  end.

(** The driver of the [i]-th route of a day *)
Definition route_driver_id (driver_ids : list string) (i : nat) : string :=
  match driver_ids !! i with
  | Some driver_id => driver_id
  | None =>
      "additional-driver-"
        +:+ pretty (Z.of_nat i - Z.of_nat (length driver_ids) + 1)
  end.

Definition day_route_models (driver_ids : list string) (day : nat)
  (day_routes : list VehicleRoute.t) : list RouteModel.t :=
  imap (λ i route,
          {| RouteModel.driver_id := route_driver_id driver_ids i;
             RouteModel.day := Z.of_nat day + 1;
             RouteModel.stops := VehicleRoute.stops route;
             RouteModel.total_time := VehicleRoute.total_time route |})
       day_routes.

(** [for day in range(5)] *)
Fixpoint solve_days (env : Env) (request : OptimizationRequest.t)
  (data_model : DataModel.t) (days : list nat)
  (all_routes : list RouteModel.t) (all_unassigned : list string)
  : result (list RouteModel.t * list string) :=
  match days with
  | [] => mret (all_routes, all_unassigned)
  | day :: days' =>
      '(day_routes, day_unassigned) ← solve_vrp env data_model day;
      let driver_ids := DriverModel.id <$> OptimizationRequest.drivers request in
      solve_days env request data_model days'
        (all_routes ++ day_route_models driver_ids day day_routes)
        (all_unassigned ++ day_unassigned)
  end.

(** [list(set(l))]: the elements without repetition, in the set's own order *)
Definition list_of_set (l : list string) : list string :=
  elements (list_to_set l : gset string).

Definition optimize_body (env : Env) (request : OptimizationRequest.t)
  : result OptimizationResponse.t :=
  match OptimizationRequest.jobs request with
  | [] =>
      Raise (HTTPException HTTP_400_BAD_REQUEST "No jobs provided for optimization")
  | _ :: _ =>
      let max_driver_hours :=
        max_driver_hours (OptimizationRequest.drivers request) in
      data_model ←
        create_data_model env (OptimizationRequest.jobs request)
          (OptimizationRequest.num_drivers_per_day request) max_driver_hours;
      '(all_routes, all_unassigned) ←
        solve_days env request data_model (seq 0 5) [] [];
      mret {| OptimizationResponse.routes := all_routes;
              OptimizationResponse.unassigned := list_of_set all_unassigned |}
  end.

Definition optimize_routes (env : Env) (request : OptimizationRequest.t)
  : result OptimizationResponse.t :=
  try_except (optimize_body env request)
    (λ e, Raise (HTTPException HTTP_500_INTERNAL_SERVER_ERROR
                   ("Route optimization failed: " +:+ str_exn e))).

(** ** Example data

    A deployment without a Routes API key (so that travel times come from
    the dummy matrix), planned on day 739254 of the calendar. *)

Module Example.

Definition parse_date (date_str : string) : option Z :=
  if String.eqb date_str "2025-01-03" then Some 739254
  else if String.eqb date_str "2025-01-06" then Some 739257
  else if String.eqb date_str "2025-01-13" then Some 739264
  else None.

Definition env (solver : nat → RoutingModel.t → option Assignment) : Env :=
  {| GOOGLE_MAPS_API_KEY := None;
     DEPOT_LOCATION := "Birmingham, UK";
     routes_api := λ _, inl "no API key";
     fromisoformat_date := parse_date;
     today := 739254;
     SolveWithParameters := solver |}.

Definition infeasible : nat → RoutingModel.t → option Assignment :=
  λ _ _, None.

Definition empty_request : OptimizationRequest.t :=
  {| OptimizationRequest.jobs := [];
     OptimizationRequest.drivers := [];
     OptimizationRequest.num_drivers_per_day := 1 |}.

(** A solution on the first day, none on the other days *)
Definition first_day_solver (solution : Assignment)
  : nat → RoutingModel.t → option Assignment :=
  λ day_index _,
    match day_index with
    | O => Some solution
    | S _ => None
    end.

(** Two deliveries to one address *)
Definition first_job (preferred_date : option (list string)) : JobModel.t :=
  {| JobModel.id := "A";
     JobModel.location := "12 High Street, Solihull";
     JobModel.type := "delivery";
     JobModel.related_job_id := None;
     JobModel.preferred_date := preferred_date |}.

Definition second_job : JobModel.t :=
  {| JobModel.id := "B";
     JobModel.location := "12 High Street, Solihull";
     JobModel.type := "delivery";
     JobModel.related_job_id := None;
     JobModel.preferred_date := None |}.

Definition first_entry (preferred_date : option (list string)) : JobEntry.t :=
  {| JobEntry.id := "A";
     JobEntry.location_idx := 1;
     JobEntry.type := "delivery";
     JobEntry.related_job_id := None;
     JobEntry.preferred_date := preferred_date |}.

Definition second_entry : JobEntry.t :=
  {| JobEntry.id := "B";
     JobEntry.location_idx := 1;
     JobEntry.type := "delivery";
     JobEntry.related_job_id := None;
     JobEntry.preferred_date := None |}.

(** The first vehicle leaves the depot and reaches node 1 after 30 minutes;
    the other vehicles stay at the depot. *)
Definition one_visit : Assignment :=
  λ vehicle_id,
    match vehicle_id with
    | O => [(0%nat, 0); (1%nat, 30)]
    | S _ => [(0%nat, 0)]
    end.

Definition visit_solver : nat → RoutingModel.t → option Assignment :=
  λ _ _, Some one_visit.

(** The data model of the two deliveries, both without a preferred date *)
Definition shared_model : DataModel.t :=
  {| DataModel.time_matrix := [[30; 30]; [30; 30]];
     DataModel.num_locations := 2;
     DataModel.depot := 0;
     DataModel.num_vehicles := 1;
     DataModel.jobs := [first_entry None; second_entry];
     DataModel.job_pairs := [];
     DataModel.jobs_by_day :=
       [[0; 1]; [0; 1]; [0; 1]; [0; 1]; [0; 1]]%nat;
     DataModel.max_time_per_vehicle := 540 |}.

(** The same, when the first delivery is wanted on 2025-01-06, three days
    from today *)
Definition dated_model : DataModel.t :=
  {| DataModel.time_matrix := [[30; 30]; [30; 30]];
     DataModel.num_locations := 2;
     DataModel.depot := 0;
     DataModel.num_vehicles := 1;
     DataModel.jobs := [first_entry (Some ["2025-01-06"]); second_entry];
     DataModel.job_pairs := [];
     DataModel.jobs_by_day := [[1]; [1]; [1]; [0; 1]; [1]]%nat;
     DataModel.max_time_per_vehicle := 540 |}.

Definition first_stop_route : VehicleRoute.t :=
  {| VehicleRoute.vehicle_id := 0;
     VehicleRoute.stops :=
       [ {| JobStop.job_id := "A"; JobStop.window := (30, 210) |} ];
     VehicleRoute.total_time := 60 |}.

(** One delivery, no driver on the list, one vehicle a day *)
Definition single_request : OptimizationRequest.t :=
  {| OptimizationRequest.jobs := [second_job];
     OptimizationRequest.drivers := [];
     OptimizationRequest.num_drivers_per_day := 1 |}.

Definition single_response : OptimizationResponse.t :=
  {| OptimizationResponse.routes :=
       [ {| RouteModel.driver_id := "additional-driver-1";
            RouteModel.day := 1;
            RouteModel.stops :=
              [ {| JobStop.job_id := "B"; JobStop.window := (30, 210) |} ];
            RouteModel.total_time := 60 |} ];
     OptimizationResponse.unassigned := ["B"] |}.

End Example.

(** ** Notions used by the properties *)

(** The job ids reported as stops on a day's routes *)
Definition stop_ids (routes : list VehicleRoute.t) : list string :=
  route ← routes; JobStop.job_id <$> VehicleRoute.stops route.

(** How many times [i] occurs in the list of day [d] *)
Definition occurrences (i : nat) (jobs_by_day : list (list nat)) (d : nat) : nat :=
  match jobs_by_day !! d with
  | Some l => length (filter (λ x, x = i) l)
  | None => 0
  end.

(** [(parsedDate − today).days], when the date string parses *)
Definition date_offset (env : Env) (date_str : string) : option Z :=
  (λ job_date, job_date - today env) <$> fromisoformat_date env date_str.

(** Day eligibility as the specification words it: how many times an entry
    is added to day [d].  Without preferred dates, once; otherwise once for
    each date string that parses to offset [d], and once for each date
    string that does not parse. *)
Definition times_added (env : Env) (job : JobEntry.t) (d : nat) : nat :=
  match JobEntry.preferred_date job with
  | None | Some [] => 1
  | Some dates =>
      length (filter (λ s, date_offset env s = Some (Z.of_nat d)) dates)
      + length (filter (λ s, date_offset env s = None) dates)
  end%nat.

(** The same as a set: the entry is eligible on day [d] *)
Definition eligible_on (env : Env) (job : JobEntry.t) (d : nat) : Prop :=
  match JobEntry.preferred_date job with
  | None | Some [] => True
  | Some dates =>
      ∃ s, s ∈ dates ∧ (date_offset env s = Some (Z.of_nat d)
                        ∨ date_offset env s = None)
  end.

(** The [related_job_id] of [job] resolves to the entry at index [j]: it is
    set and not empty, and [j] is what the map from job ids to indices holds
    for it. *)
Definition resolves_to (jobs : list JobEntry.t) (job : JobEntry.t) (j : nat)
  : Prop :=
  ∃ related, JobEntry.related_job_id job = Some related
             ∧ related ≠ ""
             ∧ job_id_to_idx jobs !! related = Some j.

(** The pair that entry [i] contributes, if any *)
Definition pair_of (job_id_to_idx : gmap string nat) (ij : nat * JobEntry.t)
  : option (nat * nat) :=
  if String.eqb (JobEntry.type ij.2) "collection"
     && truthy_str (JobEntry.related_job_id ij.2) then
    (λ related_idx, (ij.1, related_idx))
      <$> (JobEntry.related_job_id ij.2 ≫= (job_id_to_idx !!.))
  else None.

(** The pairs as C7 words them: entry [i] is a collection whose
    [related_job_id] resolves to another entry [j]. *)
Definition pairs_to_another_entry (jobs : list JobEntry.t) : Prop :=
  ∀ i j, (i, j) ∈ build_job_pairs jobs
         ↔ i ≠ j ∧ ∃ job, jobs !! i = Some job
                          ∧ JobEntry.type job = "collection"
                          ∧ resolves_to jobs job j.

Module SelfReference.

(** A collection that names itself as its related job *)
Definition entry : JobEntry.t :=
  {| JobEntry.id := "A";
     JobEntry.location_idx := 1;
     JobEntry.type := "collection";
     JobEntry.related_job_id := Some "A";
     JobEntry.preferred_date := None |}.

End SelfReference.

Module Pairing.

(** Two collections; the first names the second as its related job *)
Definition job (id : string) (location : string)
  (related_job_id : option string) : JobModel.t :=
  {| JobModel.id := id;
     JobModel.location := location;
     JobModel.type := "collection";
     JobModel.related_job_id := related_job_id;
     JobModel.preferred_date := None |}.

Definition jobs : list JobModel.t :=
  [job "A" "12 High Street, Solihull" (Some "B");
   job "B" "3 Mill Lane, Dudley" None].

Definition entry (id : string) (location_idx : nat)
  (related_job_id : option string) : JobEntry.t :=
  {| JobEntry.id := id;
     JobEntry.location_idx := location_idx;
     JobEntry.type := "collection";
     JobEntry.related_job_id := related_job_id;
     JobEntry.preferred_date := None |}.

Definition model : DataModel.t :=
  {| DataModel.time_matrix := [[30; 30; 40]; [30; 30; 30]; [40; 30; 30]];
     DataModel.num_locations := 3;
     DataModel.depot := 0;
     DataModel.num_vehicles := 1;
     DataModel.jobs := [entry "A" 1 (Some "B"); entry "B" 2 None];
     DataModel.job_pairs := [(0, 1)]%nat;
     DataModel.jobs_by_day :=
       [[0; 1]; [0; 1]; [0; 1]; [0; 1]; [0; 1]]%nat;
     DataModel.max_time_per_vehicle := 540 |}.

End Pairing.

(** ** Route extraction as the specification words it

    Each visited node other than the depot is given the first JobEntry, in
    input order, that matches its location index and has not been reported
    yet; [reported] holds the indices of the entries reported so far. *)

Fixpoint first_unreported (jobs : list JobEntry.t) (job_idx : nat)
  (reported : gset nat) (node_index : nat) : option (nat * JobEntry.t) :=
  match jobs with
  | [] => None
  | job :: jobs' =>
      if decide ((job_idx ∉ reported) ∧ JobEntry.location_idx job = node_index)
      then Some (job_idx, job)
      else first_unreported jobs' (S job_idx) reported node_index
  end.

Definition reported_stop (job : JobEntry.t) (arrival_time max_time_per_vehicle : Z)
  : JobStop.t :=
  {| JobStop.job_id := JobEntry.id job;
     JobStop.window :=
       (arrival_time, Z.min (arrival_time + 180) max_time_per_vehicle) |}.

Fixpoint reported_stops (jobs : list JobEntry.t) (max_time_per_vehicle : Z)
  (path : list (nat * Z)) (reported : gset nat) : list JobStop.t * gset nat :=
  match path with
  | [] => ([], reported)
  | (node_index, arrival_time) :: path' =>
      if decide (node_index = 0%nat) then
        reported_stops jobs max_time_per_vehicle path' reported
      else
        match first_unreported jobs 0 reported node_index with
        | Some (job_idx, job) =>
            let '(stops, reported') :=
              reported_stops jobs max_time_per_vehicle path'
                ({[ job_idx ]} ∪ reported) in
            (reported_stop job arrival_time max_time_per_vehicle :: stops,
             reported')
        | None => reported_stops jobs max_time_per_vehicle path' reported
        end
  end.

Fixpoint reported_day (jobs : list JobEntry.t) (max_time_per_vehicle : Z)
  (paths : list (list (nat * Z))) (reported : gset nat)
  : list (list JobStop.t) :=
  match paths with
  | [] => []
  | path :: paths' =>
      let '(stops, reported') :=
        reported_stops jobs max_time_per_vehicle path reported in
      stops :: reported_day jobs max_time_per_vehicle paths' reported'
  end.

(** The nodes other than the depot on a path, and on a list of paths, in
    visiting order *)
Definition path_nodes (path : list (nat * Z)) : list nat :=
  filter (λ node_index, node_index ≠ 0%nat) path.*1.

Definition visited_nodes (paths : list (list (nat * Z))) : list nat :=
  paths ≫= path_nodes.

(** Every reported entry lies at one of the nodes [nodes] *)
Definition reported_within (jobs : list JobEntry.t) (reported : gset nat)
  (nodes : list nat) : Prop :=
  ∀ i job, i ∈ reported → jobs !! i = Some job →
           JobEntry.location_idx job ∈ nodes.

(** The first entry at a node, whether reported or not *)
Fixpoint first_at (jobs : list JobEntry.t) (job_idx : nat) (node_index : nat)
  : option (nat * JobEntry.t) :=
  match jobs with
  | [] => None
  | job :: jobs' =>
      if decide (JobEntry.location_idx job = node_index)
      then Some (job_idx, job)
      else first_at jobs' (S job_idx) node_index
  end.

(** The stops of one path, one visit after the other *)
Definition visit_stops (data_model : DataModel.t) (path : list (nat * Z))
  : list JobStop.t :=
  '(node_index, arrival_time) ← path;
  if decide (node_index = 0%nat) then []
  else
    match first_at (DataModel.jobs data_model) 0 node_index with
    | Some (_, job) =>
        [reported_stop job arrival_time
           (DataModel.max_time_per_vehicle data_model)]
    | None => []
    end.

(** The route model that the handler makes of the [i]-th route of a day *)
Definition route_model (driver_ids : list string) (day i : nat)
  (route : VehicleRoute.t) : RouteModel.t :=
  {| RouteModel.driver_id := route_driver_id driver_ids i;
     RouteModel.day := Z.of_nat day + 1;
     RouteModel.stops := VehicleRoute.stops route;
     RouteModel.total_time := VehicleRoute.total_time route |}.

(** ** Conditions under which a day is solved without an exception *)

(** The time matrix has an entry for each pair of the first [n] nodes *)
Definition matrix_covers (time_matrix : list (list Z)) (n : nat) : Prop :=
  ∀ from_node to_node, (from_node < n)%nat → (to_node < n)%nat →
    ∃ row transit, time_matrix !! from_node = Some row
                   ∧ row !! to_node = Some transit.

(** The paths of a solution stay among the first [n] nodes *)
Definition solution_within (solution : Assignment) (n : nat) : Prop :=
  ∀ vehicle_id node_index,
    node_index ∈ (solution vehicle_id).*1 → (node_index < n)%nat.

(** The locations that [create_data_model] indexes *)
Definition unique_locations (env : Env) (jobs : list JobModel.t) : list string :=
  (index_locations (DEPOT_LOCATION env :: (JobModel.location <$> jobs))).1.

(** ** Further example data *)

Module Outage.

(** A deployment with a Routes API key, while the service answers 403 *)
Definition env : Env :=
  {| GOOGLE_MAPS_API_KEY := Some "key";
     DEPOT_LOCATION := "Birmingham, UK";
     routes_api := λ _, inl "Routes API error: 403";
     fromisoformat_date := Example.parse_date;
     today := 739254;
     SolveWithParameters := Example.visit_solver |}.

End Outage.

(** ** The parts of [solve_vrp] *)

(** What [solve_vrp] does before it calls the solver: the routing model of
    the day, and the day's allowed jobs *)
Definition day_routing (data_model : DataModel.t) (day_index : nat)
  : result (RoutingModel.t * list nat) :=
  pickups_deliveries ←
    pickup_delivery_nodes data_model (DataModel.job_pairs data_model);
  allowed_jobs ← list_index (DataModel.jobs_by_day data_model) day_index;
  locations ← job_locations data_model allowed_jobs;
  mret (routing_model data_model pickups_deliveries
          (list_to_set locations ∪ {[ 0%nat ]}),
        allowed_jobs).

(** The arcs that a vehicle drives: from each node of its path to the next,
    and from the last one to [end_node] *)
Fixpoint arcs (nodes : list nat) (end_node : nat) : list (nat * nat) :=
  match nodes with
  | [] => []
  | node :: nodes' =>
      (node, match nodes' with [] => end_node | next :: _ => next end)
        :: arcs nodes' end_node
  end.

(** The entry of the time matrix for an arc *)
Definition arc_cost (time_matrix : list (list Z)) (arc : nat * nat) : option Z :=
  time_matrix !! arc.1 ≫= (.!! arc.2).

Module Dropped.

(** One delivery wanted on 2025-01-13 only, ten days from today *)
Definition job : JobModel.t :=
  {| JobModel.id := "late";
     JobModel.location := "3 Mill Lane, Dudley";
     JobModel.type := "delivery";
     JobModel.related_job_id := None;
     JobModel.preferred_date := Some ["2025-01-13"] |}.

Definition request : OptimizationRequest.t :=
  {| OptimizationRequest.jobs := [job];
     OptimizationRequest.drivers := [];
     OptimizationRequest.num_drivers_per_day := 1 |}.

Definition response : OptimizationResponse.t :=
  {| OptimizationResponse.routes := [];
     OptimizationResponse.unassigned := [] |}.

End Dropped.

(** ** The in-memory stores

    [jobs_db] and [drivers_db] are Python dicts with string keys: the items
    are kept in the order in which their keys were first inserted, and a key
    occurs once. *)

Definition odict_contains {V} (d : list (string * V)) (k : string) : bool :=
  bool_decide (k ∈ d.*1).

(** [d[k]], when [k] is a key of [d] *)
Fixpoint odict_get {V} (d : list (string * V)) (k : string) : option V :=
  match d with
  | [] => None
  | (k', v) :: d' => if decide (k' = k) then Some v else odict_get d' k
  end.

(** [d[k] = v]: the value is replaced where the key stands, or the item is
    added at the end *)
Fixpoint odict_set {V} (d : list (string * V)) (k : string) (v : V)
  : list (string * V) :=
  match d with
  | [] => [(k, v)]
  | (k', v') :: d' =>
      if decide (k' = k) then (k, v) :: d' else (k', v') :: odict_set d' k v
  end.

(** [del d[k]] *)
Definition odict_del {V} (d : list (string * V)) (k : string)
  : list (string * V) :=
  filter (λ kv, kv.1 ≠ k) d.

(** A [JobModel] object as the store holds it.  [update_job] assigns the
    attributes that the request sets without validating them, so that
    [location] and [type] may come to hold [None]. *)
Module StoredJob.
Record t : Type := mk {
  id : string;
  location : option string;
  type : option string;
  related_job_id : option string;
  preferred_date : option (list string)
}.
End StoredJob.

(** The fields of a [JobUpdateModel] that the request sets
    ([dict(exclude_unset=True)]): [None] for a field that is not set,
    [Some v] for a field set to [v], which may be [None] itself *)
Module JobUpdateModel.
Record t : Type := mk {
  location : option (option string);
  type : option (option string);
  related_job_id : option (option string);
  preferred_date : option (option (list string))
}.
End JobUpdateModel.

Module StoredDriver.
Record t : Type := mk {
  id : string;
  available_hours : option Z;
  name : option string;
  email : option string;
  phone : option string
}.
End StoredDriver.

Module DriverUpdateModel.
Record t : Type := mk {
  available_hours : option (option Z);
  name : option (option string);
  email : option (option string);
  phone : option (option string)
}.
End DriverUpdateModel.

Definition HTTP_404_NOT_FOUND : Z := 404.

(** The validated body of [create_job], as an object of the store; an empty
    id is replaced by [str(uuid.uuid4())], here [uuid4] *)
Definition new_job (uuid4 : string) (job : JobModel.t) : StoredJob.t :=
  {| StoredJob.id :=
       if String.eqb (JobModel.id job) "" then uuid4 else JobModel.id job;
     StoredJob.location := Some (JobModel.location job);
     StoredJob.type := Some (JobModel.type job);
     StoredJob.related_job_id := JobModel.related_job_id job;
     StoredJob.preferred_date := JobModel.preferred_date job |}.

(** [for key, value in update_data.items(): setattr(current_job, key, value)] *)
Definition set_job_attrs (job_update : JobUpdateModel.t)
  (current_job : StoredJob.t) : StoredJob.t :=
  {| StoredJob.id := StoredJob.id current_job;
     StoredJob.location :=
       default (StoredJob.location current_job)
         (JobUpdateModel.location job_update);
     StoredJob.type :=
       default (StoredJob.type current_job) (JobUpdateModel.type job_update);
     StoredJob.related_job_id :=
       default (StoredJob.related_job_id current_job)
         (JobUpdateModel.related_job_id job_update);
     StoredJob.preferred_date :=
       default (StoredJob.preferred_date current_job)
         (JobUpdateModel.preferred_date job_update) |}.

Definition get_jobs (jobs_db : list (string * StoredJob.t)) : list StoredJob.t :=
  jobs_db.*2.

Definition get_job (job_id : string) (jobs_db : list (string * StoredJob.t))
  : result StoredJob.t :=
  if negb (odict_contains jobs_db job_id) then
    Raise (HTTPException HTTP_404_NOT_FOUND "Job not found")
  else
    match odict_get jobs_db job_id with
    | Some job => Ok job
    | None => Raise (KeyError job_id)
    end.

(** The new store and the job returned *)
Definition create_job (uuid4 : string) (job : JobModel.t)
  (jobs_db : list (string * StoredJob.t))
  : list (string * StoredJob.t) * StoredJob.t :=
  let job := new_job uuid4 job in
  (odict_set jobs_db (StoredJob.id job) job, job).

Definition update_job (job_id : string) (job_update : JobUpdateModel.t)
  (jobs_db : list (string * StoredJob.t))
  : result (list (string * StoredJob.t) * StoredJob.t) :=
  if negb (odict_contains jobs_db job_id) then
    Raise (HTTPException HTTP_404_NOT_FOUND "Job not found")
  else
    match odict_get jobs_db job_id with
    | Some current_job =>
        let current_job := set_job_attrs job_update current_job in
        Ok (odict_set jobs_db job_id current_job, current_job)
    | None => Raise (KeyError job_id)
    end.

Definition delete_job (job_id : string) (jobs_db : list (string * StoredJob.t))
  : result (list (string * StoredJob.t)) :=
  if negb (odict_contains jobs_db job_id) then
    Raise (HTTPException HTTP_404_NOT_FOUND "Job not found")
  else Ok (odict_del jobs_db job_id).

Definition new_driver (uuid4 : string) (driver : DriverModel.t)
  : StoredDriver.t :=
  {| StoredDriver.id :=
       if String.eqb (DriverModel.id driver) "" then uuid4
       else DriverModel.id driver;
     StoredDriver.available_hours := Some (DriverModel.available_hours driver);
     StoredDriver.name := DriverModel.name driver;
     StoredDriver.email := DriverModel.email driver;
     StoredDriver.phone := DriverModel.phone driver |}.

Definition set_driver_attrs (driver_update : DriverUpdateModel.t)
  (current_driver : StoredDriver.t) : StoredDriver.t :=
  {| StoredDriver.id := StoredDriver.id current_driver;
     StoredDriver.available_hours :=
       default (StoredDriver.available_hours current_driver)
         (DriverUpdateModel.available_hours driver_update);
     StoredDriver.name :=
       default (StoredDriver.name current_driver)
         (DriverUpdateModel.name driver_update);
     StoredDriver.email :=
       default (StoredDriver.email current_driver)
         (DriverUpdateModel.email driver_update);
     StoredDriver.phone :=
       default (StoredDriver.phone current_driver)
         (DriverUpdateModel.phone driver_update) |}.

Definition get_drivers (drivers_db : list (string * StoredDriver.t))
  : list StoredDriver.t :=
  drivers_db.*2.

Definition get_driver (driver_id : string)
  (drivers_db : list (string * StoredDriver.t)) : result StoredDriver.t :=
  if negb (odict_contains drivers_db driver_id) then
    Raise (HTTPException HTTP_404_NOT_FOUND "Driver not found")
  else
    match odict_get drivers_db driver_id with
    | Some driver => Ok driver
    | None => Raise (KeyError driver_id)
    end.

Definition create_driver (uuid4 : string) (driver : DriverModel.t)
  (drivers_db : list (string * StoredDriver.t))
  : list (string * StoredDriver.t) * StoredDriver.t :=
  let driver := new_driver uuid4 driver in
  (odict_set drivers_db (StoredDriver.id driver) driver, driver).

Definition update_driver (driver_id : string)
  (driver_update : DriverUpdateModel.t)
  (drivers_db : list (string * StoredDriver.t))
  : result (list (string * StoredDriver.t) * StoredDriver.t) :=
  if negb (odict_contains drivers_db driver_id) then
    Raise (HTTPException HTTP_404_NOT_FOUND "Driver not found")
  else
    match odict_get drivers_db driver_id with
    | Some current_driver =>
        let current_driver := set_driver_attrs driver_update current_driver in
        Ok (odict_set drivers_db driver_id current_driver, current_driver)
    | None => Raise (KeyError driver_id)
    end.

Definition delete_driver (driver_id : string)
  (drivers_db : list (string * StoredDriver.t))
  : result (list (string * StoredDriver.t)) :=
  if negb (odict_contains drivers_db driver_id) then
    Raise (HTTPException HTTP_404_NOT_FOUND "Driver not found")
  else Ok (odict_del drivers_db driver_id).

(** A store is well formed when no key occurs twice and every object is
    kept under its own id *)
Definition jobs_db_ok (jobs_db : list (string * StoredJob.t)) : Prop :=
  NoDup jobs_db.*1 ∧ ∀ k job, (k, job) ∈ jobs_db → StoredJob.id job = k.

Definition drivers_db_ok (drivers_db : list (string * StoredDriver.t)) : Prop :=
  NoDup drivers_db.*1
  ∧ ∀ k driver, (k, driver) ∈ drivers_db → StoredDriver.id driver = k.

(** The stores that the endpoints can build, starting from the empty dict *)
Inductive jobs_db_reachable : list (string * StoredJob.t) → Prop :=
  | jobs_db_empty : jobs_db_reachable []
  | jobs_db_create uuid4 job jobs_db :
      jobs_db_reachable jobs_db →
      jobs_db_reachable (create_job uuid4 job jobs_db).1
  | jobs_db_update job_id job_update jobs_db jobs_db' job :
      jobs_db_reachable jobs_db →
      update_job job_id job_update jobs_db = Ok (jobs_db', job) →
      jobs_db_reachable jobs_db'
  | jobs_db_delete job_id jobs_db jobs_db' :
      jobs_db_reachable jobs_db →
      delete_job job_id jobs_db = Ok jobs_db' →
      jobs_db_reachable jobs_db'.

Inductive drivers_db_reachable : list (string * StoredDriver.t) → Prop :=
  | drivers_db_empty : drivers_db_reachable []
  | drivers_db_create uuid4 driver drivers_db :
      drivers_db_reachable drivers_db →
      drivers_db_reachable (create_driver uuid4 driver drivers_db).1
  | drivers_db_update driver_id driver_update drivers_db drivers_db' driver :
      drivers_db_reachable drivers_db →
      update_driver driver_id driver_update drivers_db
      = Ok (drivers_db', driver) →
      drivers_db_reachable drivers_db'
  | drivers_db_delete driver_id drivers_db drivers_db' :
      drivers_db_reachable drivers_db →
      delete_driver driver_id drivers_db = Ok drivers_db' →
      drivers_db_reachable drivers_db'.

Module Stored.

Definition job : JobModel.t :=
  {| JobModel.id := "";
     JobModel.location := "3 Mill Lane, Dudley";
     JobModel.type := "delivery";
     JobModel.related_job_id := None;
     JobModel.preferred_date := None |}.

Definition uuid4 : string := "6f1c2a9e-5b7d-4c3a-9e21-0d4b8a7c1f35".

Definition driver : DriverModel.t :=
  {| DriverModel.id := "d1";
     DriverModel.available_hours := 8;
     DriverModel.name := Some "Sam";
     DriverModel.email := None;
     DriverModel.phone := None |}.

End Stored.

Module AtDepot.

(** A collection at the depot's own address *)
Definition job : JobModel.t :=
  {| JobModel.id := "D";
     JobModel.location := "Birmingham, UK";
     JobModel.type := "collection";
     JobModel.related_job_id := None;
     JobModel.preferred_date := None |}.

Definition entry : JobEntry.t :=
  {| JobEntry.id := "D";
     JobEntry.location_idx := 0;
     JobEntry.type := "collection";
     JobEntry.related_job_id := None;
     JobEntry.preferred_date := None |}.

Definition model : DataModel.t :=
  {| DataModel.time_matrix := [[30]];
     DataModel.num_locations := 1;
     DataModel.depot := 0;
     DataModel.num_vehicles := 1;
     DataModel.jobs := [entry];
     DataModel.job_pairs := [];
     DataModel.jobs_by_day := [[0]; [0]; [0]; [0]; [0]]%nat;
     DataModel.max_time_per_vehicle := 540 |}.

(** The only vehicle stays at the depot *)
Definition stay : Assignment := λ _, [(0%nat, 0)].

End AtDepot.

(** * Properties *)

(** ** The handler on an empty job list *)

(** C1: on an empty [jobs] list the handler raises the 400 validation error
    inside its own [try] block, whose [except Exception] clause catches it
    and raises a 500 in its place; the request is answered with status 500,
    whatever the drivers, the vehicle count and the collaborators are. *)
Theorem optimize_routes_empty_jobs_status_500 (env : Env)
  (drivers : list DriverModel.t) (num_drivers_per_day : Z) :
  optimize_routes env
    {| OptimizationRequest.jobs := [];
       OptimizationRequest.drivers := drivers;
       OptimizationRequest.num_drivers_per_day := num_drivers_per_day |}
  = Raise (HTTPException HTTP_500_INTERNAL_SERVER_ERROR
             ("Route optimization failed: "
                +:+ str_exn (HTTPException HTTP_400_BAD_REQUEST
                               "No jobs provided for optimization"))).
Proof. reflexivity. Qed.

(** C2, as stated, fails: with zero jobs the handler does not return the
    empty result. *)
Lemma optimize_routes_zero_jobs_not_empty_result :
  optimize_routes (Example.env Example.infeasible) Example.empty_request
  ≠ Ok {| OptimizationResponse.routes := [];
          OptimizationResponse.unassigned := [] |}.
Proof. discriminate. Qed.

(** C2, amended: with zero jobs the handler returns no result; it raises an
    HTTP error, and it does so without consulting any collaborator (the
    outcome is the same in every environment). *)
Theorem optimize_routes_zero_jobs_rejected (env : Env)
  (request : OptimizationRequest.t) :
  OptimizationRequest.jobs request = [] →
  is_ok (optimize_routes env request) = false
  ∧ (∃ status_code detail,
       optimize_routes env request = Raise (HTTPException status_code detail))
  ∧ ∀ env', optimize_routes env' request = optimize_routes env request.
Proof.
  intros Hjobs. unfold optimize_routes, optimize_body. rewrite Hjobs. simpl.
  split; [done|]. split; [by eexists _, _|done].
Qed.

Lemma optimize_routes_zero_jobs_rejected_witness :
  OptimizationRequest.jobs Example.empty_request = []
  ∧ is_ok (optimize_routes (Example.env Example.infeasible)
             Example.empty_request) = false.
Proof.
  split; [reflexivity|].
  apply (optimize_routes_zero_jobs_rejected
           (Example.env Example.infeasible) Example.empty_request).
  reflexivity.
Defined.

(** ** Inverting the [result] monad *)

Lemma bind_Ok {A B} (m : result A) (f : A → result B) (b : B) :
  m ≫= f = Ok b ↔ ∃ a, m = Ok a ∧ f a = Ok b.
Proof.
  destruct m as [a|e]; simpl.
  - split; [by exists a|]. by intros (a' & [= ->] & ?).
  - split; [done|]. by intros (a' & ? & ?).
Qed.

Lemma list_index_Ok {A} (l : list A) (i : nat) (x : A) :
  list_index l i = Ok x ↔ l !! i = Some x.
Proof. unfold list_index. destruct (l !! i); split; congruence. Qed.

Ltac inv_bind H :=
  repeat match type of H with
    | _ ≫= _ = Ok _ =>
        let a := fresh "a" in
        let Ha := fresh "H" a in
        apply bind_Ok in H as (a & Ha & H)
    | mret _ = Ok _ => injection H as H
    | Ok _ = Ok _ => injection H as H
    end.

(** ** The day's unassigned list *)

Lemma is_assigned_stop_ids (routes : list VehicleRoute.t) (job_id : string) :
  is_assigned routes job_id = true ↔ job_id ∈ stop_ids routes.
Proof.
  unfold is_assigned, stop_ids. rewrite existsb_exists, list_elem_of_bind.
  split.
  - intros (route & Hroute & Hstops). apply existsb_exists in Hstops as (stop & Hstop & Heq).
    apply String.eqb_eq in Heq. exists route. rewrite list_elem_of_fmap.
    split; [|by apply list_elem_of_In]. exists stop. by rewrite list_elem_of_In.
  - intros (route & Hstops & Hroute). apply list_elem_of_fmap in Hstops as (stop & -> & Hstop).
    exists route. split; [by apply list_elem_of_In|].
    apply existsb_exists. exists stop. split; [by apply list_elem_of_In|].
    apply String.eqb_refl.
Qed.

Lemma is_assigned_false (routes : list VehicleRoute.t) (job_id : string) :
  is_assigned routes job_id = false ↔ job_id ∉ stop_ids routes.
Proof.
  rewrite <- is_assigned_stop_ids.
  by destruct (is_assigned routes job_id); split.
Qed.

Lemma foldl_add_unassigned (routes : list VehicleRoute.t) (allowed_jobs : list nat)
  (l : list (nat * JobEntry.t)) (acc : list string) :
  foldl (add_unassigned routes allowed_jobs) acc l
  = acc ++ ((λ ij, JobEntry.id ij.2)
              <$> filter (λ ij, is_assigned routes (JobEntry.id ij.2) = false
                                ∧ ij.1 ∈ allowed_jobs) l).
Proof.
  revert acc. induction l as [|[job_idx job] l IH]; intros acc; simpl.
  - by rewrite app_nil_r.
  - rewrite IH, filter_cons.
    destruct (decide _) as [[Hna Hal]|Hn]; simpl in *.
    + rewrite Hna. simpl. rewrite bool_decide_eq_true_2 by done.
      by rewrite <- app_assoc.
    + destruct (is_assigned routes (JobEntry.id job)) eqn:E; simpl; [done|].
      rewrite bool_decide_eq_false_2; [done|]. intros Hal. by apply Hn.
Qed.

Lemma elem_of_enumerate {A} (l : list A) (i : nat) (x : A) :
  (i, x) ∈ enumerate l ↔ l !! i = Some x.
Proof.
  unfold enumerate. rewrite elem_of_lookup_imap. split.
  - by intros (i' & x' & [= -> ->] & ?).
  - intros ?. by exists i, x.
Qed.

Lemma elem_of_collect_unassigned (jobs : list JobEntry.t)
  (routes : list VehicleRoute.t) (allowed_jobs : list nat) (job_id : string) :
  job_id ∈ collect_unassigned jobs routes allowed_jobs
  ↔ ∃ job_idx job, jobs !! job_idx = Some job ∧ JobEntry.id job = job_id
                   ∧ (job_id ∉ stop_ids routes) ∧ job_idx ∈ allowed_jobs.
Proof.
  unfold collect_unassigned. rewrite foldl_add_unassigned. simpl.
  rewrite list_elem_of_fmap. split.
  - intros ([job_idx job] & -> & Hin). apply list_elem_of_filter in Hin as [[Hna Hal] Hin].
    apply elem_of_enumerate in Hin. apply is_assigned_false in Hna. simpl in *.
    by exists job_idx, job.
  - intros (job_idx & job & Hjob & <- & Hna & Hal). exists (job_idx, job).
    split; [done|]. apply list_elem_of_filter. simpl.
    rewrite is_assigned_false, elem_of_enumerate. done.
Qed.

Lemma solve_vrp_Ok (env : Env) (data_model : DataModel.t) (day_index : nat)
  (routes : list VehicleRoute.t) (unassigned : list string) :
  solve_vrp env data_model day_index = Ok (routes, unassigned) →
  ∃ allowed_jobs,
    DataModel.jobs_by_day data_model !! day_index = Some allowed_jobs
    ∧ unassigned
      = collect_unassigned (DataModel.jobs data_model) routes allowed_jobs.
Proof.
  unfold solve_vrp. intros H. inv_bind H.
  apply list_index_Ok in Ha0. exists a0. by simplify_eq.
Qed.

(** C5: on every day and for every outcome of the solver, the job id of an
    entry eligible that day is either among the stops of the day's routes or
    in the day's unassigned list, and never in both. *)
Theorem solve_vrp_eligible_in_exactly_one (env : Env) (data_model : DataModel.t)
  (day_index : nat) (routes : list VehicleRoute.t) (unassigned : list string)
  (allowed_jobs : list nat) (job_idx : nat) (job : JobEntry.t) :
  solve_vrp env data_model day_index = Ok (routes, unassigned) →
  DataModel.jobs_by_day data_model !! day_index = Some allowed_jobs →
  job_idx ∈ allowed_jobs →
  DataModel.jobs data_model !! job_idx = Some job →
  (JobEntry.id job ∈ stop_ids routes ∧ (JobEntry.id job ∉ unassigned))
  ∨ ((JobEntry.id job ∉ stop_ids routes) ∧ JobEntry.id job ∈ unassigned).
Proof.
  intros Hsolve Hday Hal Hjob.
  apply solve_vrp_Ok in Hsolve as (allowed' & Hday' & ->).
  assert (allowed' = allowed_jobs) as -> by congruence.
  destruct (decide (JobEntry.id job ∈ stop_ids routes)) as [Hin|Hnin].
  - left. split; [done|]. rewrite elem_of_collect_unassigned.
    by intros (? & ? & _ & _ & Hnin & _).
  - right. split; [done|]. rewrite elem_of_collect_unassigned.
    by exists job_idx, job.
Qed.

Lemma solve_vrp_eligible_in_exactly_one_witness :
  (JobEntry.id Example.second_entry ∈ stop_ids [Example.first_stop_route]
   ∧ (JobEntry.id Example.second_entry ∉ ["B"]))
  ∨ ((JobEntry.id Example.second_entry ∉ stop_ids [Example.first_stop_route])
     ∧ JobEntry.id Example.second_entry ∈ ["B"]).
Proof.
  apply (solve_vrp_eligible_in_exactly_one
           (Example.env Example.visit_solver) Example.shared_model 0
           [Example.first_stop_route] ["B"] [0; 1]%nat 1 Example.second_entry).
  - vm_compute. reflexivity.
  - reflexivity.
  - apply (bool_decide_unpack _). vm_compute. exact I.
  - reflexivity.
Defined.

(** ** Two entries at one location *)

Lemma create_shared_model :
  create_data_model (Example.env Example.visit_solver)
    [Example.first_job None; Example.second_job] 1 9
  = Ok Example.shared_model.
Proof. vm_compute. reflexivity. Qed.

Lemma create_dated_model :
  create_data_model (Example.env Example.visit_solver)
    [Example.first_job (Some ["2025-01-06"]); Example.second_job] 1 9
  = Ok Example.dated_model.
Proof. vm_compute. reflexivity. Qed.

(** C3: two deliveries to one address, both eligible on the first day, and a
    solution whose first vehicle visits that address.  The second entry's
    location index is on the vehicle's visit list, yet [solve_vrp] lists the
    entry as unassigned for the day: the loop looks for the entry's job id
    among the stops, not for its location among the visits. *)
Theorem solve_vrp_unassigned_although_visited :
  let env := Example.env Example.visit_solver in
  create_data_model env [Example.first_job None; Example.second_job] 1 9
  = Ok Example.shared_model
  ∧ DataModel.jobs_by_day Example.shared_model !! 0%nat = Some [0; 1]%nat
  ∧ DataModel.jobs Example.shared_model !! 1%nat = Some Example.second_entry
  ∧ JobEntry.location_idx Example.second_entry ∈ (Example.one_visit 0%nat).*1
  ∧ solve_vrp env Example.shared_model 0 = Ok ([Example.first_stop_route], ["B"]).
Proof.
  simpl. split; [apply create_shared_model|].
  split; [reflexivity|]. split; [reflexivity|].
  split; [|vm_compute; reflexivity].
  apply (bool_decide_unpack _). vm_compute. exact I.
Qed.

(** C9: there are an input and a solution for which a day's stops carry the
    job id of an entry that is not eligible that day.  The first delivery is
    wanted three days from today only, the second on any day; both go to the
    same address.  On the first day the solution keeps to the allowed nodes
    and visits the address for the second entry, and the stop is given the
    id of the first entry, which precedes it in input order: the scan that
    attaches a job to a visit never looks at the day's eligibility. *)
Theorem stop_carries_ineligible_entry :
  ∃ (env : Env) (jobs : list JobModel.t) (data_model : DataModel.t)
    (day_index : nat) (solution : Assignment)
    (routes : list VehicleRoute.t) (unassigned : list string)
    (allowed_jobs : list nat) (job_idx eligible_idx : nat)
    (job eligible_job : JobEntry.t),
    create_data_model env jobs 1 9 = Ok data_model
    ∧ (∀ routing, SolveWithParameters env day_index routing = Some solution)
    ∧ solve_vrp env data_model day_index = Ok (routes, unassigned)
    ∧ DataModel.jobs_by_day data_model !! day_index = Some allowed_jobs
    ∧ (∀ vehicle_id node,
         node ∈ (solution vehicle_id).*1 →
         node = 0%nat
         ∨ ∃ j job', j ∈ allowed_jobs
                     ∧ DataModel.jobs data_model !! j = Some job'
                     ∧ JobEntry.location_idx job' = node)
    ∧ DataModel.jobs data_model !! job_idx = Some job
    ∧ DataModel.jobs data_model !! eligible_idx = Some eligible_job
    ∧ (job_idx ∉ allowed_jobs)
    ∧ eligible_idx ∈ allowed_jobs
    ∧ JobEntry.location_idx job = JobEntry.location_idx eligible_job
    ∧ (job_idx < eligible_idx)%nat
    ∧ (∀ k job', DataModel.jobs data_model !! k = Some job' →
                 JobEntry.id job' = JobEntry.id job → k = job_idx)
    ∧ JobEntry.id job ∈ stop_ids routes.
Proof.
  exists (Example.env Example.visit_solver),
    [Example.first_job (Some ["2025-01-06"]); Example.second_job],
    Example.dated_model, 0%nat, Example.one_visit,
    [Example.first_stop_route], ["B"], [1%nat], 0%nat, 1%nat,
    (Example.first_entry (Some ["2025-01-06"])), Example.second_entry.
  split; [apply create_dated_model|].
  split; [done|].
  split; [vm_compute; reflexivity|].
  split; [reflexivity|].
  split.
  { intros vehicle_id node Hnode.
    assert (node = 0%nat ∨ node = 1%nat) as [->| ->].
    { destruct vehicle_id; simpl in Hnode; set_solver. }
    - by left.
    - right. exists 1%nat, Example.second_entry. set_solver. }
  split; [reflexivity|]. split; [reflexivity|].
  split; [set_solver|]. split; [set_solver|].
  split; [reflexivity|]. split; [lia|].
  split; [|set_solver].
  intros [|[|k]] job'; simpl; [done| |done].
  intros [= <-]. discriminate.
Qed.

(** ** Day eligibility *)

Ltac option_arith :=
  repeat match goal with
    | H : _ ∧ _ |- _ => destruct H
    | H : Some _ = Some _ |- _ => injection H as H
    | H : Some ?a ≠ Some ?b |- _ => assert (a ≠ b) by congruence; clear H
    | H : Some _ = None |- _ => discriminate H
    | H : None = Some _ |- _ => discriminate H
    end;
  lia.

Lemma enumerate_snoc {A} (l : list A) (x : A) :
  enumerate (l ++ [x]) = enumerate l ++ [(length l, x)].
Proof.
  unfold enumerate. rewrite imap_app. simpl. by rewrite Nat.add_0_r.
Qed.

Lemma length_append_day (i : nat) (jobs_by_day : list (list nat)) (d : nat) :
  length (append_day i jobs_by_day d) = length jobs_by_day.
Proof. apply length_alter. Qed.

Lemma occurrences_append_day (i k : nat) (jobs_by_day : list (list nat))
  (d d' : nat) :
  (d < length jobs_by_day)%nat →
  occurrences i (append_day k jobs_by_day d) d'
  = (occurrences i jobs_by_day d'
     + if decide (d = d' ∧ k = i) then 1 else 0)%nat.
Proof.
  intros Hd. unfold occurrences, append_day.
  destruct (decide (d = d')) as [<-|Hne].
  - rewrite list_lookup_alter_eq.
    destruct (lookup_lt_is_Some_2 jobs_by_day d Hd) as [l ->]. simpl.
    rewrite filter_app, length_app, filter_cons, filter_nil.
    destruct (decide (k = i)) as [->|Hk].
    + by rewrite decide_True.
    + rewrite decide_False by tauto. done.
  - rewrite list_lookup_alter_ne by done.
    rewrite decide_False by tauto. by rewrite Nat.add_0_r.
Qed.

Lemma length_append_all_days (i : nat) (jobs_by_day : list (list nat)) :
  length (append_all_days i jobs_by_day) = length jobs_by_day.
Proof.
  unfold append_all_days. simpl. by rewrite !length_append_day.
Qed.

Lemma occurrences_append_all_days (i k : nat) (jobs_by_day : list (list nat))
  (d' : nat) :
  length jobs_by_day = 5%nat → (d' < 5)%nat →
  occurrences i (append_all_days k jobs_by_day) d'
  = (occurrences i jobs_by_day d' + if decide (k = i) then 1 else 0)%nat.
Proof.
  intros Hlen Hd'. unfold append_all_days. simpl.
  rewrite !occurrences_append_day by (rewrite ?length_append_day; lia).
  destruct (decide (k = i)) as [->|Hk].
  - do 5 (destruct d' as [|d']; [repeat case_decide; lia|]). lia.
  - repeat case_decide; lia.
Qed.

Lemma length_add_preferred_date (env : Env) (i : nat)
  (jobs_by_day : list (list nat)) (date_str : string) :
  length (add_preferred_date env i jobs_by_day date_str) = length jobs_by_day.
Proof.
  unfold add_preferred_date. destruct (fromisoformat_date env date_str).
  - case_bool_decide; [apply length_append_day|done].
  - apply length_append_all_days.
Qed.

Lemma occurrences_add_preferred_date (env : Env) (i k : nat)
  (jobs_by_day : list (list nat)) (date_str : string) (d' : nat) :
  length jobs_by_day = 5%nat → (d' < 5)%nat →
  occurrences i (add_preferred_date env k jobs_by_day date_str) d'
  = (occurrences i jobs_by_day d'
     + if decide (k = i) then
         (if decide (date_offset env date_str = Some (Z.of_nat d')) then 1 else 0)
         + (if decide (date_offset env date_str = None) then 1 else 0)
       else 0)%nat.
Proof.
  intros Hlen Hd'. unfold add_preferred_date, date_offset.
  destruct (fromisoformat_date env date_str) as [job_date|]; simpl.
  - case_bool_decide as Hrange.
    + rewrite occurrences_append_day by lia.
      repeat case_decide; option_arith.
    + repeat case_decide; option_arith.
  - rewrite occurrences_append_all_days by done.
    repeat case_decide; option_arith.
Qed.

Lemma occurrences_foldl_dates (env : Env) (i k : nat) (dates : list string)
  (jobs_by_day : list (list nat)) (d' : nat) :
  length jobs_by_day = 5%nat → (d' < 5)%nat →
  length (foldl (add_preferred_date env k) jobs_by_day dates) = 5%nat
  ∧ occurrences i (foldl (add_preferred_date env k) jobs_by_day dates) d'
    = (occurrences i jobs_by_day d'
       + if decide (k = i) then
           length (filter (λ s, date_offset env s = Some (Z.of_nat d')) dates)
           + length (filter (λ s, date_offset env s = None) dates)
         else 0)%nat.
Proof.
  intros Hlen Hd'. revert jobs_by_day Hlen.
  induction dates as [|s dates IH]; intros jobs_by_day Hlen; simpl.
  - split; [done|]. case_decide; lia.
  - destruct (IH (add_preferred_date env k jobs_by_day s)) as [IHlen IHocc].
    { by rewrite length_add_preferred_date. }
    split; [done|]. rewrite IHocc, occurrences_add_preferred_date by done.
    rewrite !filter_cons.
    repeat case_decide; simpl; lia.
Qed.

Lemma occurrences_add_job_days (env : Env) (i k : nat) (job : JobEntry.t)
  (jobs_by_day : list (list nat)) (d' : nat) :
  length jobs_by_day = 5%nat → (d' < 5)%nat →
  length (add_job_days env jobs_by_day (k, job)) = 5%nat
  ∧ occurrences i (add_job_days env jobs_by_day (k, job)) d'
    = (occurrences i jobs_by_day d'
       + if decide (k = i) then times_added env job d' else 0)%nat.
Proof.
  intros Hlen Hd'. unfold add_job_days, times_added.
  destruct (JobEntry.preferred_date job) as [[|s dates]|]; simpl truthy_list; cbv iota.
  - split; [by rewrite length_append_all_days|].
    by rewrite occurrences_append_all_days.
  - apply (occurrences_foldl_dates env i k (s :: dates)); done.
  - split; [by rewrite length_append_all_days|].
    by rewrite occurrences_append_all_days.
Qed.

Lemma occurrences_build_jobs_by_day (env : Env) (jobs : list JobEntry.t)
  (i d : nat) :
  (d < 5)%nat →
  length (build_jobs_by_day env jobs) = 5%nat
  ∧ occurrences i (build_jobs_by_day env jobs) d
    = match jobs !! i with
      | Some job => times_added env job d
      | None => 0%nat
      end.
Proof.
  intros Hd. unfold build_jobs_by_day.
  induction jobs as [|job jobs [IHlen IHocc]] using rev_ind.
  - split; [done|]. simpl. unfold occurrences.
    by do 5 (destruct d as [|d]; [done|]); lia.
  - rewrite enumerate_snoc, foldl_app. cbn [foldl].
    destruct (occurrences_add_job_days env i (length jobs) job
                (foldl (add_job_days env) (replicate 5 []) (enumerate jobs)) d)
      as [Hlen Hocc]; [done..|].
    split; [done|]. rewrite Hocc, IHocc.
    destruct (decide (length jobs = i)) as [<-|Hne].
    + rewrite lookup_ge_None_2 by lia.
      by rewrite list_lookup_middle.
    + destruct (decide (i < length jobs)%nat).
      * rewrite lookup_app_l by done. lia.
      * rewrite !lookup_ge_None_2; [done| |lia].
        rewrite length_app. simpl. lia.
Qed.

Lemma filter_length_pos {A} (P : A → Prop) `{!∀ x, Decision (P x)} (l : list A) :
  (0 < length (filter P l))%nat ↔ ∃ x, x ∈ l ∧ P x.
Proof.
  split.
  - destruct (filter P l) as [|x k] eqn:E; simpl; [lia|]. intros _.
    assert (x ∈ filter P l) as Hx by (rewrite E; left).
    apply list_elem_of_filter in Hx as [? ?]. by exists x.
  - intros (x & Hx & HP).
    assert (x ∈ filter P l) as Hin by by apply list_elem_of_filter.
    destruct (filter P l); [by apply elem_of_nil in Hin|simpl; lia].
Qed.

Lemma times_added_pos (env : Env) (job : JobEntry.t) (d : nat) :
  (0 < times_added env job d)%nat ↔ eligible_on env job d.
Proof.
  unfold times_added, eligible_on.
  destruct (JobEntry.preferred_date job) as [[|s dates]|];
    [split; auto with lia| |split; auto with lia].
  set (l := s :: dates). clearbody l. split.
  - intros Hpos.
    assert ((0 < length (filter (λ s, date_offset env s = Some (Z.of_nat d)) l))%nat
            ∨ (0 < length (filter (λ s, date_offset env s = None) l))%nat)
      as [H|H] by lia;
      apply filter_length_pos in H as (x & Hx & HP); exists x; auto.
  - intros (x & Hx & [HP|HP]).
    + assert (0 < length (filter (λ s, date_offset env s = Some (Z.of_nat d)) l))%nat;
        [apply filter_length_pos; by exists x|lia].
    + assert (0 < length (filter (λ s, date_offset env s = None) l))%nat;
        [apply filter_length_pos; by exists x|lia].
Qed.

Lemma occurrences_elem_of (i : nat) (jobs_by_day : list (list nat)) (d : nat)
  (l : list nat) :
  jobs_by_day !! d = Some l →
  i ∈ l ↔ (0 < occurrences i jobs_by_day d)%nat.
Proof.
  intros Hl. unfold occurrences. rewrite Hl, filter_length_pos. split.
  - intros ?. by exists i.
  - by intros (x & ? & ->).
Qed.

(** ** What [create_data_model] returns *)

Lemma map_jobs_with_indices_Ok (location_indices : gmap string nat)
  (jobs : list JobModel.t) (entries : list JobEntry.t) :
  map_jobs_with_indices location_indices jobs = Ok entries →
  Forall2 (λ job entry,
             JobEntry.id entry = JobModel.id job
             ∧ location_indices !! JobModel.location job
               = Some (JobEntry.location_idx entry)
             ∧ JobEntry.type entry = JobModel.type job
             ∧ JobEntry.related_job_id entry = JobModel.related_job_id job
             ∧ JobEntry.preferred_date entry = JobModel.preferred_date job)
          jobs entries.
Proof.
  revert entries. induction jobs as [|job jobs IH]; intros entries H; simpl in H.
  - injection H as <-. constructor.
  - inv_bind H. subst entries. constructor; [|by apply IH].
    unfold job_with_index in Ha. inv_bind Ha. subst a. simpl.
    unfold dict_index in Ha1.
    destruct (location_indices !! JobModel.location job); by simplify_eq.
Qed.

Lemma create_data_model_Ok (env : Env) (jobs : list JobModel.t)
  (num_drivers_per_day max_hours_per_driver : Z) (data_model : DataModel.t) :
  create_data_model env jobs num_drivers_per_day max_hours_per_driver
  = Ok data_model →
  ∃ unique_locations location_indices,
    index_locations (DEPOT_LOCATION env :: (JobModel.location <$> jobs))
    = (unique_locations, location_indices)
    ∧ compute_time_matrix env unique_locations
      = Ok (DataModel.time_matrix data_model)
    ∧ map_jobs_with_indices location_indices jobs
      = Ok (DataModel.jobs data_model)
    ∧ DataModel.num_locations data_model = length unique_locations
    ∧ DataModel.depot data_model = 0%nat
    ∧ DataModel.num_vehicles data_model = num_drivers_per_day
    ∧ DataModel.job_pairs data_model
      = build_job_pairs (DataModel.jobs data_model)
    ∧ DataModel.jobs_by_day data_model
      = build_jobs_by_day env (DataModel.jobs data_model)
    ∧ DataModel.max_time_per_vehicle data_model = max_hours_per_driver * 60.
Proof.
  unfold create_data_model. intros H.
  destruct (index_locations _) as [unique_locations location_indices].
  exists unique_locations, location_indices.
  inv_bind H. subst data_model. simpl. done.
Qed.

(** C6: the day eligibility of the data model has five days, and on each of
    them an entry occurs once when it has no preferred dates, and otherwise
    once for every date string that parses to that day's offset from today
    and once for every date string that does not parse; a date that parses
    to an offset outside [0,5) adds nothing.  As a set: the entry is in the
    day's list exactly when it has no preferred dates, or one of its date
    strings parses to that offset or does not parse. *)
Theorem jobs_by_day_eligibility (env : Env) (jobs : list JobModel.t)
  (num_drivers_per_day max_hours_per_driver : Z) (data_model : DataModel.t) :
  create_data_model env jobs num_drivers_per_day max_hours_per_driver
  = Ok data_model →
  length (DataModel.jobs_by_day data_model) = 5%nat
  ∧ (∀ d i, (d < 5)%nat →
       occurrences i (DataModel.jobs_by_day data_model) d
       = match DataModel.jobs data_model !! i with
         | Some job => times_added env job d
         | None => 0%nat
         end)
  ∧ (∀ d i job allowed_jobs,
       DataModel.jobs_by_day data_model !! d = Some allowed_jobs →
       DataModel.jobs data_model !! i = Some job →
       i ∈ allowed_jobs ↔ eligible_on env job d).
Proof.
  intros H.
  apply create_data_model_Ok in H as (? & ? & _ & _ & _ & _ & _ & _ & _ & Hdays & _).
  rewrite Hdays.
  split; [by apply (occurrences_build_jobs_by_day env _ 0 0); lia|].
  split.
  - intros d i Hd. by apply occurrences_build_jobs_by_day.
  - intros d i job allowed_jobs Hallowed Hjob.
    assert (d < 5)%nat as Hd.
    { apply lookup_lt_Some in Hallowed.
      by rewrite (proj1 (occurrences_build_jobs_by_day env _ 0 0 ltac:(lia))) in Hallowed. }
    rewrite (occurrences_elem_of _ _ _ _ Hallowed).
    rewrite (proj2 (occurrences_build_jobs_by_day env _ i d Hd)), Hjob.
    apply times_added_pos.
Qed.

Lemma jobs_by_day_eligibility_witness :
  create_data_model (Example.env Example.visit_solver)
    [Example.first_job (Some ["2025-01-06"]); Example.second_job] 1 9
  = Ok Example.dated_model
  ∧ length (DataModel.jobs_by_day Example.dated_model) = 5%nat.
Proof.
  split; [vm_compute; reflexivity|].
  apply (jobs_by_day_eligibility (Example.env Example.visit_solver)
           [Example.first_job (Some ["2025-01-06"]); Example.second_job] 1 9
           Example.dated_model).
  vm_compute. reflexivity.
Defined.

(** ** Job pairs *)

Lemma job_id_to_idx_snoc (jobs : list JobEntry.t) (job : JobEntry.t) :
  job_id_to_idx (jobs ++ [job])
  = <[JobEntry.id job := length jobs]> (job_id_to_idx jobs).
Proof.
  unfold job_id_to_idx. by rewrite enumerate_snoc, foldl_app.
Qed.

(** The map from ids to indices holds, for an id, the index of the last
    entry that carries it. *)
Lemma job_id_to_idx_lookup (jobs : list JobEntry.t) (related : string) (j : nat) :
  job_id_to_idx jobs !! related = Some j
  ↔ ∃ job, jobs !! j = Some job
           ∧ JobEntry.id job = related
           ∧ ∀ k job', (j < k)%nat → jobs !! k = Some job' →
                       JobEntry.id job' ≠ related.
Proof.
  revert j. induction jobs as [|x jobs IH] using rev_ind; intros j.
  - unfold job_id_to_idx. simpl. rewrite lookup_empty. split; [done|].
    by intros (job & Hjob & _).
  - rewrite job_id_to_idx_snoc.
    destruct (decide (JobEntry.id x = related)) as [Hx|Hx].
    + rewrite Hx, lookup_insert_eq. split.
      * intros [= <-]. exists x. rewrite list_lookup_middle by done.
        split; [done|]. split; [done|]. intros k job' Hk Hjob'.
        apply lookup_lt_Some in Hjob'. rewrite length_app in Hjob'.
        simpl in Hjob'. lia.
      * intros (job & Hjob & Hid & Hlast). f_equal.
        destruct (decide (j = length jobs)) as [->|Hne]; [done|].
        assert (j < length jobs)%nat as Hlt.
        { apply lookup_lt_Some in Hjob. rewrite length_app in Hjob.
          simpl in Hjob. lia. }
        exfalso. apply (Hlast (length jobs) x Hlt); [|done].
        by rewrite list_lookup_middle.
    + rewrite lookup_insert_ne by done. rewrite IH. split.
      * intros (job & Hjob & Hid & Hlast). exists job.
        split; [by apply lookup_app_l_Some|]. split; [done|].
        intros k job' Hk Hjob'.
        destruct (decide (k = length jobs)) as [->|Hne].
        -- rewrite list_lookup_middle in Hjob' by done. by simplify_eq.
        -- apply (Hlast k job' Hk).
           assert (k < length jobs)%nat.
           { apply lookup_lt_Some in Hjob'. rewrite length_app in Hjob'.
             simpl in Hjob'. lia. }
           by rewrite lookup_app_l in Hjob'.
      * intros (job & Hjob & Hid & Hlast).
        destruct (decide (j = length jobs)) as [->|Hne].
        { rewrite list_lookup_middle in Hjob by done. by simplify_eq. }
        assert (j < length jobs)%nat as Hlt.
        { apply lookup_lt_Some in Hjob. rewrite length_app in Hjob.
          simpl in Hjob. lia. }
        rewrite lookup_app_l in Hjob by done.
        exists job. split; [done|]. split; [done|].
        intros k job' Hk Hjob'. apply (Hlast k job' Hk).
        by apply lookup_app_l_Some.
Qed.

Lemma foldl_add_job_pair (job_id_to_idx : gmap string nat)
  (l : list (nat * JobEntry.t)) (job_pairs : list (nat * nat)) :
  foldl (add_job_pair job_id_to_idx) job_pairs l
  = job_pairs ++ omap (pair_of job_id_to_idx) l.
Proof.
  revert job_pairs. induction l as [|[i job] l IH]; intros job_pairs; simpl.
  - by rewrite app_nil_r.
  - rewrite IH. unfold add_job_pair, pair_of. simpl.
    destruct (_ && _); [|done].
    destruct (JobEntry.related_job_id job ≫= _); simpl; [|done].
    by rewrite <- app_assoc.
Qed.

Lemma truthy_str_true (o : option string) :
  truthy_str o = true ↔ ∃ s, o = Some s ∧ s ≠ "".
Proof.
  destruct o as [s|]; simpl.
  - rewrite negb_true_iff, String.eqb_neq. split.
    + intros ?. by exists s.
    + by intros (? & [= <-] & ?).
  - split; [done|]. by intros (? & ? & ?).
Qed.

Lemma pair_of_Some (jobs : list JobEntry.t) (i' : nat) (job : JobEntry.t)
  (i j : nat) :
  pair_of (job_id_to_idx jobs) (i', job) = Some (i, j)
  ↔ i' = i ∧ JobEntry.type job = "collection" ∧ resolves_to jobs job j.
Proof.
  unfold pair_of, resolves_to. simpl. split.
  - destruct (String.eqb _ _) eqn:Htype; simpl; [|done].
    destruct (truthy_str _) eqn:Htruthy; [|done].
    apply String.eqb_eq in Htype.
    apply truthy_str_true in Htruthy as (related & Hrel & Hne).
    rewrite Hrel. simpl. destruct (job_id_to_idx jobs !! related) eqn:Hlook; [|done].
    simpl. intros [= -> ->]. split; [done|]. split; [done|]. by exists related.
  - intros (-> & Htype & related & Hrel & Hne & Hlook).
    rewrite Htype, Hrel. simpl.
    apply String.eqb_neq in Hne. rewrite Hne. simpl. by rewrite Hlook.
Qed.

Lemma elem_of_build_job_pairs (jobs : list JobEntry.t) (i j : nat) :
  (i, j) ∈ build_job_pairs jobs
  ↔ ∃ job, jobs !! i = Some job
           ∧ JobEntry.type job = "collection"
           ∧ resolves_to jobs job j.
Proof.
  unfold build_job_pairs. rewrite foldl_add_job_pair. simpl.
  rewrite list_elem_of_omap. split.
  - intros ([i' job] & Hin & Hpair). apply elem_of_enumerate in Hin.
    apply pair_of_Some in Hpair as (-> & ? & ?). by exists job.
  - intros (job & Hjob & Htype & Hres). exists (i, job).
    split; [by apply elem_of_enumerate|]. by apply pair_of_Some.
Qed.

Lemma fst_enumerate {A} (l : list A) : (enumerate l).*1 = seq 0 (length l).
Proof.
  induction l as [|x l IH] using rev_ind; [done|].
  rewrite enumerate_snoc, fmap_app, IH, length_app. simpl.
  by rewrite Nat.add_1_r, seq_S.
Qed.

Lemma NoDup_fst_omap {A B C} (f : A * B → option (A * C)) (l : list (A * B)) :
  (∀ x y, f x = Some y → y.1 = x.1) →
  NoDup l.*1 → NoDup (omap f l).*1.
Proof.
  intros Hf. induction l as [|x l IH]; simpl; [done|].
  rewrite NoDup_cons. intros [Hx Hl].
  destruct (f x) as [y|] eqn:Hy; simpl; [|by apply IH].
  apply NoDup_cons. split; [|by apply IH].
  intros Hin. apply Hx.
  apply list_elem_of_fmap in Hin as (z & Hz & Hin).
  apply list_elem_of_omap in Hin as (w & Hw & Hfw).
  apply list_elem_of_fmap. exists w. split; [|done].
  rewrite <- (Hf x y Hy), Hz. by apply Hf.
Qed.

Lemma NoDup_fst_build_job_pairs (jobs : list JobEntry.t) :
  NoDup (build_job_pairs jobs).*1.
Proof.
  unfold build_job_pairs. rewrite foldl_add_job_pair. simpl.
  apply NoDup_fst_omap.
  - intros [i job] [i' j]. unfold pair_of. simpl.
    destruct (_ && _); [|done].
    destruct (JobEntry.related_job_id job ≫= _); simpl; [|done].
    by intros [= -> _].
  - rewrite fst_enumerate. apply NoDup_seq.
Qed.

(** C7, as stated, fails: a collection that names itself as its related job
    is paired with itself, not with another entry. *)
Lemma self_pair_not_to_another_entry :
  ¬ pairs_to_another_entry [SelfReference.entry].
Proof.
  intros Hclaim. destruct (Hclaim 0%nat 0%nat) as [Hneq _].
  destruct Hneq as [Hneq _]; [|done].
  vm_compute. left.
Qed.

(** C7, amended: the job pairs of the data model are the pairs (i, j) where
    entry i has type "collection" and its [related_job_id] resolves to an
    entry j, which may be i itself: the id is set and not empty, and j is the
    index that the map from job ids to indices holds for it, that is, the
    last entry that carries this id.  Nothing is asked of the type of j.
    Entries of another type, or whose [related_job_id] does not resolve,
    contribute no pair, and no entry contributes two. *)
Theorem job_pairs_of_collections (env : Env) (jobs : list JobModel.t)
  (num_drivers_per_day max_hours_per_driver : Z) (data_model : DataModel.t) :
  create_data_model env jobs num_drivers_per_day max_hours_per_driver
  = Ok data_model →
  (∀ i j, (i, j) ∈ DataModel.job_pairs data_model
          ↔ ∃ job, DataModel.jobs data_model !! i = Some job
                   ∧ JobEntry.type job = "collection"
                   ∧ resolves_to (DataModel.jobs data_model) job j)
  ∧ (∀ related j,
       job_id_to_idx (DataModel.jobs data_model) !! related = Some j
       ↔ ∃ job, DataModel.jobs data_model !! j = Some job
                ∧ JobEntry.id job = related
                ∧ ∀ k job', (j < k)%nat →
                            DataModel.jobs data_model !! k = Some job' →
                            JobEntry.id job' ≠ related)
  ∧ NoDup (DataModel.job_pairs data_model).*1.
Proof.
  intros H.
  apply create_data_model_Ok in H as (? & ? & _ & _ & _ & _ & _ & _ & Hpairs & _).
  rewrite Hpairs. split; [apply elem_of_build_job_pairs|].
  split; [apply job_id_to_idx_lookup|apply NoDup_fst_build_job_pairs].
Qed.

Lemma job_pairs_of_collections_witness :
  create_data_model (Example.env Example.infeasible) Pairing.jobs 1 9
  = Ok Pairing.model
  ∧ ((0, 1)%nat ∈ DataModel.job_pairs Pairing.model
     ↔ ∃ job, DataModel.jobs Pairing.model !! 0%nat = Some job
              ∧ JobEntry.type job = "collection"
              ∧ resolves_to (DataModel.jobs Pairing.model) job 1).
Proof.
  split; [vm_compute; reflexivity|].
  apply (job_pairs_of_collections (Example.env Example.infeasible)
           Pairing.jobs 1 9 Pairing.model).
  vm_compute. reflexivity.
Defined.

(** ** Route extraction *)

Lemma attach_job_first_at (jobs : list JobEntry.t) (k node_index : nat)
  (arrival_time max_time_per_vehicle : Z) (route : list JobStop.t) :
  attach_job jobs node_index arrival_time max_time_per_vehicle route
  = route ++ match first_at jobs k node_index with
             | Some (_, job) =>
                 [reported_stop job arrival_time max_time_per_vehicle]
             | None => []
             end.
Proof.
  revert k. induction jobs as [|job jobs IH]; intros k; simpl.
  - by rewrite app_nil_r.
  - case_decide; [done|apply IH].
Qed.

Lemma visit_stops_cons (data_model : DataModel.t) (node_index : nat)
  (arrival_time : Z) (path : list (nat * Z)) :
  visit_stops data_model ((node_index, arrival_time) :: path)
  = (if decide (node_index = 0%nat) then []
     else match first_at (DataModel.jobs data_model) 0 node_index with
          | Some (_, job) =>
              [reported_stop job arrival_time
                 (DataModel.max_time_per_vehicle data_model)]
          | None => []
          end) ++ visit_stops data_model path.
Proof. reflexivity. Qed.

Lemma walk_route_stops (data_model : DataModel.t) (path : list (nat * Z))
  (route route' : list JobStop.t) (route_time route_time' : Z) :
  walk_route data_model path route route_time = Ok (route', route_time') →
  route' = route ++ visit_stops data_model path.
Proof.
  revert route route_time.
  induction path as [|[node_index arrival_time] path IH];
    intros route route_time H; simpl in H.
  - injection H as <- _. by rewrite app_nil_r.
  - inv_bind H. apply IH in H. rewrite H, visit_stops_cons.
    destruct (decide (node_index = 0%nat)) as [->|Hne].
    + by rewrite decide_False by (intros ?; done).
    + rewrite decide_True by done.
      by rewrite (attach_job_first_at _ 0), <- app_assoc.
Qed.

Lemma extract_routes_stops (data_model : DataModel.t) (solution : Assignment)
  (vehicle_ids : list nat) (routes routes' : list VehicleRoute.t) :
  extract_routes data_model solution vehicle_ids routes = Ok routes' →
  VehicleRoute.stops <$> routes'
  = (VehicleRoute.stops <$> routes)
      ++ filter (λ stops, stops ≠ [])
           (visit_stops data_model <$> (solution <$> vehicle_ids)).
Proof.
  revert routes. induction vehicle_ids as [|vehicle_id vehicle_ids IH];
    intros routes H; simpl in H.
  - injection H as <-. simpl. by rewrite app_nil_r.
  - inv_bind H. destruct a as [route route_time].
    apply walk_route_stops in Ha. simpl in Ha. subst route.
    apply IH in H. rewrite H. rewrite !fmap_cons, filter_cons.
    destruct (visit_stops data_model (solution vehicle_id)) as [|stop stops].
    + by rewrite decide_False by (intros ?; done).
    + rewrite decide_True by done.
      by rewrite fmap_app, <- app_assoc.
Qed.

Lemma extract_routes_elem_of (data_model : DataModel.t) (solution : Assignment)
  (vehicle_ids : list nat) (routes routes' : list VehicleRoute.t)
  (route : VehicleRoute.t) :
  extract_routes data_model solution vehicle_ids routes = Ok routes' →
  route ∈ routes' →
  route ∈ routes
  ∨ VehicleRoute.stops route
    = visit_stops data_model (solution (VehicleRoute.vehicle_id route)).
Proof.
  revert routes. induction vehicle_ids as [|vehicle_id vehicle_ids IH];
    intros routes H Hin; simpl in H.
  - injection H as <-. by left.
  - inv_bind H. destruct a as [stops route_time].
    apply walk_route_stops in Ha. simpl in Ha. subst stops.
    destruct (IH _ H Hin) as [Hold|Hnew]; [|by right].
    destruct (visit_stops data_model (solution vehicle_id)) eqn:E; [by left|].
    apply elem_of_app in Hold as [Hold|Hold]; [by left|].
    apply list_elem_of_singleton in Hold as ->. right. simpl. by rewrite E.
Qed.

Lemma length_visit_stops (data_model : DataModel.t) (path : list (nat * Z)) :
  (length (visit_stops data_model path) ≤ length (path_nodes path))%nat.
Proof.
  induction path as [|[node_index arrival_time] path IH]; [done|].
  rewrite visit_stops_cons, length_app. unfold path_nodes.
  rewrite fmap_cons, filter_cons. simpl fst. fold (path_nodes path).
  destruct (decide (node_index = 0%nat)) as [->|Hne].
  - rewrite decide_False by (intros ?; done). simpl. lia.
  - rewrite decide_True by done.
    destruct (first_at _ _ _) as [[? ?]|]; simpl; lia.
Qed.

Lemma first_unreported_first_at (jobs : list JobEntry.t) (k : nat)
  (reported : gset nat) (node_index : nat) :
  (∀ i job, jobs !! i = Some job → JobEntry.location_idx job = node_index →
            (k + i)%nat ∉ reported) →
  first_unreported jobs k reported node_index = first_at jobs k node_index.
Proof.
  revert k. induction jobs as [|job jobs IH]; intros k Hfresh; simpl; [done|].
  destruct (decide (JobEntry.location_idx job = node_index)) as [Hloc|Hloc].
  - rewrite decide_True; [done|]. split; [|done].
    specialize (Hfresh 0%nat job eq_refl Hloc). by rewrite Nat.add_0_r in Hfresh.
  - rewrite decide_False by tauto. apply IH. intros i job' Hjob' Hloc'.
    specialize (Hfresh (S i) job' Hjob' Hloc').
    by replace (S k + i)%nat with (k + S i)%nat by lia.
Qed.

Lemma first_at_Some (jobs : list JobEntry.t) (k node_index i : nat)
  (job : JobEntry.t) :
  first_at jobs k node_index = Some (i, job) →
  ∃ i', i = (k + i')%nat ∧ jobs !! i' = Some job
        ∧ JobEntry.location_idx job = node_index.
Proof.
  revert k. induction jobs as [|job' jobs IH]; intros k; simpl; [done|].
  case_decide as Hloc.
  - intros [= <- <-]. exists 0%nat. split; [lia|done].
  - intros H. apply IH in H as (i' & -> & Hjob & Hloc').
    exists (S i'). split; [lia|done].
Qed.

Lemma reported_within_mono (jobs : list JobEntry.t) (reported : gset nat)
  (nodes nodes' : list nat) :
  reported_within jobs reported nodes →
  reported_within jobs reported (nodes ++ nodes').
Proof.
  intros H i job Hi Hjob. apply elem_of_app. left. by apply (H i job).
Qed.

Lemma reported_stops_visit_stops (data_model : DataModel.t)
  (path : list (nat * Z)) (reported : gset nat) (nodes : list nat) :
  reported_within (DataModel.jobs data_model) reported nodes →
  NoDup (nodes ++ path_nodes path) →
  ∃ reported',
    reported_stops (DataModel.jobs data_model)
      (DataModel.max_time_per_vehicle data_model) path reported
    = (visit_stops data_model path, reported')
    ∧ reported_within (DataModel.jobs data_model) reported'
        (nodes ++ path_nodes path).
Proof.
  revert reported nodes.
  induction path as [|[node_index arrival_time] path IH];
    intros reported nodes Hwithin Hnodup.
  - exists reported. split; [done|]. by apply reported_within_mono.
  - rewrite visit_stops_cons. unfold path_nodes in *.
    rewrite fmap_cons, filter_cons in *. simpl fst in *. simpl reported_stops.
    destruct (decide (node_index = 0%nat)) as [->|Hne].
    + rewrite decide_False in * by (intros ?; done). by apply IH.
    + rewrite decide_True in * by done.
      assert (node_index ∉ nodes) as Hfresh.
      { apply NoDup_app in Hnodup as (_ & Hdisj & _). intros Hin.
        apply (Hdisj _ Hin). left. }
      assert (NoDup ((nodes ++ [node_index])
                       ++ filter (λ n, n ≠ 0%nat) path.*1)) as Hnodup'.
      { by rewrite <- app_assoc. }
      rewrite first_unreported_first_at.
      2:{ intros i job Hjob Hloc Hi. apply Hfresh.
          rewrite <- Hloc. by apply (Hwithin i job). }
      destruct (first_at _ _ _) as [[i job]|] eqn:Hfirst.
      * apply first_at_Some in Hfirst as (i' & -> & Hjob & Hloc).
        destruct (IH ({[ (0 + i')%nat ]} ∪ reported) (nodes ++ [node_index]))
          as (reported' & -> & Hwithin'); [|done|].
        { intros k job' Hk Hjob'. apply elem_of_app.
          apply elem_of_union in Hk as [Hk|Hk].
          - apply elem_of_singleton in Hk as ->. right.
            simpl in Hjob'. rewrite Hjob in Hjob'. injection Hjob' as <-.
            rewrite Hloc. left.
          - left. by apply (Hwithin k job'). }
        exists reported'. split; [done|].
        by rewrite <- app_assoc in Hwithin'.
      * destruct (IH reported (nodes ++ [node_index]))
          as (reported' & -> & Hwithin'); [|done|].
        { by apply reported_within_mono. }
        exists reported'. split; [done|].
        by rewrite <- app_assoc in Hwithin'.
Qed.

Lemma reported_day_visit_stops (data_model : DataModel.t)
  (paths : list (list (nat * Z))) (reported : gset nat) (nodes : list nat) :
  reported_within (DataModel.jobs data_model) reported nodes →
  NoDup (nodes ++ visited_nodes paths) →
  reported_day (DataModel.jobs data_model)
    (DataModel.max_time_per_vehicle data_model) paths reported
  = visit_stops data_model <$> paths.
Proof.
  revert reported nodes. induction paths as [|path paths IH];
    intros reported nodes Hwithin Hnodup; [done|].
  unfold visited_nodes in Hnodup. rewrite bind_cons, app_assoc in Hnodup.
  destruct (reported_stops_visit_stops data_model path reported nodes)
    as (reported' & Hstops & Hwithin'); [done| |].
  { by apply NoDup_app in Hnodup as (? & _ & _). }
  simpl. rewrite Hstops. f_equal. by apply (IH _ (nodes ++ path_nodes path)).
Qed.

Lemma solve_vrp_routes (env : Env) (data_model : DataModel.t) (day_index : nat)
  (routes : list VehicleRoute.t) (unassigned : list string)
  (solution : Assignment) :
  solve_vrp env data_model day_index = Ok (routes, unassigned) →
  (∀ routing, SolveWithParameters env day_index routing = Some solution) →
  extract_routes data_model solution
    (seq 0 (Z.to_nat (DataModel.num_vehicles data_model))) []
  = Ok routes.
Proof.
  unfold solve_vrp. intros H Hsolution. inv_bind H.
  rewrite Hsolution in Ha2. by simplify_eq.
Qed.

(** C4: when the solver's solution for the day visits no node other than the
    depot twice, the stops that [solve_vrp] extracts are those of the
    specification: every visited node other than the depot is given the job
    id, and the arrival window, of the first entry in input order that
    matches its location index and has not been reported yet (vehicles
    without a stop are left out).  Whatever the number of entries that share
    a location index, a route has at most one stop for each of its visits
    to a node other than the depot. *)
Theorem extraction_attaches_first_unreported (env : Env)
  (data_model : DataModel.t) (day_index : nat) (solution : Assignment)
  (routes : list VehicleRoute.t) (unassigned : list string) :
  solve_vrp env data_model day_index = Ok (routes, unassigned) →
  (∀ routing, SolveWithParameters env day_index routing = Some solution) →
  NoDup (visited_nodes
           (solution <$> seq 0 (Z.to_nat (DataModel.num_vehicles data_model)))) →
  VehicleRoute.stops <$> routes
  = filter (λ stops, stops ≠ [])
      (reported_day (DataModel.jobs data_model)
         (DataModel.max_time_per_vehicle data_model)
         (solution <$> seq 0 (Z.to_nat (DataModel.num_vehicles data_model)))
         ∅)
  ∧ ∀ route, route ∈ routes →
             (length (VehicleRoute.stops route)
              ≤ length (path_nodes (solution (VehicleRoute.vehicle_id route))))%nat.
Proof.
  intros Hsolve Hsolution Hnodup.
  pose proof (solve_vrp_routes _ _ _ _ _ _ Hsolve Hsolution) as Hextract.
  split.
  - rewrite (extract_routes_stops _ _ _ _ _ Hextract). simpl. f_equal.
    symmetry. apply (reported_day_visit_stops _ _ _ []); [|done].
    intros i job Hi. by apply not_elem_of_empty in Hi.
  - intros route Hroute.
    destruct (extract_routes_elem_of _ _ _ _ _ _ Hextract Hroute) as [Hin| ->].
    + by apply elem_of_nil in Hin.
    + apply length_visit_stops.
Qed.

Lemma extraction_attaches_first_unreported_witness :
  solve_vrp (Example.env Example.visit_solver) Example.shared_model 0
  = Ok ([Example.first_stop_route], ["B"])
  ∧ VehicleRoute.stops <$> [Example.first_stop_route]
    = filter (λ stops, stops ≠ [])
        (reported_day (DataModel.jobs Example.shared_model)
           (DataModel.max_time_per_vehicle Example.shared_model)
           (Example.one_visit
              <$> seq 0 (Z.to_nat (DataModel.num_vehicles Example.shared_model)))
           ∅).
Proof.
  split; [vm_compute; reflexivity|].
  apply (extraction_attaches_first_unreported
           (Example.env Example.visit_solver) Example.shared_model 0
           Example.one_visit [Example.first_stop_route] ["B"]).
  - vm_compute. reflexivity.
  - reflexivity.
  - apply (bool_decide_unpack _). vm_compute. exact I.
Defined.

(** ** The week *)

Lemma elem_of_day_route_models (driver_ids : list string) (day : nat)
  (day_routes : list VehicleRoute.t) (route : RouteModel.t) :
  route ∈ day_route_models driver_ids day day_routes
  ↔ ∃ i day_route, day_routes !! i = Some day_route
                   ∧ route = route_model driver_ids day i day_route.
Proof.
  unfold day_route_models. rewrite elem_of_lookup_imap. split.
  - intros (i & day_route & -> & Hi). by exists i, day_route.
  - intros (i & day_route & Hi & ->). by exists i, day_route.
Qed.

Lemma solve_days_Ok (env : Env) (request : OptimizationRequest.t)
  (data_model : DataModel.t) (days : list nat)
  (all_routes all_routes' : list RouteModel.t)
  (all_unassigned all_unassigned' : list string) :
  solve_days env request data_model days all_routes all_unassigned
  = Ok (all_routes', all_unassigned') →
  let driver_ids := DriverModel.id <$> OptimizationRequest.drivers request in
  (∀ route, route ∈ all_routes'
            ↔ route ∈ all_routes
              ∨ ∃ day day_routes day_unassigned,
                  day ∈ days
                  ∧ solve_vrp env data_model day
                    = Ok (day_routes, day_unassigned)
                  ∧ route ∈ day_route_models driver_ids day day_routes)
  ∧ (∀ job_id, job_id ∈ all_unassigned'
               ↔ job_id ∈ all_unassigned
                 ∨ ∃ day day_routes day_unassigned,
                     day ∈ days
                     ∧ solve_vrp env data_model day
                       = Ok (day_routes, day_unassigned)
                     ∧ job_id ∈ day_unassigned).
Proof.
  intros H driver_ids. revert all_routes all_unassigned H.
  induction days as [|day days IH]; intros all_routes all_unassigned H;
    simpl in H.
  - injection H as <- <-. split; intros x; (split; [by left|]).
    + intros [?|(day & ? & ? & Hday & _)]; [done|by apply elem_of_nil in Hday].
    + intros [?|(day & ? & ? & Hday & _)]; [done|by apply elem_of_nil in Hday].
  - inv_bind H. destruct a as [day_routes day_unassigned].
    apply IH in H as [Hroutes Hunassigned]. split.
    + intros route. rewrite Hroutes, elem_of_app. split.
      * intros [[?|Hnew]|(day' & rs & un & Hday' & Hsolve & Hin)].
        -- by left.
        -- right. exists day, day_routes, day_unassigned.
           split; [left|done].
        -- right. exists day', rs, un. split; [by right|done].
      * intros [?|(day' & rs & un & Hday' & Hsolve & Hin)]; [by left; left|].
        apply elem_of_cons in Hday' as [->|Hday'].
        -- left. right. rewrite Ha in Hsolve. by simplify_eq.
        -- right. by exists day', rs, un.
    + intros job_id. rewrite Hunassigned, elem_of_app. split.
      * intros [[?|Hnew]|(day' & rs & un & Hday' & Hsolve & Hin)].
        -- by left.
        -- right. exists day, day_routes, day_unassigned.
           split; [left|done].
        -- right. exists day', rs, un. split; [by right|done].
      * intros [?|(day' & rs & un & Hday' & Hsolve & Hin)]; [by left; left|].
        apply elem_of_cons in Hday' as [->|Hday'].
        -- left. right. rewrite Ha in Hsolve. by simplify_eq.
        -- right. by exists day', rs, un.
Qed.

Lemma solve_days_is_ok (env : Env) (request : OptimizationRequest.t)
  (data_model : DataModel.t) (days : list nat)
  (all_routes : list RouteModel.t) (all_unassigned : list string) :
  (∀ day, day ∈ days → is_ok (solve_vrp env data_model day) = true) →
  is_ok (solve_days env request data_model days all_routes all_unassigned)
  = true.
Proof.
  revert all_routes all_unassigned.
  induction days as [|day days IH]; intros all_routes all_unassigned Hdays;
    simpl; [done|].
  pose proof (Hdays day ltac:(left)) as Hday.
  destruct (solve_vrp env data_model day) as [[day_routes day_unassigned]|];
    [|done].
  simpl. apply IH. intros day' Hday'. apply Hdays. by right.
Qed.

Lemma elem_of_seq_0 (n day : nat) : day ∈ seq 0 n ↔ (day < n)%nat.
Proof. rewrite elem_of_seq. lia. Qed.

Lemma optimize_routes_Ok (env : Env) (request : OptimizationRequest.t)
  (response : OptimizationResponse.t) :
  optimize_routes env request = Ok response →
  ∃ data_model,
    OptimizationRequest.jobs request ≠ []
    ∧ create_data_model env (OptimizationRequest.jobs request)
        (OptimizationRequest.num_drivers_per_day request)
        (max_driver_hours (OptimizationRequest.drivers request))
      = Ok data_model
    ∧ (∀ route,
         route ∈ OptimizationResponse.routes response
         ↔ ∃ day day_routes day_unassigned i day_route,
             (day < 5)%nat
             ∧ solve_vrp env data_model day = Ok (day_routes, day_unassigned)
             ∧ day_routes !! i = Some day_route
             ∧ route
               = route_model
                   (DriverModel.id <$> OptimizationRequest.drivers request)
                   day i day_route)
    ∧ (∀ job_id,
         job_id ∈ OptimizationResponse.unassigned response
         ↔ ∃ day day_routes day_unassigned,
             (day < 5)%nat
             ∧ solve_vrp env data_model day = Ok (day_routes, day_unassigned)
             ∧ job_id ∈ day_unassigned)
    ∧ NoDup (OptimizationResponse.unassigned response).
Proof.
  unfold optimize_routes, try_except. intros H.
  destruct (optimize_body env request) as [response'|] eqn:Hbody; [|done].
  injection H as ->. unfold optimize_body in Hbody.
  destruct (OptimizationRequest.jobs request) as [|job jobs] eqn:Hjobs;
    [done|].
  apply bind_Ok in Hbody as (data_model & Hmodel & Hbody).
  apply bind_Ok in Hbody as ([all_routes all_unassigned] & Hdays & Hbody).
  injection Hbody as <-. simpl.
  apply solve_days_Ok in Hdays as [Hroutes Hunassigned].
  exists data_model. split; [done|]. split; [done|]. split; [|split].
  - intros route. rewrite Hroutes. split.
    + intros [Hnil|(day & rs & un & Hday & Hsolve & Hin)];
        [by apply elem_of_nil in Hnil|].
      apply elem_of_seq_0 in Hday.
      apply elem_of_day_route_models in Hin as (i & day_route & Hi & ->).
      by exists day, rs, un, i, day_route.
    + intros (day & rs & un & i & day_route & Hday & Hsolve & Hi & ->).
      right. exists day, rs, un. split; [by apply elem_of_seq_0|].
      split; [done|]. apply elem_of_day_route_models. by exists i, day_route.
  - intros job_id. unfold list_of_set.
    rewrite (elem_of_elements (C := gset string)), elem_of_list_to_set.
    rewrite Hunassigned. split.
    + intros [Hnil|(day & rs & un & Hday & Hsolve & Hin)];
        [by apply elem_of_nil in Hnil|].
      apply elem_of_seq_0 in Hday. by exists day, rs, un.
    + intros (day & rs & un & Hday & Hsolve & Hin).
      right. exists day, rs, un. split; [by apply elem_of_seq_0|done].
  - unfold list_of_set. apply (NoDup_elements (C := gset string)).
Qed.

(** C8: the week's unassigned list has no repetition, and a job id is in it
    exactly when it is in the unassigned list of one of the five days.  In
    particular a job id that is a stop of one of the returned routes is
    still in the week's list as soon as some day lists it as unassigned. *)
Theorem weekly_unassigned_is_union (env : Env) (request : OptimizationRequest.t)
  (response : OptimizationResponse.t) :
  optimize_routes env request = Ok response →
  ∃ data_model,
    create_data_model env (OptimizationRequest.jobs request)
      (OptimizationRequest.num_drivers_per_day request)
      (max_driver_hours (OptimizationRequest.drivers request))
    = Ok data_model
    ∧ NoDup (OptimizationResponse.unassigned response)
    ∧ (∀ job_id,
         job_id ∈ OptimizationResponse.unassigned response
         ↔ ∃ day day_routes day_unassigned,
             (day < 5)%nat
             ∧ solve_vrp env data_model day = Ok (day_routes, day_unassigned)
             ∧ job_id ∈ day_unassigned)
    ∧ (∀ job_id route day day_routes day_unassigned,
         route ∈ OptimizationResponse.routes response →
         job_id ∈ JobStop.job_id <$> RouteModel.stops route →
         (day < 5)%nat →
         solve_vrp env data_model day = Ok (day_routes, day_unassigned) →
         job_id ∈ day_unassigned →
         job_id ∈ OptimizationResponse.unassigned response).
Proof.
  intros H.
  apply optimize_routes_Ok in H
    as (data_model & _ & Hmodel & _ & Hunassigned & Hnodup).
  exists data_model. split; [done|]. split; [done|]. split; [done|].
  intros job_id route day day_routes day_unassigned _ _ Hday Hsolve Hin.
  apply Hunassigned. by exists day, day_routes, day_unassigned.
Qed.

Lemma weekly_unassigned_is_union_witness :
  optimize_routes (Example.env (Example.first_day_solver Example.one_visit))
    Example.single_request
  = Ok Example.single_response
  ∧ "B" ∈ (OptimizationResponse.routes Example.single_response
             ≫= λ route, JobStop.job_id <$> RouteModel.stops route)
  ∧ "B" ∈ OptimizationResponse.unassigned Example.single_response
  ∧ NoDup (OptimizationResponse.unassigned Example.single_response).
Proof.
  split; [vm_compute; reflexivity|].
  split; [apply (bool_decide_unpack _); vm_compute; exact I|].
  split; [apply (bool_decide_unpack _); vm_compute; exact I|].
  destruct (weekly_unassigned_is_union
              (Example.env (Example.first_day_solver Example.one_visit))
              Example.single_request Example.single_response)
    as (data_model & _ & Hnodup & _).
  - vm_compute. reflexivity.
  - exact Hnodup.
Defined.

(** ** [create_data_model] and [solve_vrp] raise no exception of their own *)

Lemma index_location_lookup (acc : list string * gmap string nat)
  (location loc : string) :
  is_Some (acc.2 !! loc) ∨ loc = location →
  is_Some ((index_location acc location).2 !! loc).
Proof.
  destruct acc as [unique_locations location_indices]. simpl.
  intros Hloc. destruct (location_indices !! location) eqn:Hlook; simpl.
  - destruct Hloc as [?| ->]; [done|by exists n].
  - destruct (decide (location = loc)) as [->|Hne].
    + rewrite lookup_insert_eq. by eexists.
    + rewrite lookup_insert_ne by done. by destruct Hloc as [?| ->].
Qed.

Lemma index_locations_lookup (all_locations : list string) (loc : string) :
  loc ∈ all_locations → is_Some ((index_locations all_locations).2 !! loc).
Proof.
  unfold index_locations. generalize (([], ∅) : list string * gmap string nat).
  intros acc Hin.
  assert (is_Some (acc.2 !! loc) ∨ loc ∈ all_locations) as H by by right.
  clear Hin. revert acc H.
  induction all_locations as [|location all_locations IH]; intros acc H; simpl.
  - destruct H as [?|H]; [done|by apply elem_of_nil in H].
  - apply IH. destruct H as [H|H].
    + left. apply index_location_lookup. by left.
    + apply elem_of_cons in H as [->|H]; [|by right].
      left. apply index_location_lookup. by right.
Qed.

Lemma index_locations_length (all_locations : list string) :
  all_locations ≠ [] → (0 < length (index_locations all_locations).1)%nat.
Proof.
  destruct all_locations as [|location all_locations]; [done|]. intros _.
  unfold index_locations. simpl. rewrite lookup_empty. simpl.
  assert (∀ l (acc : list string * gmap string nat),
            (0 < length acc.1)%nat →
            (0 < length (foldl index_location acc l).1)%nat) as Hgrow.
  { induction l as [|x l IH]; intros acc Hacc; simpl; [done|].
    apply IH. destruct acc as [u m]. simpl in *.
    destruct (m !! x); simpl; [done|]. rewrite length_app. lia. }
  by apply Hgrow; simpl; lia.
Qed.

Lemma map_jobs_with_indices_is_ok (location_indices : gmap string nat)
  (jobs : list JobModel.t) :
  (∀ job, job ∈ jobs → is_Some (location_indices !! JobModel.location job)) →
  is_ok (map_jobs_with_indices location_indices jobs) = true.
Proof.
  induction jobs as [|job jobs IH]; intros Hjobs; simpl; [done|].
  destruct (Hjobs job ltac:(left)) as [location_idx Hlook].
  unfold job_with_index, dict_index. rewrite Hlook. simpl.
  specialize (IH (λ job' Hin, Hjobs job' ltac:(by right))).
  by destruct (map_jobs_with_indices location_indices jobs).
Qed.

(** The data model is built as soon as the travel times are obtained: the
    lookup of a job's location in the index never fails. *)
Lemma create_data_model_is_ok (env : Env) (jobs : list JobModel.t)
  (num_drivers_per_day max_hours_per_driver : Z) :
  is_ok (create_data_model env jobs num_drivers_per_day max_hours_per_driver)
  = is_ok (compute_time_matrix env (unique_locations env jobs)).
Proof.
  unfold create_data_model, unique_locations.
  pose proof (index_locations_lookup
                (DEPOT_LOCATION env :: (JobModel.location <$> jobs))) as Hlook.
  destruct (index_locations _) as [unique location_indices]. simpl in *.
  destruct (compute_time_matrix env unique) as [time_matrix|]; [|done].
  cbn [mbind result_bind].
  pose proof (map_jobs_with_indices_is_ok location_indices jobs) as Hmap.
  destruct (map_jobs_with_indices location_indices jobs); [done|].
  apply Hmap. intros job Hjob. apply Hlook. right.
  apply list_elem_of_fmap. by exists job.
Qed.

Lemma time_callback_is_ok (data_model : DataModel.t) (n from_node to_node : nat) :
  matrix_covers (DataModel.time_matrix data_model) n →
  (from_node < n)%nat → (to_node < n)%nat →
  is_ok (time_callback data_model from_node to_node) = true.
Proof.
  intros Hcovers Hfrom Hto.
  destruct (Hcovers from_node to_node Hfrom Hto) as (row & transit & Hrow & Ht).
  unfold time_callback, list_index. rewrite Hrow. simpl. by rewrite Ht.
Qed.

Lemma walk_route_is_ok (data_model : DataModel.t) (n : nat)
  (path : list (nat * Z)) (route : list JobStop.t) (route_time : Z) :
  matrix_covers (DataModel.time_matrix data_model) n →
  (DataModel.depot data_model < n)%nat →
  (∀ node_index, node_index ∈ path.*1 → (node_index < n)%nat) →
  is_ok (walk_route data_model path route route_time) = true.
Proof.
  intros Hcovers Hdepot. revert route route_time.
  induction path as [|[node_index arrival_time] path IH];
    intros route route_time Hpath; [done|].
  cbn [walk_route].
  assert (node_index < n)%nat as Hnode by (apply Hpath; left).
  assert (∀ node, node ∈ path.*1 → (node < n)%nat) as Hrest.
  { intros node Hin. apply Hpath. by right. }
  set (next_node := match path with
                    | [] => DataModel.depot data_model
                    | (n', _) :: _ => n'
                    end).
  assert (next_node < n)%nat as Hnext.
  { subst next_node. destruct path as [|[n' ?] ?]; [done|]. apply Hrest. left. }
  pose proof (time_callback_is_ok data_model n node_index next_node
                Hcovers Hnode Hnext) as Hcb.
  destruct (time_callback data_model node_index next_node); [|done].
  cbn [mbind result_bind]. by apply IH.
Qed.

Lemma extract_routes_is_ok (data_model : DataModel.t) (n : nat)
  (solution : Assignment) (vehicle_ids : list nat)
  (routes : list VehicleRoute.t) :
  matrix_covers (DataModel.time_matrix data_model) n →
  (DataModel.depot data_model < n)%nat →
  solution_within solution n →
  is_ok (extract_routes data_model solution vehicle_ids routes) = true.
Proof.
  intros Hcovers Hdepot Hwithin. revert routes.
  induction vehicle_ids as [|vehicle_id vehicle_ids IH]; intros routes; [done|].
  cbn [extract_routes].
  pose proof (walk_route_is_ok data_model n (solution vehicle_id) [] 0
                Hcovers Hdepot (Hwithin vehicle_id)) as Hwalk.
  destruct (walk_route _ _ _ _) as [[route route_time]|]; [|done].
  cbn [mbind result_bind]. apply IH.
Qed.

Lemma pickup_delivery_nodes_is_ok (data_model : DataModel.t)
  (job_pairs : list (nat * nat)) :
  (∀ i j, (i, j) ∈ job_pairs →
          is_Some (DataModel.jobs data_model !! i)
          ∧ is_Some (DataModel.jobs data_model !! j)) →
  is_ok (pickup_delivery_nodes data_model job_pairs) = true.
Proof.
  induction job_pairs as [|[i j] job_pairs IH]; intros Hpairs; [done|].
  destruct (Hpairs i j ltac:(left)) as [[pickup Hi] [delivery Hj]].
  cbn [pickup_delivery_nodes]. unfold list_index. simpl.
  rewrite Hi, Hj. cbn [mbind result_bind].
  specialize (IH (λ i' j' Hin, Hpairs i' j' ltac:(by right))).
  by destruct (pickup_delivery_nodes data_model job_pairs).
Qed.

Lemma job_locations_is_ok (data_model : DataModel.t) (allowed_jobs : list nat) :
  (∀ j, j ∈ allowed_jobs → is_Some (DataModel.jobs data_model !! j)) →
  is_ok (job_locations data_model allowed_jobs) = true.
Proof.
  induction allowed_jobs as [|j allowed_jobs IH]; intros Hjobs; [done|].
  destruct (Hjobs j ltac:(left)) as [job Hj].
  cbn [job_locations]. unfold list_index. rewrite Hj. cbn [mbind result_bind].
  specialize (IH (λ j' Hin, Hjobs j' ltac:(by right))).
  by destruct (job_locations data_model allowed_jobs).
Qed.

(** On a data model that [create_data_model] built, a day is solved without
    an exception when the time matrix covers the indexed locations and the
    solver's paths stay among them. *)
Lemma solve_vrp_is_ok (env : Env) (jobs : list JobModel.t)
  (num_drivers_per_day max_hours_per_driver : Z) (data_model : DataModel.t)
  (day_index : nat) :
  create_data_model env jobs num_drivers_per_day max_hours_per_driver
  = Ok data_model →
  (day_index < 5)%nat →
  matrix_covers (DataModel.time_matrix data_model)
    (DataModel.num_locations data_model) →
  (∀ routing solution,
     SolveWithParameters env day_index routing = Some solution →
     solution_within solution (DataModel.num_locations data_model)) →
  is_ok (solve_vrp env data_model day_index) = true.
Proof.
  intros Hmodel Hday Hcovers Hsolver.
  destruct (create_data_model_Ok _ _ _ _ _ Hmodel)
    as (unique & location_indices & Hindex & _ & _ & Hnum & Hdepot & _
        & Hpairs & Hdays & _).
  assert (0 < DataModel.num_locations data_model)%nat as Hpos.
  { rewrite Hnum. replace unique with
      (index_locations (DEPOT_LOCATION env :: (JobModel.location <$> jobs))).1
      by by rewrite Hindex.
    by apply index_locations_length. }
  unfold solve_vrp.
  pose proof (pickup_delivery_nodes_is_ok data_model
                (DataModel.job_pairs data_model)) as Hpd.
  destruct (pickup_delivery_nodes _ _) as [pickups_deliveries|].
  2:{ discriminate Hpd. rewrite Hpairs. intros i j Hin.
      apply elem_of_build_job_pairs in Hin
        as (job & Hjob & _ & related & _ & _ & Hlook).
      split; [by eexists|].
      apply job_id_to_idx_lookup in Hlook as (job' & Hjob' & _). by eexists. }
  cbn [mbind result_bind].
  destruct (occurrences_build_jobs_by_day env (DataModel.jobs data_model)
              0 day_index Hday) as [Hlen _].
  rewrite <- Hdays in Hlen.
  destruct (lookup_lt_is_Some_2 (DataModel.jobs_by_day data_model) day_index)
    as [allowed_jobs Hallowed]; [lia|].
  unfold list_index at 1. rewrite Hallowed. cbn [mbind result_bind].
  pose proof (job_locations_is_ok data_model allowed_jobs) as Hlocs.
  destruct (job_locations _ _) as [locations|].
  2:{ discriminate Hlocs. intros j Hj.
      apply (occurrences_elem_of j _ _ _ Hallowed) in Hj.
      rewrite Hdays in Hj.
      rewrite (proj2 (occurrences_build_jobs_by_day env _ j day_index Hday))
        in Hj.
      destruct (DataModel.jobs data_model !! j); [by eexists|lia]. }
  cbn [mbind result_bind].
  destruct (SolveWithParameters env day_index _) as [solution|] eqn:Hsolve;
    [|done].
  pose proof (extract_routes_is_ok data_model
                (DataModel.num_locations data_model) solution
                (seq 0 (Z.to_nat (DataModel.num_vehicles data_model))) []
                Hcovers ltac:(lia) (Hsolver _ _ Hsolve)) as Hextract.
  by destruct (extract_routes _ _ _ _).
Qed.


(** ** A request without drivers *)

Lemma optimize_routes_is_ok (env : Env) (request : OptimizationRequest.t)
  (data_model : DataModel.t) :
  OptimizationRequest.jobs request ≠ [] →
  create_data_model env (OptimizationRequest.jobs request)
    (OptimizationRequest.num_drivers_per_day request)
    (max_driver_hours (OptimizationRequest.drivers request))
  = Ok data_model →
  (∀ day, (day < 5)%nat → is_ok (solve_vrp env data_model day) = true) →
  is_ok (optimize_routes env request) = true.
Proof.
  intros Hjobs Hmodel Hdays. unfold optimize_routes, optimize_body.
  destruct (OptimizationRequest.jobs request) as [|job jobs]; [done|].
  rewrite Hmodel. cbn [mbind result_bind].
  pose proof (solve_days_is_ok env request data_model (seq 0 5) [] []) as Hok.
  destruct (solve_days _ _ _ _ _ _) as [[all_routes all_unassigned]|].
  - done.
  - discriminate Hok. intros day Hday. apply Hdays. by apply elem_of_seq_0.
Qed.

(** C10: a request with jobs and an empty driver list is not turned away
    for want of drivers.  The hour budget defaults to 9, so the data model
    caps each vehicle at 540 minutes; the handler returns a result whenever
    the travel times are obtained, the time matrix covers the indexed
    locations and the solver's paths stay among them; and every route it
    returns is driven by "additional-driver-N", N being the position of the
    route among the routes of its day, counted from 1. *)
Theorem optimize_routes_without_drivers (env : Env)
  (request : OptimizationRequest.t) :
  OptimizationRequest.jobs request ≠ [] →
  OptimizationRequest.drivers request = [] →
  max_driver_hours (OptimizationRequest.drivers request) * 60 = 540
  ∧ (∀ data_model,
       create_data_model env (OptimizationRequest.jobs request)
         (OptimizationRequest.num_drivers_per_day request)
         (max_driver_hours (OptimizationRequest.drivers request))
       = Ok data_model →
       DataModel.max_time_per_vehicle data_model = 540)
  ∧ (∀ time_matrix,
       compute_time_matrix env
         (unique_locations env (OptimizationRequest.jobs request))
       = Ok time_matrix →
       matrix_covers time_matrix
         (length (unique_locations env (OptimizationRequest.jobs request))) →
       (∀ day routing solution,
          SolveWithParameters env day routing = Some solution →
          solution_within solution
            (length (unique_locations env (OptimizationRequest.jobs request)))) →
       is_ok (optimize_routes env request) = true)
  ∧ (∀ response route,
       optimize_routes env request = Ok response →
       route ∈ OptimizationResponse.routes response →
       ∃ day i : nat,
         (day < 5)%nat
         ∧ RouteModel.day route = Z.of_nat day + 1
         ∧ RouteModel.driver_id route
           = "additional-driver-" +:+ pretty (Z.of_nat i + 1)).
Proof.
  intros Hjobs Hdrivers. split; [by rewrite Hdrivers|]. split; [|split].
  - intros data_model Hmodel.
    destruct (create_data_model_Ok _ _ _ _ _ Hmodel)
      as (? & ? & _ & _ & _ & _ & _ & _ & _ & _ & Hmax).
    by rewrite Hmax, Hdrivers.
  - intros time_matrix Hmatrix Hcovers Hsolver.
    pose proof (create_data_model_is_ok env (OptimizationRequest.jobs request)
                  (OptimizationRequest.num_drivers_per_day request)
                  (max_driver_hours (OptimizationRequest.drivers request)))
      as Hok.
    rewrite Hmatrix in Hok.
    destruct (create_data_model _ _ _ _) as [data_model|] eqn:Hmodel; [|done].
    destruct (create_data_model_Ok _ _ _ _ _ Hmodel)
      as (unique & location_indices & Hindex & Hmatrix' & _ & Hnum & _).
    assert (unique_locations env (OptimizationRequest.jobs request) = unique)
      as Hunique by (unfold unique_locations; by rewrite Hindex).
    rewrite Hunique in *. rewrite Hmatrix' in Hmatrix. injection Hmatrix as <-.
    apply (optimize_routes_is_ok env request data_model Hjobs Hmodel).
    intros day Hday.
    apply (solve_vrp_is_ok env _ _ _ data_model day Hmodel Hday);
      rewrite Hnum; [done|]. apply Hsolver.
  - intros response route Hresponse Hroute.
    destruct (optimize_routes_Ok _ _ _ Hresponse)
      as (data_model & _ & _ & Hroutes & _).
    destruct (proj1 (Hroutes route) Hroute)
      as (day & day_routes & day_unassigned & i & day_route & Hday & _ & _ & Heq).
    rewrite Heq. exists day, i. split; [done|]. split; [done|].
    rewrite Hdrivers. simpl. unfold route_driver_id.
    rewrite lookup_nil. simpl length. do 2 f_equal. lia.
Qed.

Lemma optimize_routes_without_drivers_witness :
  OptimizationRequest.jobs Example.single_request ≠ []
  ∧ OptimizationRequest.drivers Example.single_request = []
  ∧ max_driver_hours (OptimizationRequest.drivers Example.single_request) * 60
    = 540
  ∧ optimize_routes (Example.env (Example.first_day_solver Example.one_visit))
      Example.single_request
    = Ok Example.single_response.
Proof.
  split; [discriminate|]. split; [reflexivity|].
  split; [|vm_compute; reflexivity].
  apply (optimize_routes_without_drivers
           (Example.env (Example.first_day_solver Example.one_visit))
           Example.single_request).
  - discriminate.
  - reflexivity.
Defined.

(** * Further properties of the code *)

(** ** The location index *)

Lemma index_location_invariant (acc : list string * gmap string nat)
  (location : string) :
  NoDup acc.1 →
  (∀ loc i, acc.2 !! loc = Some i ↔ acc.1 !! i = Some loc) →
  NoDup (index_location acc location).1
  ∧ (∀ loc i, (index_location acc location).2 !! loc = Some i
              ↔ (index_location acc location).1 !! i = Some loc)
  ∧ (∃ new, (index_location acc location).1 = acc.1 ++ new)
  ∧ (∀ loc, loc ∈ (index_location acc location).1
            ↔ loc ∈ acc.1 ∨ loc = location).
Proof.
  destruct acc as [unique location_indices]. simpl. intros Hnodup Hbij.
  destruct (location_indices !! location) as [idx|] eqn:Hlook; simpl.
  - split; [done|]. split; [done|]. split; [exists []; by rewrite app_nil_r|].
    intros loc. split; [by left|]. intros [?| ->]; [done|].
    apply Hbij in Hlook. by apply list_elem_of_lookup_2 in Hlook.
  - assert (location ∉ unique) as Hfresh.
    { intros Hin. apply list_elem_of_lookup_1 in Hin as [i Hi].
      apply Hbij in Hi. congruence. }
    split.
    { apply NoDup_app. split; [done|]. split; [|apply NoDup_singleton].
      intros x Hx Hx'. apply list_elem_of_singleton in Hx' as ->. done. }
    split.
    { intros loc i. destruct (decide (location = loc)) as [<-|Hne].
      - rewrite lookup_insert_eq. split.
        + intros [= <-]. by rewrite list_lookup_middle.
        + intros Hi. f_equal.
          destruct (decide (i < length unique)%nat) as [Hlt|Hge].
          * rewrite lookup_app_l in Hi by done.
            by apply list_elem_of_lookup_2 in Hi.
          * apply lookup_lt_Some in Hi. rewrite length_app in Hi.
            simpl in Hi. lia.
      - rewrite lookup_insert_ne by done. rewrite Hbij. split.
        + intros Hi. by apply lookup_app_l_Some.
        + intros Hi.
          destruct (decide (i < length unique)%nat) as [Hlt|Hge].
          * by rewrite lookup_app_l in Hi.
          * assert (i = length unique) as ->.
            { apply lookup_lt_Some in Hi. rewrite length_app in Hi.
              simpl in Hi. lia. }
            rewrite list_lookup_middle in Hi by done. congruence. }
    split; [by exists [location]|].
    intros loc. rewrite elem_of_app, list_elem_of_singleton. done.
Qed.

Lemma foldl_index_location_invariant (all_locations : list string)
  (acc : list string * gmap string nat) :
  NoDup acc.1 →
  (∀ loc i, acc.2 !! loc = Some i ↔ acc.1 !! i = Some loc) →
  NoDup (foldl index_location acc all_locations).1
  ∧ (∀ loc i, (foldl index_location acc all_locations).2 !! loc = Some i
              ↔ (foldl index_location acc all_locations).1 !! i = Some loc)
  ∧ (∃ new, (foldl index_location acc all_locations).1 = acc.1 ++ new)
  ∧ (∀ loc, loc ∈ (foldl index_location acc all_locations).1
            ↔ loc ∈ acc.1 ∨ loc ∈ all_locations).
Proof.
  revert acc. induction all_locations as [|location all_locations IH];
    intros acc Hnodup Hbij; simpl.
  - split; [done|]. split; [done|]. split; [exists []; by rewrite app_nil_r|].
    intros loc. split; [by left|]. intros [?|H]; [done|].
    by apply elem_of_nil in H.
  - destruct (index_location_invariant acc location Hnodup Hbij)
      as (Hnodup' & Hbij' & [new Hnew] & Hin').
    destruct (IH _ Hnodup' Hbij') as (Hnodup'' & Hbij'' & [new' Hnew'] & Hin'').
    split; [done|]. split; [done|]. split.
    + exists (new ++ new'). by rewrite Hnew', Hnew, app_assoc.
    + intros loc. rewrite Hin'', Hin', elem_of_cons. tauto.
Qed.

(** X1: the index built from a list of addresses numbers each distinct
    address once: the unique list has no repetition, an address maps to [i]
    exactly when it stands at position [i] of the unique list, and the
    unique list holds exactly the addresses of the input. *)
Theorem index_locations_bijection (all_locations : list string) :
  NoDup (index_locations all_locations).1
  ∧ (∀ loc i, (index_locations all_locations).2 !! loc = Some i
              ↔ (index_locations all_locations).1 !! i = Some loc)
  ∧ (∀ loc, loc ∈ (index_locations all_locations).1 ↔ loc ∈ all_locations).
Proof.
  destruct (foldl_index_location_invariant all_locations ([], ∅))
    as (Hnodup & Hbij & _ & Hin).
  - apply NoDup_nil_2.
  - intros loc i. simpl. by rewrite lookup_empty, lookup_nil.
  - split; [done|]. split; [done|]. intros loc. rewrite (Hin loc). simpl.
    split; [|by right]. intros [H|H]; [by apply elem_of_nil in H|done].
Qed.

Lemma index_locations_depot (env : Env) (jobs : list JobModel.t) :
  unique_locations env jobs !! 0%nat = Some (DEPOT_LOCATION env)
  ∧ (index_locations (DEPOT_LOCATION env :: (JobModel.location <$> jobs))).2
      !! DEPOT_LOCATION env = Some 0%nat.
Proof.
  unfold unique_locations.
  destruct (index_locations_bijection
              (DEPOT_LOCATION env :: (JobModel.location <$> jobs)))
    as (_ & Hbij & _).
  assert ((index_locations
             (DEPOT_LOCATION env :: (JobModel.location <$> jobs))).1 !! 0%nat
          = Some (DEPOT_LOCATION env)) as Hzero.
  { unfold index_locations. simpl. rewrite lookup_empty. simpl.
    destruct (foldl_index_location_invariant (JobModel.location <$> jobs)
                ([DEPOT_LOCATION env], <[DEPOT_LOCATION env := 0%nat]> ∅))
      as (_ & _ & [new Hnew] & _).
    - apply NoDup_singleton.
    - intros loc i. simpl. destruct (decide (DEPOT_LOCATION env = loc)) as [<-|Hne].
      + rewrite lookup_insert_eq. split; [by intros [= <-]|].
        intros Hi. destruct i; [done|]. by rewrite lookup_cons, lookup_nil in Hi.
      + rewrite lookup_insert_ne, lookup_empty by done. split; [done|].
        intros Hi. destruct i; simpl in Hi; [congruence|].
        by rewrite lookup_nil in Hi.
    - rewrite Hnew. done. }
  split; [done|]. by apply Hbij.
Qed.

(** X2: the depot is always location 0, wherever its address appears among
    the job locations and also when no job is given. *)
Theorem depot_is_location_zero (env : Env) (jobs : list JobModel.t) :
  unique_locations env jobs !! 0%nat = Some (DEPOT_LOCATION env)
  ∧ (index_locations (DEPOT_LOCATION env :: (JobModel.location <$> jobs))).2
      !! DEPOT_LOCATION env = Some 0%nat.
Proof. apply index_locations_depot. Qed.

(** ** The entries of the data model *)

Lemma map_jobs_with_indices_lookup (location_indices : gmap string nat)
  (jobs : list JobModel.t) (entries : list JobEntry.t) :
  map_jobs_with_indices location_indices jobs = Ok entries →
  length entries = length jobs
  ∧ ∀ i job, jobs !! i = Some job →
      ∃ entry, entries !! i = Some entry
               ∧ JobEntry.id entry = JobModel.id job
               ∧ location_indices !! JobModel.location job
                 = Some (JobEntry.location_idx entry)
               ∧ JobEntry.type entry = JobModel.type job
               ∧ JobEntry.related_job_id entry = JobModel.related_job_id job
               ∧ JobEntry.preferred_date entry = JobModel.preferred_date job.
Proof.
  intros H. apply map_jobs_with_indices_Ok in H. split.
  - symmetry. by eapply Forall2_length.
  - intros i job Hjob.
    destruct (Forall2_lookup_l _ _ _ _ _ H Hjob) as (entry & Hentry & Hfields).
    by exists entry.
Qed.

(** X3: the data model keeps one entry per job, in input order, with the
    job's id, type, related job id and preferred dates; the entry's location
    index is the position of the job's address in the list of unique
    locations, hence below [num_locations], and two entries have the same
    location index exactly when their jobs have the same address. *)
Theorem job_entries_follow_jobs (env : Env) (jobs : list JobModel.t)
  (num_drivers_per_day max_hours_per_driver : Z) (data_model : DataModel.t) :
  create_data_model env jobs num_drivers_per_day max_hours_per_driver
  = Ok data_model →
  length (DataModel.jobs data_model) = length jobs
  ∧ DataModel.num_locations data_model = length (unique_locations env jobs)
  ∧ (∀ i job, jobs !! i = Some job →
       ∃ entry, DataModel.jobs data_model !! i = Some entry
                ∧ JobEntry.id entry = JobModel.id job
                ∧ JobEntry.type entry = JobModel.type job
                ∧ JobEntry.related_job_id entry = JobModel.related_job_id job
                ∧ JobEntry.preferred_date entry = JobModel.preferred_date job
                ∧ unique_locations env jobs !! JobEntry.location_idx entry
                  = Some (JobModel.location job)
                ∧ (JobEntry.location_idx entry
                   < DataModel.num_locations data_model)%nat)
  ∧ (∀ i i' job job' entry entry',
       jobs !! i = Some job → jobs !! i' = Some job' →
       DataModel.jobs data_model !! i = Some entry →
       DataModel.jobs data_model !! i' = Some entry' →
       JobEntry.location_idx entry = JobEntry.location_idx entry'
       ↔ JobModel.location job = JobModel.location job').
Proof.
  intros Hmodel.
  destruct (create_data_model_Ok _ _ _ _ _ Hmodel)
    as (unique & location_indices & Hindex & _ & Hentries & Hnum & _).
  destruct (index_locations_bijection
              (DEPOT_LOCATION env :: (JobModel.location <$> jobs)))
    as (_ & Hbij & _).
  rewrite Hindex in Hbij. simpl in Hbij.
  assert (unique_locations env jobs = unique) as Hunique
    by (unfold unique_locations; by rewrite Hindex).
  destruct (map_jobs_with_indices_lookup _ _ _ Hentries) as [Hlen Hlookup].
  rewrite Hunique, Hnum.
  assert (∀ i job, jobs !! i = Some job →
            ∃ entry, DataModel.jobs data_model !! i = Some entry
                     ∧ JobEntry.id entry = JobModel.id job
                     ∧ JobEntry.type entry = JobModel.type job
                     ∧ JobEntry.related_job_id entry
                       = JobModel.related_job_id job
                     ∧ JobEntry.preferred_date entry
                       = JobModel.preferred_date job
                     ∧ unique !! JobEntry.location_idx entry
                       = Some (JobModel.location job)
                     ∧ (JobEntry.location_idx entry < length unique)%nat)
    as Hentry.
  { intros i job Hjob.
    destruct (Hlookup i job Hjob) as (entry & He & Hid & Hloc & Hty & Hrel & Hpd).
    exists entry. apply Hbij in Hloc.
    repeat (split; [done|]). by apply lookup_lt_Some in Hloc. }
  split; [done|]. split; [done|]. split; [done|].
  intros i i' job job' entry entry' Hjob Hjob' He He'.
  destruct (Hentry i job Hjob) as (e & He1 & _ & _ & _ & _ & Hloc & _).
  destruct (Hentry i' job' Hjob') as (e' & He1' & _ & _ & _ & _ & Hloc' & _).
  assert (e = entry) as -> by congruence.
  assert (e' = entry') as -> by congruence.
  split.
  - intros Heq. rewrite Heq in Hloc. congruence.
  - intros Heq. rewrite Heq in Hloc.
    destruct (index_locations_bijection
                (DEPOT_LOCATION env :: (JobModel.location <$> jobs)))
      as (Hnodup & _ & _).
    rewrite Hindex in Hnodup. simpl in Hnodup.
    by apply (NoDup_lookup _ _ _ _ Hnodup Hloc Hloc').
Qed.

Lemma job_entries_follow_jobs_witness :
  create_data_model (Example.env Example.infeasible) Pairing.jobs 1 9
  = Ok Pairing.model
  ∧ length (DataModel.jobs Pairing.model) = length Pairing.jobs.
Proof.
  split; [vm_compute; reflexivity|].
  apply (job_entries_follow_jobs (Example.env Example.infeasible)
           Pairing.jobs 1 9 Pairing.model).
  vm_compute. reflexivity.
Defined.

(** X4: [create_data_model] raises exactly when [compute_time_matrix] does,
    on the list of unique locations, and then raises the same exception: the
    lookup of a job's address in the location index never fails. *)
Theorem create_data_model_raises (env : Env) (jobs : list JobModel.t)
  (num_drivers_per_day max_hours_per_driver : Z) (e : exn) :
  create_data_model env jobs num_drivers_per_day max_hours_per_driver = Raise e
  ↔ compute_time_matrix env (unique_locations env jobs) = Raise e.
Proof.
  pose proof (create_data_model_is_ok env jobs num_drivers_per_day
                max_hours_per_driver) as Hok.
  unfold create_data_model, unique_locations in *.
  destruct (index_locations _) as [unique location_indices]. simpl in *.
  destruct (compute_time_matrix env unique) as [time_matrix|e'].
  - cbn [mbind result_bind] in *.
    destruct (map_jobs_with_indices location_indices jobs); [|done].
    cbn [mbind result_bind]. split; discriminate.
  - cbn [mbind result_bind]. split; by intros [= ->].
Qed.

(** ** Travel times *)

(** X5: without a Routes API key [compute_time_matrix] never raises; for
    [n] locations it returns [n] rows of [n] entries, entry (i, j) being
    max(30, 20·|i − j|): every entry is at least 30 minutes, also from a
    location to itself, and the matrix is symmetric. *)
Theorem compute_time_matrix_without_key (env : Env) (locations : list string) :
  truthy_str (GOOGLE_MAPS_API_KEY env) = false →
  ∃ matrix,
    compute_time_matrix env locations = Ok matrix
    ∧ length matrix = length locations
    ∧ (∀ row, row ∈ matrix → length row = length locations)
    ∧ (∀ i j : nat, (i < length locations)%nat → (j < length locations)%nat →
         ∃ row row',
           matrix !! i = Some row ∧ matrix !! j = Some row'
           ∧ row !! j = Some (Z.max 30 (Z.abs (Z.of_nat i - Z.of_nat j) * 20))
           ∧ row' !! i = row !! j
           ∧ row !! i = Some 30).
Proof.
  intros Hkey. unfold compute_time_matrix. rewrite Hkey. simpl.
  exists (dummy_time_matrix (length locations)). split; [done|].
  unfold dummy_time_matrix.
  split; [by rewrite length_fmap, length_seqZ, Nat2Z.id|]. split.
  - intros row Hrow. apply list_elem_of_fmap in Hrow as (i & -> & _).
    by rewrite length_fmap, length_seqZ, Nat2Z.id.
  - intros i j Hi Hj. eexists _, _.
    rewrite !list_lookup_fmap.
    rewrite (lookup_seqZ_lt 0 _ i), (lookup_seqZ_lt 0 _ j) by lia. simpl.
    split; [done|]. split; [done|]. rewrite !list_lookup_fmap.
    rewrite (lookup_seqZ_lt 0 _ i), (lookup_seqZ_lt 0 _ j) by lia. simpl.
    split; [do 2 f_equal; lia|]. split; f_equal; lia.
Qed.

Lemma compute_time_matrix_without_key_witness :
  truthy_str (GOOGLE_MAPS_API_KEY (Example.env Example.infeasible)) = false
  ∧ ∃ matrix,
      compute_time_matrix (Example.env Example.infeasible) ["a"; "b"; "c"]
      = Ok matrix
      ∧ length matrix = 3%nat.
Proof.
  split; [reflexivity|].
  destruct (compute_time_matrix_without_key (Example.env Example.infeasible)
              ["a"; "b"; "c"] eq_refl) as (matrix & Hmatrix & Hlen & _).
  exists matrix. split; [exact Hmatrix|exact Hlen].
Defined.

(** X6: with a Routes API key, a failure of the travel-time service aborts
    the whole request: for a non-empty job list the handler raises a 500
    whose detail wraps the 500 of [compute_time_matrix], which wraps the
    service's message; the solver is never asked. *)
Theorem optimize_routes_travel_time_failure (env : Env)
  (request : OptimizationRequest.t) (msg : string) :
  truthy_str (GOOGLE_MAPS_API_KEY env) = true →
  OptimizationRequest.jobs request ≠ [] →
  routes_api env (unique_locations env (OptimizationRequest.jobs request))
  = inl msg →
  compute_time_matrix env
    (unique_locations env (OptimizationRequest.jobs request))
  = Raise (HTTPException 500 ("Failed to compute travel times: " +:+ msg))
  ∧ optimize_routes env request
    = Raise (HTTPException 500
               ("Route optimization failed: 500: Failed to compute travel times: "
                  +:+ msg))
  ∧ ∀ solver,
      optimize_routes
        {| GOOGLE_MAPS_API_KEY := GOOGLE_MAPS_API_KEY env;
           DEPOT_LOCATION := DEPOT_LOCATION env;
           routes_api := routes_api env;
           fromisoformat_date := fromisoformat_date env;
           today := today env;
           SolveWithParameters := solver |}
        request
      = optimize_routes env request.
Proof.
  intros Hkey Hjobs Hapi.
  assert (∀ env',
            GOOGLE_MAPS_API_KEY env' = GOOGLE_MAPS_API_KEY env →
            DEPOT_LOCATION env' = DEPOT_LOCATION env →
            routes_api env' = routes_api env →
            optimize_routes env' request
            = Raise (HTTPException 500
                       ("Route optimization failed: 500: Failed to compute travel times: "
                          +:+ msg))) as Hany.
  { intros env' Hk Hd Hr.
    assert (compute_time_matrix env'
              (unique_locations env' (OptimizationRequest.jobs request))
            = Raise (HTTPException 500
                       ("Failed to compute travel times: " +:+ msg))) as Hm.
    { unfold compute_time_matrix, unique_locations. rewrite Hk, Hkey, Hr, Hd.
      simpl. unfold unique_locations in Hapi. by rewrite Hapi. }
    apply create_data_model_raises
      with (num_drivers_per_day := OptimizationRequest.num_drivers_per_day request)
           (max_hours_per_driver :=
              max_driver_hours (OptimizationRequest.drivers request)) in Hm.
    unfold optimize_routes, optimize_body.
    destruct (OptimizationRequest.jobs request) as [|job jobs]; [done|].
    rewrite Hm. reflexivity. }
  split.
  - unfold compute_time_matrix. rewrite Hkey, Hapi. reflexivity.
  - split; [by apply Hany|]. intros solver. rewrite (Hany env) by done.
    by apply Hany.
Qed.

Lemma optimize_routes_travel_time_failure_witness :
  truthy_str (GOOGLE_MAPS_API_KEY Outage.env) = true
  ∧ OptimizationRequest.jobs Example.single_request ≠ []
  ∧ optimize_routes Outage.env Example.single_request
    = Raise (HTTPException 500
               ("Route optimization failed: 500: Failed to compute travel times: "
                  +:+ "Routes API error: 403")).
Proof.
  split; [reflexivity|]. split; [discriminate|].
  apply (optimize_routes_travel_time_failure Outage.env Example.single_request
           "Routes API error: 403").
  - reflexivity.
  - discriminate.
  - reflexivity.
Defined.

(** ** The call of the solver and what is made of its answer *)

Lemma solve_vrp_day_routing (env : Env) (data_model : DataModel.t)
  (day_index : nat) (routes : list VehicleRoute.t) (unassigned : list string) :
  solve_vrp env data_model day_index = Ok (routes, unassigned) →
  ∃ routing allowed_jobs,
    day_routing data_model day_index = Ok (routing, allowed_jobs)
    ∧ DataModel.jobs_by_day data_model !! day_index = Some allowed_jobs
    ∧ unassigned
      = collect_unassigned (DataModel.jobs data_model) routes allowed_jobs
    ∧ match SolveWithParameters env day_index routing with
      | Some solution =>
          extract_routes data_model solution
            (seq 0 (Z.to_nat (DataModel.num_vehicles data_model))) []
          = Ok routes
      | None => routes = []
      end.
Proof.
  unfold solve_vrp, day_routing. intros H. inv_bind H.
  rewrite Ha. cbn [mbind result_bind]. rewrite Ha0. cbn [mbind result_bind].
  rewrite Ha1. cbn [mbind result_bind mret result_ret].
  eexists _, _. split; [done|]. apply list_index_Ok in Ha0.
  split; [done|]. simplify_eq. split; [done|].
  destruct (SolveWithParameters env day_index _); [done|]. by injection Ha2.
Qed.

Lemma is_assigned_nil (job_id : string) : is_assigned [] job_id = false.
Proof. done. Qed.

(** X7: when the solver finds no solution for a day, the day has no route
    and its unassigned list holds the job id of every entry eligible that
    day, once per entry and in input order, however often the entry occurs
    in the day's eligibility list. *)
Theorem solve_vrp_infeasible (env : Env) (data_model : DataModel.t)
  (day_index : nat) (routes : list VehicleRoute.t) (unassigned : list string) :
  solve_vrp env data_model day_index = Ok (routes, unassigned) →
  (∀ routing, SolveWithParameters env day_index routing = None) →
  ∃ allowed_jobs,
    DataModel.jobs_by_day data_model !! day_index = Some allowed_jobs
    ∧ routes = []
    ∧ unassigned
      = (λ ij, JobEntry.id ij.2)
          <$> filter (λ ij, ij.1 ∈ allowed_jobs)
                (enumerate (DataModel.jobs data_model)).
Proof.
  intros Hsolve Hnone.
  apply solve_vrp_day_routing in Hsolve
    as (routing & allowed_jobs & _ & Hallowed & -> & Hroutes).
  rewrite Hnone in Hroutes. subst routes.
  exists allowed_jobs. split; [done|]. split; [done|].
  unfold collect_unassigned. rewrite foldl_add_unassigned. simpl. f_equal.
  apply list_filter_iff. intros [j job]. simpl. tauto.
Qed.

Lemma solve_vrp_infeasible_witness :
  solve_vrp (Example.env Example.infeasible) Example.dated_model 0
  = Ok ([], ["B"])
  ∧ ∃ allowed_jobs,
      DataModel.jobs_by_day Example.dated_model !! 0%nat = Some allowed_jobs
      ∧ ([] : list VehicleRoute.t) = []
      ∧ ["B"]
        = (λ ij, JobEntry.id ij.2)
            <$> filter (λ ij, ij.1 ∈ allowed_jobs)
                  (enumerate (DataModel.jobs Example.dated_model)).
Proof.
  split; [vm_compute; reflexivity|].
  apply (solve_vrp_infeasible (Example.env Example.infeasible)
           Example.dated_model 0 [] ["B"]).
  - vm_compute. reflexivity.
  - reflexivity.
Defined.

Lemma first_at_first (jobs : list JobEntry.t) (k node_index i : nat)
  (job : JobEntry.t) :
  first_at jobs k node_index = Some (i, job) →
  ∃ i', i = (k + i')%nat ∧ jobs !! i' = Some job
        ∧ JobEntry.location_idx job = node_index
        ∧ ∀ j' job', (j' < i')%nat → jobs !! j' = Some job' →
                     JobEntry.location_idx job' ≠ node_index.
Proof.
  revert k. induction jobs as [|job0 jobs IH]; intros k; simpl; [done|].
  case_decide as Hloc.
  - intros [= <- <-]. exists 0%nat. split; [lia|]. split; [done|].
    split; [done|]. intros j' job' Hj'. lia.
  - intros H. apply IH in H as (i' & -> & Hjob & Hloc' & Hfirst).
    exists (S i'). split; [lia|]. split; [done|]. split; [done|].
    intros [|j'] job' Hj' Hjob'; simpl in Hjob'.
    + by injection Hjob' as <-.
    + apply (Hfirst j' job'); [lia|done].
Qed.

Lemma elem_of_visit_stops (data_model : DataModel.t) (path : list (nat * Z))
  (stop : JobStop.t) :
  stop ∈ visit_stops data_model path
  ↔ ∃ node_index arrival_time j job,
      (node_index, arrival_time) ∈ path
      ∧ node_index ≠ 0%nat
      ∧ first_at (DataModel.jobs data_model) 0 node_index = Some (j, job)
      ∧ stop = reported_stop job arrival_time
                 (DataModel.max_time_per_vehicle data_model).
Proof.
  unfold visit_stops. rewrite list_elem_of_bind. split.
  - intros ([node_index arrival_time] & Hstop & Hin).
    destruct (decide (node_index = 0%nat)); [by apply elem_of_nil in Hstop|].
    destruct (first_at _ _ _) as [[j job]|] eqn:Hfirst;
      [|by apply elem_of_nil in Hstop].
    apply list_elem_of_singleton in Hstop.
    by exists node_index, arrival_time, j, job.
  - intros (node_index & arrival_time & j & job & Hin & Hne & Hfirst & ->).
    exists (node_index, arrival_time). split; [|done].
    rewrite decide_False by done. rewrite Hfirst. by apply list_elem_of_singleton.
Qed.

Lemma solve_vrp_route_stops (env : Env) (data_model : DataModel.t)
  (day_index : nat) (routes : list VehicleRoute.t) (unassigned : list string)
  (route : VehicleRoute.t) :
  solve_vrp env data_model day_index = Ok (routes, unassigned) →
  route ∈ routes →
  ∃ routing solution,
    SolveWithParameters env day_index routing = Some solution
    ∧ extract_routes data_model solution
        (seq 0 (Z.to_nat (DataModel.num_vehicles data_model))) []
      = Ok routes
    ∧ VehicleRoute.stops route
      = visit_stops data_model (solution (VehicleRoute.vehicle_id route)).
Proof.
  intros Hsolve Hroute.
  apply solve_vrp_day_routing in Hsolve
    as (routing & allowed_jobs & _ & _ & _ & Hroutes).
  destruct (SolveWithParameters env day_index routing) as [solution|] eqn:Hs.
  - exists routing, solution. split; [done|]. split; [done|].
    destruct (extract_routes_elem_of _ _ _ _ _ _ Hroutes Hroute) as [Hin|H];
      [by apply elem_of_nil in Hin|done].
  - subst routes. by apply elem_of_nil in Hroute.
Qed.

(** X8: every stop of a day's route comes from a visit of the route's
    vehicle to a node other than the depot: it carries the job id of the
    first entry, in input order, located at that node, and its window starts
    at the solver's arrival time and ends 180 minutes later or at the
    vehicle's time cap, whichever comes first.  So no stop stands for the
    depot, and no window ends after the cap or lasts more than 180
    minutes. *)
Theorem stop_comes_from_visit (env : Env) (data_model : DataModel.t)
  (day_index : nat) (routes : list VehicleRoute.t) (unassigned : list string)
  (route : VehicleRoute.t) (stop : JobStop.t) :
  solve_vrp env data_model day_index = Ok (routes, unassigned) →
  route ∈ routes →
  stop ∈ VehicleRoute.stops route →
  ∃ routing solution node_index arrival_time j job,
    SolveWithParameters env day_index routing = Some solution
    ∧ (node_index, arrival_time) ∈ solution (VehicleRoute.vehicle_id route)
    ∧ node_index ≠ 0%nat
    ∧ DataModel.jobs data_model !! j = Some job
    ∧ JobEntry.location_idx job = node_index
    ∧ (∀ j' job', (j' < j)%nat →
                  DataModel.jobs data_model !! j' = Some job' →
                  JobEntry.location_idx job' ≠ node_index)
    ∧ JobStop.job_id stop = JobEntry.id job
    ∧ JobStop.window stop
      = (arrival_time,
         Z.min (arrival_time + 180)
           (DataModel.max_time_per_vehicle data_model))
    ∧ (JobStop.window stop).2 ≤ DataModel.max_time_per_vehicle data_model
    ∧ (JobStop.window stop).2 ≤ (JobStop.window stop).1 + 180.
Proof.
  intros Hsolve Hroute Hstop.
  destruct (solve_vrp_route_stops _ _ _ _ _ _ Hsolve Hroute)
    as (routing & solution & Hsolution & _ & Hstops).
  rewrite Hstops in Hstop.
  apply elem_of_visit_stops in Hstop
    as (node_index & arrival_time & j & job & Hin & Hne & Hfirst & ->).
  apply first_at_first in Hfirst as (j' & -> & Hjob & Hloc & Hmin).
  exists routing, solution, node_index, arrival_time, j', job. simpl.
  repeat (split; [done|]). split; lia.
Qed.

Lemma stop_comes_from_visit_witness :
  solve_vrp (Example.env Example.visit_solver) Example.shared_model 0
  = Ok ([Example.first_stop_route], ["B"])
  ∧ ∃ routing solution node_index arrival_time j job,
      SolveWithParameters (Example.env Example.visit_solver) 0 routing
      = Some solution
      ∧ (node_index, arrival_time)
        ∈ solution (VehicleRoute.vehicle_id Example.first_stop_route)
      ∧ node_index ≠ 0%nat
      ∧ DataModel.jobs Example.shared_model !! j = Some job
      ∧ JobEntry.location_idx job = node_index
      ∧ (∀ j' job', (j' < j)%nat →
                    DataModel.jobs Example.shared_model !! j' = Some job' →
                    JobEntry.location_idx job' ≠ node_index)
      ∧ "A" = JobEntry.id job
      ∧ (30, 210)
        = (arrival_time,
           Z.min (arrival_time + 180)
             (DataModel.max_time_per_vehicle Example.shared_model))
      ∧ 210 ≤ DataModel.max_time_per_vehicle Example.shared_model
      ∧ 210 ≤ 30 + 180.
Proof.
  split; [vm_compute; reflexivity|].
  apply (stop_comes_from_visit (Example.env Example.visit_solver)
           Example.shared_model 0 [Example.first_stop_route] ["B"]
           Example.first_stop_route
           {| JobStop.job_id := "A"; JobStop.window := (30, 210) |}).
  - vm_compute. reflexivity.
  - left.
  - left.
Defined.

(** ** The routes of a day *)

Lemma extract_routes_sublist (data_model : DataModel.t) (solution : Assignment)
  (vehicle_ids : list nat) (routes routes' : list VehicleRoute.t) :
  extract_routes data_model solution vehicle_ids routes = Ok routes' →
  ∃ new, routes' = routes ++ new
         ∧ VehicleRoute.vehicle_id <$> new `sublist_of` vehicle_ids
         ∧ ∀ route, route ∈ new → VehicleRoute.stops route ≠ [].
Proof.
  revert routes. induction vehicle_ids as [|vehicle_id vehicle_ids IH];
    intros routes H; simpl in H.
  - injection H as <-. exists []. rewrite app_nil_r. split; [done|].
    split; [constructor|]. intros route Hin. by apply elem_of_nil in Hin.
  - inv_bind H. destruct a as [stops route_time].
    apply IH in H as (new & -> & Hsub & Hstops).
    destruct stops as [|stop stops].
    + exists new. split; [done|]. split; [by apply sublist_cons|done].
    + eexists (_ :: new). split; [by rewrite <- app_assoc|].
      split; [by apply sublist_skip|].
      intros route Hin. apply elem_of_cons in Hin as [->|Hin]; [done|].
      by apply Hstops.
Qed.

Lemma StronglySorted_sublist {A} (R : A → A → Prop) (l k : list A) :
  l `sublist_of` k → StronglySorted R k → StronglySorted R l.
Proof.
  induction 1 as [|x l k Hsub IH|x l k Hsub IH]; intros Hsorted.
  - constructor.
  - apply StronglySorted_inv in Hsorted as [Hk Hx].
    constructor; [by apply IH|].
    apply Forall_forall. intros y Hy. rewrite Forall_forall in Hx.
    apply Hx. by eapply elem_of_sublist.
  - apply StronglySorted_inv in Hsorted as [Hk _]. by apply IH.
Qed.

Lemma StronglySorted_seq (k n : nat) : StronglySorted lt (seq k n).
Proof.
  revert k. induction n as [|n IH]; intros k; simpl; constructor; [apply IH|].
  apply Forall_forall. intros x Hx. apply elem_of_seq in Hx. lia.
Qed.

(** X9: the routes that [solve_vrp] returns are those of the vehicles with
    at least one stop, in the order of the vehicles: no returned route has
    an empty stop list, the vehicle ids increase strictly along the list and
    stay below the number of vehicles, so there are at most as many routes
    as vehicles. *)
Theorem solve_vrp_routes_of_vehicles (env : Env) (data_model : DataModel.t)
  (day_index : nat) (routes : list VehicleRoute.t) (unassigned : list string) :
  solve_vrp env data_model day_index = Ok (routes, unassigned) →
  (∀ route, route ∈ routes → VehicleRoute.stops route ≠ [])
  ∧ StronglySorted lt (VehicleRoute.vehicle_id <$> routes)
  ∧ (∀ route, route ∈ routes →
       (VehicleRoute.vehicle_id route
        < Z.to_nat (DataModel.num_vehicles data_model))%nat)
  ∧ (length routes ≤ Z.to_nat (DataModel.num_vehicles data_model))%nat.
Proof.
  intros Hsolve.
  apply solve_vrp_day_routing in Hsolve
    as (routing & allowed_jobs & _ & _ & _ & Hroutes).
  destruct (SolveWithParameters env day_index routing) as [solution|].
  - apply extract_routes_sublist in Hroutes as (new & -> & Hsub & Hstops).
    simpl. split; [done|]. split.
    { eapply StronglySorted_sublist; [done|apply StronglySorted_seq]. }
    split.
    + intros route Hroute.
      assert (VehicleRoute.vehicle_id route
              ∈ seq 0 (Z.to_nat (DataModel.num_vehicles data_model))) as Hin.
      { eapply elem_of_sublist; [|done]. apply list_elem_of_fmap.
        by exists route. }
      apply elem_of_seq in Hin. lia.
    + apply sublist_length in Hsub.
      by rewrite length_fmap, length_seq in Hsub.
  - subst routes. split; [intros ? H; by apply elem_of_nil in H|].
    split; [constructor|]. split; [intros ? H; by apply elem_of_nil in H|].
    simpl. lia.
Qed.

Lemma solve_vrp_routes_of_vehicles_witness :
  solve_vrp (Example.env Example.visit_solver) Example.shared_model 0
  = Ok ([Example.first_stop_route], ["B"])
  ∧ (length [Example.first_stop_route]
     ≤ Z.to_nat (DataModel.num_vehicles Example.shared_model))%nat.
Proof.
  split; [vm_compute; reflexivity|].
  apply (solve_vrp_routes_of_vehicles (Example.env Example.visit_solver)
           Example.shared_model 0 [Example.first_stop_route] ["B"]).
  vm_compute. reflexivity.
Defined.

(** ** What the solver is asked *)

Lemma pickup_delivery_nodes_Ok (data_model : DataModel.t)
  (job_pairs : list (nat * nat)) (nodes : list (nat * nat)) :
  pickup_delivery_nodes data_model job_pairs = Ok nodes →
  Forall2 (λ job_pair pickup_delivery,
             ∃ pickup_job delivery_job,
               DataModel.jobs data_model !! job_pair.1 = Some pickup_job
               ∧ DataModel.jobs data_model !! job_pair.2 = Some delivery_job
               ∧ pickup_delivery
                 = (JobEntry.location_idx pickup_job,
                    JobEntry.location_idx delivery_job))
          job_pairs nodes.
Proof.
  revert nodes. induction job_pairs as [|job_pair job_pairs IH];
    intros nodes H; simpl in H.
  - injection H as <-. constructor.
  - inv_bind H. subst nodes. constructor; [|by apply IH].
    apply list_index_Ok in Ha, Ha0. by exists a, a0.
Qed.

Lemma job_locations_Ok (data_model : DataModel.t) (allowed_jobs : list nat)
  (locations : list nat) :
  job_locations data_model allowed_jobs = Ok locations →
  ∀ node_index,
    node_index ∈ locations
    ↔ ∃ j job, j ∈ allowed_jobs
               ∧ DataModel.jobs data_model !! j = Some job
               ∧ JobEntry.location_idx job = node_index.
Proof.
  revert locations. induction allowed_jobs as [|j allowed_jobs IH];
    intros locations H node_index; simpl in H.
  - injection H as <-. split; [by intros ?%elem_of_nil|].
    by intros (? & ? & ?%elem_of_nil & _).
  - inv_bind H. subst locations. apply list_index_Ok in Ha.
    rewrite elem_of_cons, (IH _ Ha0). split.
    + intros [->|(j' & job & Hj' & Hjob & Hloc)].
      * exists j, a. split; [left|done].
      * exists j', job. split; [by right|done].
    + intros (j' & job & Hj' & Hjob & Hloc).
      apply elem_of_cons in Hj' as [->|Hj'].
      * left. congruence.
      * right. by exists j', job.
Qed.

Lemma elem_of_removed_nodes (data_model : DataModel.t)
  (allowed_locations : gset nat) (node_idx vehicle_id : nat) :
  (node_idx, vehicle_id) ∈ removed_nodes data_model allowed_locations
  ↔ (1 ≤ node_idx < DataModel.num_locations data_model)%nat
    ∧ (vehicle_id < Z.to_nat (DataModel.num_vehicles data_model))%nat
    ∧ (node_idx ∉ allowed_locations).
Proof.
  unfold removed_nodes. rewrite list_elem_of_bind. split.
  - intros (v & Hin & Hv). apply list_elem_of_bind in Hin as (n & Hin & Hn).
    apply elem_of_seq in Hv, Hn.
    destruct (decide (n ∉ allowed_locations)); [|by apply elem_of_nil in Hin].
    apply list_elem_of_singleton in Hin as [= -> ->].
    split; [lia|]. split; [lia|done].
  - intros (Hn & Hv & Hnot). exists vehicle_id.
    split; [|apply elem_of_seq; lia].
    apply list_elem_of_bind. exists node_idx. split; [|apply elem_of_seq; lia].
    rewrite decide_True by done. by apply list_elem_of_singleton.
Qed.

(** X10: the routing model that [solve_vrp] hands to the solver.  Its arc
    costs are the time matrix, its time dimension has 60 minutes of slack
    and the data model's cap, and the search is limited to 30 seconds.  A
    node is taken away from a vehicle exactly when it is a node other than
    the depot at which no entry eligible that day is located; then it is
    taken away from every vehicle.  A pickup-and-delivery constraint is
    posted for every job pair of the data model, between the nodes of its two
    entries, whether or not the entries are eligible that day. *)
Theorem solve_vrp_routing_model (env : Env) (data_model : DataModel.t)
  (day_index : nat) (routes : list VehicleRoute.t) (unassigned : list string) :
  solve_vrp env data_model day_index = Ok (routes, unassigned) →
  ∃ routing allowed_jobs,
    day_routing data_model day_index = Ok (routing, allowed_jobs)
    ∧ DataModel.jobs_by_day data_model !! day_index = Some allowed_jobs
    ∧ match SolveWithParameters env day_index routing with
      | Some solution =>
          extract_routes data_model solution
            (seq 0 (Z.to_nat (DataModel.num_vehicles data_model))) []
          = Ok routes
      | None => routes = []
      end
    ∧ RoutingModel.transit routing = DataModel.time_matrix data_model
    ∧ RoutingModel.slack_max routing = 60
    ∧ RoutingModel.capacity routing
      = DataModel.max_time_per_vehicle data_model
    ∧ RoutingModel.time_limit_seconds routing = 30
    ∧ (∀ node_idx vehicle_id,
         (node_idx, vehicle_id) ∈ RoutingModel.removed_values routing
         ↔ (1 ≤ node_idx < DataModel.num_locations data_model)%nat
           ∧ (vehicle_id < Z.to_nat (DataModel.num_vehicles data_model))%nat
           ∧ ¬ ∃ j job, j ∈ allowed_jobs
                        ∧ DataModel.jobs data_model !! j = Some job
                        ∧ JobEntry.location_idx job = node_idx)
    ∧ Forall2 (λ job_pair pickup_delivery,
                 ∃ pickup_job delivery_job,
                   DataModel.jobs data_model !! job_pair.1 = Some pickup_job
                   ∧ DataModel.jobs data_model !! job_pair.2
                     = Some delivery_job
                   ∧ pickup_delivery
                     = (JobEntry.location_idx pickup_job,
                        JobEntry.location_idx delivery_job))
              (DataModel.job_pairs data_model)
              (RoutingModel.pickups_deliveries routing).
Proof.
  intros Hsolve.
  apply solve_vrp_day_routing in Hsolve
    as (routing & allowed_jobs & Hrouting & Hallowed & _ & Hroutes).
  exists routing, allowed_jobs. split; [done|]. split; [done|]. split; [done|].
  unfold day_routing in Hrouting.
  apply bind_Ok in Hrouting as (pickups_deliveries & Ha & Hrouting).
  apply bind_Ok in Hrouting as (allowed' & Ha0 & Hrouting).
  apply bind_Ok in Hrouting as (locations & Ha1 & Hrouting).
  injection Hrouting as <- ->. simpl.
  repeat (split; [done|]). split.
  - intros node_idx vehicle_id. rewrite elem_of_removed_nodes.
    rewrite elem_of_union, elem_of_list_to_set, elem_of_singleton.
    rewrite (job_locations_Ok _ _ _ Ha1 node_idx). split.
    + intros (Hn & Hv & Hnot). split; [done|]. split; [done|]. tauto.
    + intros (Hn & Hv & Hnot). split; [done|]. split; [done|].
      intros [?|?]; [done|lia].
  - by apply pickup_delivery_nodes_Ok.
Qed.

Lemma solve_vrp_routing_model_witness :
  solve_vrp (Example.env Example.visit_solver) Example.dated_model 0
  = Ok ([Example.first_stop_route], ["B"])
  ∧ ∃ routing allowed_jobs,
      day_routing Example.dated_model 0 = Ok (routing, allowed_jobs)
      ∧ DataModel.jobs_by_day Example.dated_model !! 0%nat = Some allowed_jobs
      ∧ RoutingModel.capacity routing = 540.
Proof.
  split; [vm_compute; reflexivity|].
  destruct (solve_vrp_routing_model (Example.env Example.visit_solver)
              Example.dated_model 0 [Example.first_stop_route] ["B"])
    as (routing & allowed_jobs & Hrouting & Hallowed & _ & _ & _ & Hcap & _).
  - vm_compute. reflexivity.
  - exists routing, allowed_jobs. split; [exact Hrouting|].
    split; [exact Hallowed|exact Hcap].
Defined.

(** ** The time of a route *)

Lemma walk_route_time (data_model : DataModel.t) (path : list (nat * Z))
  (route route' : list JobStop.t) (route_time route_time' : Z) :
  walk_route data_model path route route_time = Ok (route', route_time') →
  ∃ transits,
    Forall2 (λ arc transit,
               arc_cost (DataModel.time_matrix data_model) arc = Some transit)
            (arcs path.*1 (DataModel.depot data_model)) transits
    ∧ route_time' = route_time + foldr Z.add 0 transits.
Proof.
  revert route route_time.
  induction path as [|[node_index arrival_time] path IH];
    intros route route_time H; simpl in H.
  - injection H as _ <-. exists []. split; [constructor|simpl; lia].
  - inv_bind H. apply IH in H as (transits & Harcs & ->).
    exists (a :: transits). split; [|simpl; lia].
    rewrite fmap_cons. cbn [arcs]. constructor; [|done].
    unfold time_callback in Ha. inv_bind Ha.
    apply list_index_Ok in Ha0, Ha. unfold arc_cost. simpl.
    rewrite Ha0. simpl.
    by destruct path as [|[next ?] ?].
Qed.

Lemma extract_routes_walk (data_model : DataModel.t) (solution : Assignment)
  (vehicle_ids : list nat) (routes routes' : list VehicleRoute.t)
  (route : VehicleRoute.t) :
  extract_routes data_model solution vehicle_ids routes = Ok routes' →
  route ∈ routes' →
  route ∈ routes
  ∨ walk_route data_model (solution (VehicleRoute.vehicle_id route)) [] 0
    = Ok (VehicleRoute.stops route, VehicleRoute.total_time route).
Proof.
  revert routes. induction vehicle_ids as [|vehicle_id vehicle_ids IH];
    intros routes H Hin; simpl in H.
  - injection H as <-. by left.
  - inv_bind H. destruct a as [stops route_time].
    destruct (IH _ H Hin) as [Hold|Hnew]; [|by right].
    destruct stops as [|stop stops]; [by left|].
    apply elem_of_app in Hold as [Hold|Hold]; [by left|].
    apply list_elem_of_singleton in Hold as ->. by right.
Qed.

(** X11: the [total_time] of a route is the sum of the time-matrix entries
    of the arcs its vehicle drives, from the start through every node of the
    path and from the last node back to the depot; neither the stops nor the
    solver's cumulative times (hence no waiting) enter it. *)
Theorem total_time_is_sum_of_arcs (env : Env) (data_model : DataModel.t)
  (day_index : nat) (routes : list VehicleRoute.t) (unassigned : list string)
  (route : VehicleRoute.t) :
  solve_vrp env data_model day_index = Ok (routes, unassigned) →
  route ∈ routes →
  ∃ routing solution transits,
    SolveWithParameters env day_index routing = Some solution
    ∧ Forall2 (λ arc transit,
                 arc_cost (DataModel.time_matrix data_model) arc
                 = Some transit)
              (arcs (solution (VehicleRoute.vehicle_id route)).*1
                 (DataModel.depot data_model))
              transits
    ∧ VehicleRoute.total_time route = foldr Z.add 0 transits.
Proof.
  intros Hsolve Hroute.
  destruct (solve_vrp_route_stops _ _ _ _ _ _ Hsolve Hroute)
    as (routing & solution & Hsolution & Hextract & _).
  destruct (extract_routes_walk _ _ _ _ _ _ Hextract Hroute) as [Hin|Hwalk];
    [by apply elem_of_nil in Hin|].
  apply walk_route_time in Hwalk as (transits & Harcs & Htime).
  exists routing, solution, transits. split; [done|]. split; [done|].
  rewrite Htime. lia.
Qed.

Lemma total_time_is_sum_of_arcs_witness :
  solve_vrp (Example.env Example.visit_solver) Example.shared_model 0
  = Ok ([Example.first_stop_route], ["B"])
  ∧ ∃ routing solution transits,
      SolveWithParameters (Example.env Example.visit_solver) 0 routing
      = Some solution
      ∧ Forall2 (λ arc transit,
                   arc_cost (DataModel.time_matrix Example.shared_model) arc
                   = Some transit)
                (arcs (solution
                         (VehicleRoute.vehicle_id Example.first_stop_route)).*1
                   (DataModel.depot Example.shared_model))
                transits
      ∧ VehicleRoute.total_time Example.first_stop_route
        = foldr Z.add 0 transits.
Proof.
  split; [vm_compute; reflexivity|].
  apply (total_time_is_sum_of_arcs (Example.env Example.visit_solver)
           Example.shared_model 0 [Example.first_stop_route] ["B"]
           Example.first_stop_route).
  - vm_compute. reflexivity.
  - left.
Defined.

(** ** The routes of the week *)

Lemma solve_days_concat (env : Env) (request : OptimizationRequest.t)
  (data_model : DataModel.t) (days : list nat)
  (all_routes all_routes' : list RouteModel.t)
  (all_unassigned all_unassigned' : list string) :
  solve_days env request data_model days all_routes all_unassigned
  = Ok (all_routes', all_unassigned') →
  ∃ results,
    Forall2 (λ day result, solve_vrp env data_model day = Ok result)
            days results
    ∧ all_routes'
      = all_routes
          ++ concat (zip_with
                       (λ day result,
                          day_route_models
                            (DriverModel.id
                               <$> OptimizationRequest.drivers request)
                            day result.1)
                       days results)
    ∧ all_unassigned' = all_unassigned ++ concat (snd <$> results).
Proof.
  revert all_routes all_unassigned.
  induction days as [|day days IH]; intros all_routes all_unassigned H;
    simpl in H.
  - injection H as <- <-. exists []. split; [constructor|].
    simpl. by rewrite !app_nil_r.
  - apply bind_Ok in H as ([day_routes day_unassigned] & Hday & H).
    apply IH in H as (results & Hresults & -> & ->).
    exists ((day_routes, day_unassigned) :: results).
    split; [by constructor|]. simpl. by rewrite <- !app_assoc.
Qed.

Lemma day_route_models_day (driver_ids : list string) (day : nat)
  (day_routes : list VehicleRoute.t) (route : RouteModel.t) :
  route ∈ day_route_models driver_ids day day_routes →
  RouteModel.day route = Z.of_nat day + 1.
Proof.
  intros Hin. apply elem_of_day_route_models in Hin as (i & r & _ & ->). done.
Qed.

Lemma week_routes_sorted (driver_ids : list string) (k : nat)
  (results : list (list VehicleRoute.t * list string)) :
  StronglySorted Z.le
    (RouteModel.day
       <$> concat (zip_with
                     (λ day result, day_route_models driver_ids day result.1)
                     (seq k (length results)) results))
  ∧ Forall (λ route, Z.of_nat k + 1 ≤ RouteModel.day route
                     ≤ Z.of_nat k + Z.of_nat (length results))
      (concat (zip_with
                 (λ day result, day_route_models driver_ids day result.1)
                 (seq k (length results)) results)).
Proof.
  revert k. induction results as [|result results IH]; intros k; simpl.
  - split; constructor.
  - destruct (IH (S k)) as [IHsorted IHrange]. split.
    + rewrite fmap_app. apply StronglySorted_app_2; [| |done].
      * intros d d' Hd Hd'.
        apply list_elem_of_fmap in Hd as (route & -> & Hroute).
        apply list_elem_of_fmap in Hd' as (route' & -> & Hroute').
        apply day_route_models_day in Hroute. rewrite Hroute.
        rewrite Forall_forall in IHrange. specialize (IHrange _ Hroute'). lia.
      * assert (Forall (λ d, d = Z.of_nat k + 1)
                  (RouteModel.day
                     <$> day_route_models driver_ids k result.1)) as Hall.
        { apply Forall_fmap, Forall_forall. intros route Hroute. simpl.
          by eapply day_route_models_day. }
        induction Hall as [|d ds -> Hds IHds]; constructor; [done|].
        eapply Forall_impl; [exact Hds|]. intros d ->. lia.
    + apply Forall_app. split.
      * apply Forall_forall. intros route Hroute.
        apply day_route_models_day in Hroute. rewrite Hroute. lia.
      * eapply Forall_impl; [exact IHrange|]. intros route Hroute.
        simpl in Hroute. lia.
Qed.

(** X12: the routes of the response are the routes of the five days in the
    order of the days, and within a day in the order in which [solve_vrp]
    returned them; so the [day] fields never decrease along the list and lie
    between 1 and 5. *)
Theorem week_routes_in_day_order (env : Env) (request : OptimizationRequest.t)
  (response : OptimizationResponse.t) :
  optimize_routes env request = Ok response →
  ∃ data_model results,
    create_data_model env (OptimizationRequest.jobs request)
      (OptimizationRequest.num_drivers_per_day request)
      (max_driver_hours (OptimizationRequest.drivers request))
    = Ok data_model
    ∧ Forall2 (λ day result, solve_vrp env data_model day = Ok result)
        (seq 0 5) results
    ∧ OptimizationResponse.routes response
      = concat (zip_with
                  (λ day result,
                     day_route_models
                       (DriverModel.id <$> OptimizationRequest.drivers request)
                       day result.1)
                  (seq 0 5) results)
    ∧ StronglySorted Z.le
        (RouteModel.day <$> OptimizationResponse.routes response)
    ∧ Forall (λ route, 1 ≤ RouteModel.day route ≤ 5)
        (OptimizationResponse.routes response).
Proof.
  unfold optimize_routes, try_except. intros H.
  destruct (optimize_body env request) as [response'|] eqn:Hbody; [|done].
  injection H as ->. unfold optimize_body in Hbody.
  destruct (OptimizationRequest.jobs request) as [|job jobs] eqn:Hjobs;
    [done|].
  apply bind_Ok in Hbody as (data_model & Hmodel & Hbody).
  apply bind_Ok in Hbody as ([all_routes all_unassigned] & Hdays & Hbody).
  injection Hbody as <-. simpl.
  apply solve_days_concat in Hdays as (results & Hresults & -> & _).
  exists data_model, results. split; [done|]. split; [done|].
  rewrite app_nil_l. split; [done|].
  assert (length results = 5%nat) as Hlen.
  { apply Forall2_length in Hresults. by rewrite <- Hresults. }
  destruct (week_routes_sorted
              (DriverModel.id <$> OptimizationRequest.drivers request)
              0 results) as [Hsorted Hrange].
  rewrite Hlen in Hsorted, Hrange. split; [done|].
  eapply Forall_impl; [exact Hrange|]. intros route Hroute. simpl in Hroute.
  lia.
Qed.

Lemma week_routes_in_day_order_witness :
  optimize_routes (Example.env (Example.first_day_solver Example.one_visit))
    Example.single_request
  = Ok Example.single_response
  ∧ Forall (λ route, 1 ≤ RouteModel.day route ≤ 5)
      (OptimizationResponse.routes Example.single_response).
Proof.
  split; [vm_compute; reflexivity|].
  destruct (week_routes_in_day_order
              (Example.env (Example.first_day_solver Example.one_visit))
              Example.single_request Example.single_response)
    as (data_model & results & _ & _ & _ & _ & Hrange).
  - vm_compute. reflexivity.
  - exact Hrange.
Defined.

(** X13: drivers are given to the routes of a day by position: the route at
    position [k] among the routes that [solve_vrp] returned for the day, that
    is the [k]-th vehicle with at least one stop and not vehicle [k], is
    driven by the [k]-th driver of the request when there is one, and by
    "additional-driver-(k − number of drivers + 1)" otherwise; its stops and
    total time are those of the day's route. *)
Theorem drivers_assigned_by_position (env : Env)
  (request : OptimizationRequest.t) (response : OptimizationResponse.t)
  (route : RouteModel.t) :
  optimize_routes env request = Ok response →
  route ∈ OptimizationResponse.routes response →
  ∃ data_model day day_routes day_unassigned k day_route,
    (day < 5)%nat
    ∧ solve_vrp env data_model day = Ok (day_routes, day_unassigned)
    ∧ day_routes !! k = Some day_route
    ∧ RouteModel.day route = Z.of_nat day + 1
    ∧ RouteModel.stops route = VehicleRoute.stops day_route
    ∧ RouteModel.total_time route = VehicleRoute.total_time day_route
    ∧ match OptimizationRequest.drivers request !! k with
      | Some driver => RouteModel.driver_id route = DriverModel.id driver
      | None =>
          RouteModel.driver_id route
          = "additional-driver-"
              +:+ pretty (Z.of_nat k
                          - Z.of_nat
                              (length (OptimizationRequest.drivers request))
                          + 1)
      end.
Proof.
  intros Hresponse Hroute.
  destruct (optimize_routes_Ok _ _ _ Hresponse)
    as (data_model & _ & _ & Hroutes & _).
  destruct (proj1 (Hroutes route) Hroute)
    as (day & day_routes & day_unassigned & k & day_route & Hday & Hsolve
        & Hk & Heq).
  exists data_model, day, day_routes, day_unassigned, k, day_route.
  rewrite Heq. simpl. repeat (split; [done|]).
  unfold route_driver_id. rewrite list_lookup_fmap, length_fmap.
  by destruct (OptimizationRequest.drivers request !! k).
Qed.

Lemma drivers_assigned_by_position_witness :
  optimize_routes (Example.env (Example.first_day_solver Example.one_visit))
    Example.single_request
  = Ok Example.single_response
  ∧ ∃ data_model day day_routes day_unassigned k day_route,
      (day < 5)%nat
      ∧ solve_vrp (Example.env (Example.first_day_solver Example.one_visit))
          data_model day
        = Ok (day_routes, day_unassigned)
      ∧ day_routes !! k = Some day_route
      ∧ 1 = Z.of_nat day + 1
      ∧ [ {| JobStop.job_id := "B"; JobStop.window := (30, 210) |} ]
        = VehicleRoute.stops day_route
      ∧ 60 = VehicleRoute.total_time day_route
      ∧ match OptimizationRequest.drivers Example.single_request !! k with
        | Some driver => "additional-driver-1" = DriverModel.id driver
        | None =>
            "additional-driver-1"
            = "additional-driver-"
                +:+ pretty (Z.of_nat k
                            - Z.of_nat
                                (length (OptimizationRequest.drivers
                                           Example.single_request))
                            + 1)
        end.
Proof.
  split; [vm_compute; reflexivity|].
  apply (drivers_assigned_by_position
           (Example.env (Example.first_day_solver Example.one_visit))
           Example.single_request Example.single_response
           {| RouteModel.driver_id := "additional-driver-1";
              RouteModel.day := 1;
              RouteModel.stops :=
                [ {| JobStop.job_id := "B"; JobStop.window := (30, 210) |} ];
              RouteModel.total_time := 60 |}).
  - vm_compute. reflexivity.
  - left.
Defined.

(** ** The hour budget *)

Lemma foldl_Z_max (h : Z) (hs : list Z) :
  h ≤ foldl Z.max h hs
  ∧ (∀ h', h' ∈ hs → h' ≤ foldl Z.max h hs)
  ∧ (foldl Z.max h hs = h ∨ foldl Z.max h hs ∈ hs).
Proof.
  revert h. induction hs as [|x hs IH]; intros h; simpl.
  - split; [lia|]. split; [by intros ? ?%elem_of_nil|by left].
  - destruct (IH (Z.max h x)) as (Hge & Hall & Hmem).
    split; [lia|]. split.
    + intros h' [->|Hin]%elem_of_cons; [lia|by apply Hall].
    + destruct Hmem as [Heq|Hin]; [|right; by right].
      rewrite Heq. destruct (Z.max_spec h x) as [[_ ->]|[_ ->]];
        [right; left|by left].
Qed.

(** X14: the hour budget handed to [create_data_model] is 9 for an empty
    driver list, and otherwise the largest [available_hours] of the drivers:
    no driver has more, and one driver has exactly that.  The budgets of the
    other drivers play no part. *)
Theorem max_driver_hours_is_largest (driver : DriverModel.t)
  (drivers : list DriverModel.t) :
  max_driver_hours [] = 9
  ∧ (∀ d, d ∈ driver :: drivers →
          DriverModel.available_hours d ≤ max_driver_hours (driver :: drivers))
  ∧ (∃ d, d ∈ driver :: drivers
          ∧ DriverModel.available_hours d
            = max_driver_hours (driver :: drivers)).
Proof.
  split; [done|]. unfold max_driver_hours. rewrite fmap_cons.
  destruct (foldl_Z_max (DriverModel.available_hours driver)
              (DriverModel.available_hours <$> drivers))
    as (Hge & Hall & Hmem).
  split.
  - intros d [->|Hin]%elem_of_cons; [done|]. apply Hall.
    apply list_elem_of_fmap. by exists d.
  - destruct Hmem as [Heq|Hin].
    + exists driver. split; [left|done].
    + apply list_elem_of_fmap in Hin as (d & Hd & Hin).
      exists d. split; [by right|done].
Qed.

(** ** What the response may contain *)

Lemma entry_of_request_job (env : Env) (jobs : list JobModel.t)
  (num_drivers_per_day max_hours_per_driver : Z) (data_model : DataModel.t)
  (j : nat) (entry : JobEntry.t) :
  create_data_model env jobs num_drivers_per_day max_hours_per_driver
  = Ok data_model →
  DataModel.jobs data_model !! j = Some entry →
  ∃ job, jobs !! j = Some job
         ∧ JobEntry.id entry = JobModel.id job
         ∧ JobEntry.preferred_date entry = JobModel.preferred_date job.
Proof.
  intros Hmodel Hentry.
  destruct (create_data_model_Ok _ _ _ _ _ Hmodel)
    as (unique & location_indices & _ & _ & Hentries & _).
  apply map_jobs_with_indices_Ok in Hentries.
  destruct (Forall2_lookup_r _ _ _ _ _ Hentries Hentry)
    as (job & Hjob & Hid & _ & _ & _ & Hpd).
  by exists job.
Qed.

(** X15: the response speaks only of jobs of the request: the job id of
    every stop and every unassigned id is the id of a job of the request.
    Every window ends at most 180 minutes after it starts, and no later
    than 60 minutes times the largest hour budget of the drivers. *)
Theorem response_names_request_jobs (env : Env)
  (request : OptimizationRequest.t) (response : OptimizationResponse.t) :
  optimize_routes env request = Ok response →
  (∀ route stop,
     route ∈ OptimizationResponse.routes response →
     stop ∈ RouteModel.stops route →
     (∃ job, job ∈ OptimizationRequest.jobs request
             ∧ JobModel.id job = JobStop.job_id stop)
     ∧ (JobStop.window stop).2
       ≤ max_driver_hours (OptimizationRequest.drivers request) * 60
     ∧ (JobStop.window stop).2 ≤ (JobStop.window stop).1 + 180)
  ∧ (∀ job_id,
       job_id ∈ OptimizationResponse.unassigned response →
       ∃ job, job ∈ OptimizationRequest.jobs request
              ∧ JobModel.id job = job_id).
Proof.
  intros Hresponse.
  destruct (optimize_routes_Ok _ _ _ Hresponse)
    as (data_model & _ & Hmodel & Hroutes & Hunassigned & _).
  destruct (create_data_model_Ok _ _ _ _ _ Hmodel)
    as (? & ? & _ & _ & _ & _ & _ & _ & _ & _ & Hcap).
  split.
  - intros route stop Hroute Hstop.
    destruct (proj1 (Hroutes route) Hroute)
      as (day & day_routes & day_unassigned & k & day_route & _ & Hsolve
          & Hk & Heq).
    rewrite Heq in Hstop. simpl in Hstop.
    apply list_elem_of_lookup_2 in Hk.
    destruct (solve_vrp_route_stops _ _ _ _ _ _ Hsolve Hk)
      as (routing & solution & _ & _ & Hstops).
    rewrite Hstops in Hstop.
    apply elem_of_visit_stops in Hstop
      as (node_index & arrival_time & j & entry & _ & _ & Hfirst & ->).
    apply first_at_first in Hfirst as (j' & _ & Hentry & _).
    destruct (entry_of_request_job _ _ _ _ _ _ _ Hmodel Hentry)
      as (job & Hjob & Hid & _).
    simpl. rewrite Hcap. split; [|lia].
    exists job. split; [by apply list_elem_of_lookup_2 in Hjob|done].
  - intros job_id Hin.
    destruct (proj1 (Hunassigned _) Hin)
      as (day & day_routes & day_unassigned & _ & Hsolve & Hin').
    apply solve_vrp_Ok in Hsolve as (allowed_jobs & _ & Hun).
    rewrite Hun in Hin'. clear Hin. rename Hin' into Hin.
    apply elem_of_collect_unassigned in Hin as (j & entry & Hentry & <- & _).
    destruct (entry_of_request_job _ _ _ _ _ _ _ Hmodel Hentry)
      as (job & Hjob & Hid & _).
    exists job. split; [by apply list_elem_of_lookup_2 in Hjob|done].
Qed.

Lemma response_names_request_jobs_witness :
  optimize_routes (Example.env (Example.first_day_solver Example.one_visit))
    Example.single_request
  = Ok Example.single_response
  ∧ ∀ job_id,
      job_id ∈ OptimizationResponse.unassigned Example.single_response →
      ∃ job, job ∈ OptimizationRequest.jobs Example.single_request
             ∧ JobModel.id job = job_id.
Proof.
  split; [vm_compute; reflexivity|].
  apply (response_names_request_jobs
           (Example.env (Example.first_day_solver Example.one_visit))
           Example.single_request Example.single_response).
  vm_compute. reflexivity.
Defined.

(** X16: a job whose preferred dates all parse to an offset outside [0,5),
    and whose id no other job of the request carries, is never reported as
    unassigned: it is eligible on no day, and only eligible entries enter a
    day's unassigned list. *)
Theorem out_of_range_job_not_unassigned (env : Env)
  (request : OptimizationRequest.t) (response : OptimizationResponse.t)
  (i : nat) (job : JobModel.t) (date_str : string) (dates : list string) :
  optimize_routes env request = Ok response →
  OptimizationRequest.jobs request !! i = Some job →
  (∀ i' job', OptimizationRequest.jobs request !! i' = Some job' →
              JobModel.id job' = JobModel.id job → i' = i) →
  JobModel.preferred_date job = Some (date_str :: dates) →
  (∀ s, s ∈ date_str :: dates →
        ∃ offset, date_offset env s = Some offset ∧ ¬ (0 ≤ offset < 5)) →
  JobModel.id job ∉ OptimizationResponse.unassigned response.
Proof.
  intros Hresponse Hjob Hunique Hdates Hrange Hin.
  destruct (optimize_routes_Ok _ _ _ Hresponse)
    as (data_model & _ & Hmodel & _ & Hunassigned & _).
  destruct (proj1 (Hunassigned _) Hin)
    as (day & day_routes & day_unassigned & Hday & Hsolve & Hin').
  apply solve_vrp_Ok in Hsolve as (allowed_jobs & Hallowed & Hun).
  rewrite Hun in Hin'. clear Hin. rename Hin' into Hin.
  apply elem_of_collect_unassigned in Hin
    as (j & entry & Hentry & Hid & _ & Hj).
  destruct (entry_of_request_job _ _ _ _ _ _ _ Hmodel Hentry)
    as (job' & Hjob' & Hid' & Hpd).
  assert (j = i) as -> by (apply (Hunique j job'); congruence).
  assert (job' = job) as -> by congruence.
  destruct (create_data_model_Ok _ _ _ _ _ Hmodel)
    as (? & ? & _ & _ & _ & _ & _ & _ & _ & Hdays & _).
  rewrite Hdays in Hallowed.
  apply (occurrences_elem_of i _ _ _ Hallowed) in Hj.
  rewrite (proj2 (occurrences_build_jobs_by_day env _ i day Hday)), Hentry in Hj.
  apply times_added_pos in Hj. unfold eligible_on in Hj.
  rewrite Hpd, Hdates in Hj. destruct Hj as (s & Hs & Hoffset).
  destruct (Hrange s Hs) as (offset & Hsome & Hout).
  rewrite Hsome in Hoffset. destruct Hoffset as [[= ->]|?]; [lia|done].
Qed.

Lemma out_of_range_job_not_unassigned_witness :
  optimize_routes (Example.env Example.infeasible) Dropped.request
  = Ok Dropped.response
  ∧ (JobModel.id Dropped.job
     ∉ OptimizationResponse.unassigned Dropped.response).
Proof.
  split; [vm_compute; reflexivity|].
  apply (out_of_range_job_not_unassigned (Example.env Example.infeasible)
           Dropped.request Dropped.response 0 Dropped.job "2025-01-13" []).
  - vm_compute. reflexivity.
  - reflexivity.
  - intros [|i'] job' Hjob' _; [reflexivity|]. discriminate Hjob'.
  - reflexivity.
  - intros s Hs. apply list_elem_of_singleton in Hs as ->.
    exists 10. split; [reflexivity|]. lia.
Defined.

(** ** One entry per location *)

Lemma first_at_exists (jobs : list JobEntry.t) (k node_index j : nat)
  (job : JobEntry.t) :
  jobs !! j = Some job → JobEntry.location_idx job = node_index →
  ∃ j' job', first_at jobs k node_index = Some ((k + j')%nat, job')
             ∧ jobs !! j' = Some job'
             ∧ JobEntry.location_idx job' = node_index.
Proof.
  revert k j. induction jobs as [|job0 jobs IH]; intros k j Hjob Hloc;
    [done|]. simpl.
  case_decide as Hloc0.
  - exists 0%nat, job0. by rewrite Nat.add_0_r.
  - destruct j as [|j]; simpl in Hjob; [congruence|].
    destruct (IH (S k) j Hjob Hloc) as (j' & job' & Hfirst & Hjob' & Hloc').
    exists (S j'), job'. rewrite Hfirst. split; [do 2 f_equal; lia|done].
Qed.

Lemma elem_of_stop_ids (data_model : DataModel.t) (solution : Assignment)
  (vehicle_ids : list nat) (routes : list VehicleRoute.t) (job_id : string) :
  extract_routes data_model solution vehicle_ids [] = Ok routes →
  job_id ∈ stop_ids routes
  ↔ ∃ vehicle_id stop,
      vehicle_id ∈ vehicle_ids
      ∧ stop ∈ visit_stops data_model (solution vehicle_id)
      ∧ JobStop.job_id stop = job_id.
Proof.
  intros Hextract. unfold stop_ids. rewrite list_elem_of_bind. split.
  - intros (route & Hstop & Hroute).
    apply list_elem_of_fmap in Hstop as (stop & -> & Hstop).
    destruct (extract_routes_sublist _ _ _ _ _ Hextract)
      as (new & Hnew & Hsub & _).
    simpl in Hnew. subst new.
    destruct (extract_routes_elem_of _ _ _ _ _ _ Hextract Hroute) as [Hin|Heq];
      [by apply elem_of_nil in Hin|].
    exists (VehicleRoute.vehicle_id route), stop.
    split; [|by rewrite <- Heq].
    eapply elem_of_sublist; [|done]. apply list_elem_of_fmap. by exists route.
  - intros (vehicle_id & stop & Hv & Hstop & <-).
    pose proof (extract_routes_stops _ _ _ _ _ Hextract) as Hstops.
    simpl in Hstops.
    assert (visit_stops data_model (solution vehicle_id)
            ∈ VehicleRoute.stops <$> routes) as Hin.
    { rewrite Hstops. apply list_elem_of_filter. split.
      - intros Hnil. rewrite Hnil in Hstop. by apply elem_of_nil in Hstop.
      - apply list_elem_of_fmap. exists (solution vehicle_id). split; [done|].
        apply list_elem_of_fmap. by exists vehicle_id. }
    apply list_elem_of_fmap in Hin as (route & Heq & Hroute).
    exists route. split; [|done].
    apply list_elem_of_fmap. exists stop. by rewrite <- Heq.
Qed.

Lemma elem_of_visited_nodes (solution : Assignment) (vehicle_ids : list nat)
  (node_index : nat) :
  node_index ∈ visited_nodes (solution <$> vehicle_ids)
  ↔ ∃ vehicle_id arrival_time,
      vehicle_id ∈ vehicle_ids
      ∧ (node_index, arrival_time) ∈ solution vehicle_id
      ∧ node_index ≠ 0%nat.
Proof.
  unfold visited_nodes, path_nodes. rewrite list_elem_of_bind. split.
  - intros (path & Hnode & Hpath).
    apply list_elem_of_fmap in Hpath as (vehicle_id & -> & Hv).
    apply list_elem_of_filter in Hnode as [Hne Hnode].
    apply list_elem_of_fmap in Hnode as ([n arrival_time] & -> & Hin).
    by exists vehicle_id, arrival_time.
  - intros (vehicle_id & arrival_time & Hv & Hin & Hne).
    exists (solution vehicle_id). split.
    + apply list_elem_of_filter. split; [done|].
      apply list_elem_of_fmap. by exists (node_index, arrival_time).
    + apply list_elem_of_fmap. by exists vehicle_id.
Qed.

(** X17: when no two entries share a location index and no two share a job
    id, the job-id test of the unassigned loop amounts to the location test
    that its comment announces: the id of an entry is a stop of the day
    exactly when a vehicle visits the entry's node, and an entry is reported
    as unassigned for the day exactly when it is eligible that day and no
    vehicle visits its node (an entry located at the depot counts as never
    visited). *)
Theorem unassigned_by_location_when_unique (env : Env)
  (data_model : DataModel.t) (day_index : nat) (solution : Assignment)
  (routes : list VehicleRoute.t) (unassigned : list string)
  (allowed_jobs : list nat) (j : nat) (job : JobEntry.t) :
  solve_vrp env data_model day_index = Ok (routes, unassigned) →
  (∀ routing, SolveWithParameters env day_index routing = Some solution) →
  NoDup (JobEntry.location_idx <$> DataModel.jobs data_model) →
  NoDup (JobEntry.id <$> DataModel.jobs data_model) →
  DataModel.jobs_by_day data_model !! day_index = Some allowed_jobs →
  DataModel.jobs data_model !! j = Some job →
  (JobEntry.id job ∈ stop_ids routes
   ↔ JobEntry.location_idx job
     ∈ visited_nodes
         (solution
            <$> seq 0 (Z.to_nat (DataModel.num_vehicles data_model))))
  ∧ (JobEntry.id job ∈ unassigned
     ↔ j ∈ allowed_jobs
       ∧ (JobEntry.location_idx job
          ∉ visited_nodes
              (solution
                 <$> seq 0 (Z.to_nat (DataModel.num_vehicles data_model))))).
Proof.
  intros Hsolve Hsolution Hlocs Hids Hallowed Hjob.
  pose proof (solve_vrp_routes _ _ _ _ _ _ Hsolve Hsolution) as Hextract.
  assert (∀ j' job', DataModel.jobs data_model !! j' = Some job' →
            JobEntry.id job' = JobEntry.id job → j' = j) as Hid_unique.
  { intros j' job' Hjob' Heq.
    apply (NoDup_lookup _ j' j (JobEntry.id job) Hids);
      rewrite list_lookup_fmap; [by rewrite Hjob', <- Heq|by rewrite Hjob]. }
  assert (∀ j' job', DataModel.jobs data_model !! j' = Some job' →
            JobEntry.location_idx job' = JobEntry.location_idx job → j' = j)
    as Hloc_unique.
  { intros j' job' Hjob' Heq.
    apply (NoDup_lookup _ j' j (JobEntry.location_idx job) Hlocs);
      rewrite list_lookup_fmap; [by rewrite Hjob', <- Heq|by rewrite Hjob]. }
  assert (JobEntry.id job ∈ stop_ids routes
          ↔ JobEntry.location_idx job
            ∈ visited_nodes
                (solution
                   <$> seq 0 (Z.to_nat (DataModel.num_vehicles data_model))))
    as Hstops.
  { rewrite (elem_of_stop_ids _ _ _ _ _ Hextract), elem_of_visited_nodes.
    split.
    - intros (vehicle_id & stop & Hv & Hstop & Hid).
      apply elem_of_visit_stops in Hstop
        as (node_index & arrival_time & j' & job' & Hin & Hne & Hfirst & ->).
      apply first_at_first in Hfirst as (j'' & _ & Hjob' & Hloc & _).
      simpl in Hid. pose proof (Hid_unique _ _ Hjob' Hid) as ->.
      assert (job' = job) as -> by congruence.
      exists vehicle_id, arrival_time. by rewrite Hloc.
    - intros (vehicle_id & arrival_time & Hv & Hin & Hne).
      destruct (first_at_exists (DataModel.jobs data_model) 0 _ j job Hjob
                  eq_refl) as (j' & job' & Hfirst & Hjob' & Hloc).
      pose proof (Hloc_unique _ _ Hjob' Hloc) as ->.
      assert (job' = job) as -> by congruence.
      exists vehicle_id,
        (reported_stop job arrival_time
           (DataModel.max_time_per_vehicle data_model)).
      split; [done|]. split; [|done].
      apply elem_of_visit_stops.
      by exists (JobEntry.location_idx job), arrival_time, (0 + j)%nat, job. }
  split; [done|].
  apply solve_vrp_Ok in Hsolve as (allowed' & Hallowed' & ->).
  assert (allowed' = allowed_jobs) as -> by congruence.
  rewrite elem_of_collect_unassigned, <- Hstops. split.
  - intros (j' & job' & Hjob' & Hid & Hnot & Hj').
    by rewrite <- (Hid_unique _ _ Hjob' Hid).
  - intros [Hj Hnot]. by exists j, job.
Qed.

Lemma unassigned_by_location_when_unique_witness :
  solve_vrp (Example.env Example.visit_solver) Pairing.model 0
  = Ok ([Example.first_stop_route], ["B"])
  ∧ ("B" ∈ ["B"]
     ↔ 1%nat ∈ [0; 1]%nat
       ∧ (2%nat
          ∉ visited_nodes
              (Example.one_visit
                 <$> seq 0 (Z.to_nat (DataModel.num_vehicles Pairing.model))))).
Proof.
  split; [vm_compute; reflexivity|].
  apply (unassigned_by_location_when_unique
           (Example.env Example.visit_solver) Pairing.model 0
           Example.one_visit [Example.first_stop_route] ["B"] [0; 1]%nat 1
           (Pairing.entry "B" 2 None)).
  - vm_compute. reflexivity.
  - reflexivity.
  - apply (bool_decide_unpack _). vm_compute. exact I.
  - apply (bool_decide_unpack _). vm_compute. exact I.
  - reflexivity.
  - reflexivity.
Defined.

(** ** Dicts in insertion order *)

Lemma odict_contains_get {V} (d : list (string * V)) (k : string) :
  odict_contains d k = true ↔ is_Some (odict_get d k).
Proof.
  unfold odict_contains. rewrite bool_decide_eq_true.
  induction d as [|[k' v] d IH]; simpl.
  - split; [by intros ?%elem_of_nil|by intros [? ?]].
  - rewrite elem_of_cons. case_decide as Hk.
    + split; [by eexists|by left].
    + rewrite <- IH. split; [intros [?|?]; [congruence|done]|by right].
Qed.

Lemma odict_contains_false {V} (d : list (string * V)) (k : string) :
  odict_contains d k = false ↔ odict_get d k = None.
Proof.
  pose proof (odict_contains_get d k) as H.
  destruct (odict_contains d k), (odict_get d k) as [v|]; split; try done.
  - intros _. destruct (proj1 H eq_refl) as [? ?]. done.
  - intros _. destruct H as [_ H]. by specialize (H ltac:(by eexists)).
Qed.

Lemma odict_get_set_eq {V} (d : list (string * V)) (k : string) (v : V) :
  odict_get (odict_set d k v) k = Some v.
Proof.
  induction d as [|[k' v'] d IH]; simpl.
  - by rewrite decide_True.
  - case_decide; simpl; [by rewrite decide_True|by rewrite decide_False].
Qed.

Lemma odict_get_set_ne {V} (d : list (string * V)) (k k' : string) (v : V) :
  k' ≠ k → odict_get (odict_set d k v) k' = odict_get d k'.
Proof.
  intros Hne. induction d as [|[k0 v0] d IH]; simpl.
  - by rewrite decide_False.
  - destruct (decide (k0 = k)) as [->|Hk0]; simpl.
    + by rewrite !decide_False.
    + by rewrite IH.
Qed.

Lemma odict_keys_set {V} (d : list (string * V)) (k : string) (v : V) :
  (odict_set d k v).*1
  = if odict_contains d k then d.*1 else d.*1 ++ [k].
Proof.
  unfold odict_contains. induction d as [|[k' v'] d IH]; [done|].
  cbn [odict_set]. destruct (decide (k' = k)) as [->|Hne].
  - rewrite !fmap_cons. simpl. rewrite bool_decide_eq_true_2; [done|left].
  - rewrite !fmap_cons, IH. simpl fst.
    destruct (decide (k ∈ d.*1)) as [Hin|Hnot].
    + rewrite !bool_decide_eq_true_2; [done|by right|done].
    + rewrite !bool_decide_eq_false_2; [done| |done].
      intros [?|?]%elem_of_cons; [congruence|done].
Qed.

Lemma odict_values_set_new {V} (d : list (string * V)) (k : string) (v : V) :
  odict_contains d k = false → odict_set d k v = d ++ [(k, v)].
Proof.
  unfold odict_contains. rewrite bool_decide_eq_false.
  induction d as [|[k' v'] d IH]; simpl; [done|]. intros Hnot.
  rewrite decide_False by (intros ->; apply Hnot; left).
  rewrite IH; [done|]. intros Hin. apply Hnot. by right.
Qed.

Lemma odict_get_elem_of {V} (d : list (string * V)) (k : string) (v : V) :
  NoDup d.*1 → odict_get d k = Some v ↔ (k, v) ∈ d.
Proof.
  induction d as [|[k' v'] d IH]; simpl.
  - intros _. split; [done|by intros ?%elem_of_nil].
  - intros [Hk' Hd]%NoDup_cons. rewrite elem_of_cons.
    destruct (decide (k' = k)) as [->|Hne].
    + split; [intros [= ->]; by left|].
      intros [[= ->]|Hin]; [done|]. exfalso. apply Hk'.
      apply list_elem_of_fmap. by exists (k, v).
    + rewrite (IH Hd). split; [by right|].
      intros [[= ? ?]|?]; [congruence|done].
Qed.

Lemma odict_set_get {V} (d : list (string * V)) (k : string) (v : V) :
  odict_get d k = Some v → odict_set d k v = d.
Proof.
  induction d as [|[k' v'] d IH]; simpl; [done|].
  case_decide as Hk; [by intros [= ->]; subst|].
  intros H. by rewrite IH.
Qed.

Lemma odict_get_del_eq {V} (d : list (string * V)) (k : string) :
  odict_get (odict_del d k) k = None.
Proof.
  unfold odict_del. induction d as [|[k' v'] d IH]; simpl; [done|].
  rewrite filter_cons. simpl. case_decide as Hk; simpl; [|done].
  by rewrite decide_False.
Qed.

Lemma odict_get_del_ne {V} (d : list (string * V)) (k k' : string) :
  k' ≠ k → odict_get (odict_del d k) k' = odict_get d k'.
Proof.
  intros Hne. unfold odict_del.
  induction d as [|[k0 v0] d IH]; simpl; [done|].
  rewrite filter_cons. simpl. destruct (decide (k0 ≠ k)) as [Hk0|Hk0]; simpl.
  - by rewrite IH.
  - apply dec_stable in Hk0 as ->. by rewrite decide_False.
Qed.

Lemma odict_keys_del {V} (d : list (string * V)) (k : string) :
  (odict_del d k).*1 = filter (λ k', k' ≠ k) d.*1.
Proof.
  unfold odict_del. induction d as [|[k0 v0] d IH]; [done|].
  rewrite fmap_cons, !filter_cons. simpl fst.
  destruct (decide (k0 ≠ k)); [rewrite fmap_cons|]; by rewrite IH.
Qed.

Lemma odict_set_ok {V} (id_of : V → string) (d : list (string * V))
  (k : string) (v : V) :
  NoDup d.*1 → (∀ k' v', (k', v') ∈ d → id_of v' = k') → id_of v = k →
  NoDup (odict_set d k v).*1
  ∧ ∀ k' v', (k', v') ∈ odict_set d k v → id_of v' = k'.
Proof.
  intros Hnodup Hids Hid.
  assert (NoDup (odict_set d k v).*1) as Hnodup'.
  { rewrite odict_keys_set. unfold odict_contains. case_bool_decide as Hin;
      [done|].
    apply NoDup_app. split; [done|]. split; [|apply NoDup_singleton].
    by intros x Hx ->%list_elem_of_singleton. }
  split; [done|]. intros k' v' Hin.
  apply (odict_get_elem_of _ _ _ Hnodup') in Hin.
  destruct (decide (k' = k)) as [->|Hne].
  - rewrite odict_get_set_eq in Hin. congruence.
  - rewrite odict_get_set_ne in Hin by done.
    apply (odict_get_elem_of _ _ _ Hnodup) in Hin. by apply Hids.
Qed.

Lemma odict_del_ok {V} (id_of : V → string) (d : list (string * V))
  (k : string) :
  NoDup d.*1 → (∀ k' v', (k', v') ∈ d → id_of v' = k') →
  NoDup (odict_del d k).*1
  ∧ ∀ k' v', (k', v') ∈ odict_del d k → id_of v' = k'.
Proof.
  intros Hnodup Hids. split.
  - rewrite odict_keys_del. by apply NoDup_filter.
  - intros k' v' Hin. unfold odict_del in Hin.
    apply list_elem_of_filter in Hin as [_ Hin]. by apply Hids.
Qed.

(** ** The job store *)

Lemma get_job_odict_get (job_id : string) (jobs_db : list (string * StoredJob.t)) :
  get_job job_id jobs_db
  = match odict_get jobs_db job_id with
    | Some job => Ok job
    | None => Raise (HTTPException 404 "Job not found")
    end.
Proof.
  unfold get_job. destruct (odict_get jobs_db job_id) as [job|] eqn:Hget.
  - assert (odict_contains jobs_db job_id = true) as ->; [|done].
    apply odict_contains_get. by eexists.
  - apply odict_contains_false in Hget. by rewrite Hget.
Qed.

Lemma update_job_odict_get (job_id : string) (job_update : JobUpdateModel.t)
  (jobs_db : list (string * StoredJob.t)) :
  update_job job_id job_update jobs_db
  = match odict_get jobs_db job_id with
    | Some job =>
        Ok (odict_set jobs_db job_id (set_job_attrs job_update job),
            set_job_attrs job_update job)
    | None => Raise (HTTPException 404 "Job not found")
    end.
Proof.
  unfold update_job. destruct (odict_get jobs_db job_id) as [job|] eqn:Hget.
  - assert (odict_contains jobs_db job_id = true) as ->; [|done].
    apply odict_contains_get. by eexists.
  - apply odict_contains_false in Hget. by rewrite Hget.
Qed.

Lemma delete_job_odict_get (job_id : string)
  (jobs_db : list (string * StoredJob.t)) :
  delete_job job_id jobs_db
  = match odict_get jobs_db job_id with
    | Some job => Ok (odict_del jobs_db job_id)
    | None => Raise (HTTPException 404 "Job not found")
    end.
Proof.
  unfold delete_job. destruct (odict_get jobs_db job_id) as [job|] eqn:Hget.
  - assert (odict_contains jobs_db job_id = true) as ->; [|done].
    apply odict_contains_get. by eexists.
  - apply odict_contains_false in Hget. by rewrite Hget.
Qed.

(** X18: whatever sequence of [create_job], [update_job] and [delete_job]
    calls built the job store from the empty dict, every job is kept under
    its own id (and, as in any dict, no key occurs twice); so [get_job]
    answers a request for an id with a job of that id. *)
Theorem jobs_db_keeps_ids (jobs_db : list (string * StoredJob.t)) :
  jobs_db_reachable jobs_db →
  jobs_db_ok jobs_db
  ∧ ∀ job_id job, get_job job_id jobs_db = Ok job → StoredJob.id job = job_id.
Proof.
  intros Hreach.
  assert (jobs_db_ok jobs_db) as Hok.
  { induction Hreach as [|uuid4 job jobs_db _ [Hnodup Hids]
                         |job_id job_update jobs_db jobs_db' job _ [Hnodup Hids] Hupd
                         |job_id jobs_db jobs_db' _ [Hnodup Hids] Hdel].
    - split; [constructor|]. by intros ? ? ?%elem_of_nil.
    - by apply (odict_set_ok StoredJob.id).
    - rewrite update_job_odict_get in Hupd.
      destruct (odict_get jobs_db job_id) as [current|] eqn:Hget; [|done].
      injection Hupd as <- _.
      apply (odict_set_ok StoredJob.id); [done..|]. simpl.
      apply Hids. by apply odict_get_elem_of.
    - rewrite delete_job_odict_get in Hdel.
      destruct (odict_get jobs_db job_id); [|done]. injection Hdel as <-.
      by apply (odict_del_ok StoredJob.id). }
  split; [done|]. intros job_id job Hget. rewrite get_job_odict_get in Hget.
  destruct (odict_get jobs_db job_id) as [job'|] eqn:Hlook; [|done].
  injection Hget as ->. destruct Hok as [Hnodup Hids].
  apply Hids. by apply odict_get_elem_of.
Qed.

Lemma jobs_db_keeps_ids_witness :
  jobs_db_reachable (create_job Stored.uuid4 Stored.job []).1
  ∧ jobs_db_ok (create_job Stored.uuid4 Stored.job []).1.
Proof.
  split; [apply jobs_db_create, jobs_db_empty|].
  apply (jobs_db_keeps_ids (create_job Stored.uuid4 Stored.job []).1).
  apply jobs_db_create, jobs_db_empty.
Defined.

(** X19: [create_job] stores the job under its id, or under the fresh uuid
    when the id is empty, and returns it; [get_job] with that id then
    returns the same job, and the answer for every other id is as before.
    A new id goes to the end of the list that [get_jobs] returns; an id
    already in the store keeps its place and has its job replaced. *)
Theorem create_job_then_get (uuid4 : string) (job : JobModel.t)
  (jobs_db : list (string * StoredJob.t)) :
  (create_job uuid4 job jobs_db).2 = new_job uuid4 job
  ∧ StoredJob.id (new_job uuid4 job)
    = (if decide (JobModel.id job = "") then uuid4 else JobModel.id job)
  ∧ get_job (StoredJob.id (new_job uuid4 job)) (create_job uuid4 job jobs_db).1
    = Ok (new_job uuid4 job)
  ∧ (∀ job_id, job_id ≠ StoredJob.id (new_job uuid4 job) →
               get_job job_id (create_job uuid4 job jobs_db).1
               = get_job job_id jobs_db)
  ∧ (if odict_contains jobs_db (StoredJob.id (new_job uuid4 job)) then
       (create_job uuid4 job jobs_db).1.*1 = jobs_db.*1
     else
       get_jobs (create_job uuid4 job jobs_db).1
       = get_jobs jobs_db ++ [new_job uuid4 job]).
Proof.
  unfold create_job. simpl. split; [done|]. split.
  { destruct (String.eqb_spec (JobModel.id job) "") as [Heq|Hne].
    - by rewrite decide_True.
    - by rewrite decide_False. }
  split; [by rewrite get_job_odict_get, odict_get_set_eq|]. split.
  - intros job_id Hne. by rewrite !get_job_odict_get, odict_get_set_ne.
  - destruct (odict_contains jobs_db _) eqn:Hin.
    + by rewrite odict_keys_set, Hin.
    + unfold get_jobs. by rewrite odict_values_set_new, fmap_app.
Qed.

(** X20: [update_job] answers 404 for an id that is not in the store.
    Otherwise it returns the stored job with the fields that the request
    sets replaced (also by null) and the other fields, the id among them, as
    they were; the job keeps its place in the store, [get_job] then returns
    the updated job, and the other jobs are as before.  A request that sets
    no field changes nothing. *)
Theorem update_job_then_get (job_id : string) (job_update : JobUpdateModel.t)
  (jobs_db : list (string * StoredJob.t)) :
  match odict_get jobs_db job_id with
  | None =>
      update_job job_id job_update jobs_db
      = Raise (HTTPException 404 "Job not found")
  | Some job =>
      ∃ jobs_db',
        update_job job_id job_update jobs_db
        = Ok (jobs_db', set_job_attrs job_update job)
        ∧ StoredJob.id (set_job_attrs job_update job) = StoredJob.id job
        ∧ get_job job_id jobs_db' = Ok (set_job_attrs job_update job)
        ∧ (∀ k, k ≠ job_id → get_job k jobs_db' = get_job k jobs_db)
        ∧ jobs_db'.*1 = jobs_db.*1
        ∧ (job_update
           = {| JobUpdateModel.location := None;
                JobUpdateModel.type := None;
                JobUpdateModel.related_job_id := None;
                JobUpdateModel.preferred_date := None |} →
           jobs_db' = jobs_db)
  end.
Proof.
  rewrite update_job_odict_get.
  destruct (odict_get jobs_db job_id) as [job|] eqn:Hget; [|done].
  eexists. split; [done|]. split; [done|].
  split; [by rewrite get_job_odict_get, odict_get_set_eq|]. split.
  { intros k Hne. by rewrite !get_job_odict_get, odict_get_set_ne. }
  split.
  - rewrite odict_keys_set.
    assert (odict_contains jobs_db job_id = true) as ->; [|done].
    apply odict_contains_get. by eexists.
  - intros ->. apply odict_set_get. rewrite Hget. by destruct job.
Qed.

(** X21: [delete_job] answers 404 for an id that is not in the store.
    Otherwise the id is gone: [get_job] and a second [delete_job] answer 404
    for it, the other jobs are as before, and the remaining keys keep their
    order. *)
Theorem delete_job_then_get (job_id : string)
  (jobs_db : list (string * StoredJob.t)) :
  match odict_get jobs_db job_id with
  | None =>
      delete_job job_id jobs_db = Raise (HTTPException 404 "Job not found")
  | Some job =>
      ∃ jobs_db',
        delete_job job_id jobs_db = Ok jobs_db'
        ∧ get_job job_id jobs_db' = Raise (HTTPException 404 "Job not found")
        ∧ delete_job job_id jobs_db'
          = Raise (HTTPException 404 "Job not found")
        ∧ (∀ k, k ≠ job_id → get_job k jobs_db' = get_job k jobs_db)
        ∧ jobs_db'.*1 = filter (λ k, k ≠ job_id) jobs_db.*1
  end.
Proof.
  rewrite delete_job_odict_get.
  destruct (odict_get jobs_db job_id) as [job|] eqn:Hget; [|done].
  eexists. split; [done|].
  split; [by rewrite get_job_odict_get, odict_get_del_eq|].
  split; [by rewrite delete_job_odict_get, odict_get_del_eq|]. split.
  - intros k Hne. by rewrite !get_job_odict_get, odict_get_del_ne.
  - apply odict_keys_del.
Qed.

(** ** The driver store *)

Lemma get_driver_odict_get (driver_id : string) (drivers_db : list (string * StoredDriver.t)) :
  get_driver driver_id drivers_db
  = match odict_get drivers_db driver_id with
    | Some driver => Ok driver
    | None => Raise (HTTPException 404 "Driver not found")
    end.
Proof.
  unfold get_driver. destruct (odict_get drivers_db driver_id) as [driver|] eqn:Hget.
  - assert (odict_contains drivers_db driver_id = true) as ->; [|done].
    apply odict_contains_get. by eexists.
  - apply odict_contains_false in Hget. by rewrite Hget.
Qed.

Lemma update_driver_odict_get (driver_id : string) (driver_update : DriverUpdateModel.t)
  (drivers_db : list (string * StoredDriver.t)) :
  update_driver driver_id driver_update drivers_db
  = match odict_get drivers_db driver_id with
    | Some driver =>
        Ok (odict_set drivers_db driver_id (set_driver_attrs driver_update driver),
            set_driver_attrs driver_update driver)
    | None => Raise (HTTPException 404 "Driver not found")
    end.
Proof.
  unfold update_driver. destruct (odict_get drivers_db driver_id) as [driver|] eqn:Hget.
  - assert (odict_contains drivers_db driver_id = true) as ->; [|done].
    apply odict_contains_get. by eexists.
  - apply odict_contains_false in Hget. by rewrite Hget.
Qed.

Lemma delete_driver_odict_get (driver_id : string)
  (drivers_db : list (string * StoredDriver.t)) :
  delete_driver driver_id drivers_db
  = match odict_get drivers_db driver_id with
    | Some driver => Ok (odict_del drivers_db driver_id)
    | None => Raise (HTTPException 404 "Driver not found")
    end.
Proof.
  unfold delete_driver. destruct (odict_get drivers_db driver_id) as [driver|] eqn:Hget.
  - assert (odict_contains drivers_db driver_id = true) as ->; [|done].
    apply odict_contains_get. by eexists.
  - apply odict_contains_false in Hget. by rewrite Hget.
Qed.

(** X22: whatever sequence of [create_driver], [update_driver] and [delete_driver]
    calls built the driver store from the empty dict, every driver is kept under
    its own id (and, as in any dict, no key occurs twice); so [get_driver]
    answers a request for an id with a driver of that id. *)
Theorem drivers_db_keeps_ids (drivers_db : list (string * StoredDriver.t)) :
  drivers_db_reachable drivers_db →
  drivers_db_ok drivers_db
  ∧ ∀ driver_id driver, get_driver driver_id drivers_db = Ok driver → StoredDriver.id driver = driver_id.
Proof.
  intros Hreach.
  assert (drivers_db_ok drivers_db) as Hok.
  { induction Hreach as [|uuid4 driver drivers_db _ [Hnodup Hids]
                         |driver_id driver_update drivers_db drivers_db' driver _ [Hnodup Hids] Hupd
                         |driver_id drivers_db drivers_db' _ [Hnodup Hids] Hdel].
    - split; [constructor|]. by intros ? ? ?%elem_of_nil.
    - by apply (odict_set_ok StoredDriver.id).
    - rewrite update_driver_odict_get in Hupd.
      destruct (odict_get drivers_db driver_id) as [current|] eqn:Hget; [|done].
      injection Hupd as <- _.
      apply (odict_set_ok StoredDriver.id); [done..|]. simpl.
      apply Hids. by apply odict_get_elem_of.
    - rewrite delete_driver_odict_get in Hdel.
      destruct (odict_get drivers_db driver_id); [|done]. injection Hdel as <-.
      by apply (odict_del_ok StoredDriver.id). }
  split; [done|]. intros driver_id driver Hget. rewrite get_driver_odict_get in Hget.
  destruct (odict_get drivers_db driver_id) as [driver'|] eqn:Hlook; [|done].
  injection Hget as ->. destruct Hok as [Hnodup Hids].
  apply Hids. by apply odict_get_elem_of.
Qed.

Lemma drivers_db_keeps_ids_witness :
  drivers_db_reachable (create_driver Stored.uuid4 Stored.driver []).1
  ∧ drivers_db_ok (create_driver Stored.uuid4 Stored.driver []).1.
Proof.
  split; [apply drivers_db_create, drivers_db_empty|].
  apply (drivers_db_keeps_ids (create_driver Stored.uuid4 Stored.driver []).1).
  apply drivers_db_create, drivers_db_empty.
Defined.

(** X23: [create_driver] stores the driver under its id, or under the fresh uuid
    when the id is empty, and returns it; [get_driver] with that id then
    returns the same driver, and the answer for every other id is as before.
    A new id goes to the end of the list that [get_drivers] returns; an id
    already in the store keeps its place and has its driver replaced. *)
Theorem create_driver_then_get (uuid4 : string) (driver : DriverModel.t)
  (drivers_db : list (string * StoredDriver.t)) :
  (create_driver uuid4 driver drivers_db).2 = new_driver uuid4 driver
  ∧ StoredDriver.id (new_driver uuid4 driver)
    = (if decide (DriverModel.id driver = "") then uuid4 else DriverModel.id driver)
  ∧ get_driver (StoredDriver.id (new_driver uuid4 driver)) (create_driver uuid4 driver drivers_db).1
    = Ok (new_driver uuid4 driver)
  ∧ (∀ driver_id, driver_id ≠ StoredDriver.id (new_driver uuid4 driver) →
               get_driver driver_id (create_driver uuid4 driver drivers_db).1
               = get_driver driver_id drivers_db)
  ∧ (if odict_contains drivers_db (StoredDriver.id (new_driver uuid4 driver)) then
       (create_driver uuid4 driver drivers_db).1.*1 = drivers_db.*1
     else
       get_drivers (create_driver uuid4 driver drivers_db).1
       = get_drivers drivers_db ++ [new_driver uuid4 driver]).
Proof.
  unfold create_driver. simpl. split; [done|]. split.
  { destruct (String.eqb_spec (DriverModel.id driver) "") as [Heq|Hne].
    - by rewrite decide_True.
    - by rewrite decide_False. }
  split; [by rewrite get_driver_odict_get, odict_get_set_eq|]. split.
  - intros driver_id Hne. by rewrite !get_driver_odict_get, odict_get_set_ne.
  - destruct (odict_contains drivers_db _) eqn:Hin.
    + by rewrite odict_keys_set, Hin.
    + unfold get_drivers. by rewrite odict_values_set_new, fmap_app.
Qed.

(** X24: [update_driver] answers 404 for an id that is not in the store.
    Otherwise it returns the stored driver with the fields that the request
    sets replaced (also by null) and the other fields, the id among them, as
    they were; the driver keeps its place in the store, [get_driver] then returns
    the updated driver, and the other drivers are as before.  A request that sets
    no field changes nothing. *)
Theorem update_driver_then_get (driver_id : string) (driver_update : DriverUpdateModel.t)
  (drivers_db : list (string * StoredDriver.t)) :
  match odict_get drivers_db driver_id with
  | None =>
      update_driver driver_id driver_update drivers_db
      = Raise (HTTPException 404 "Driver not found")
  | Some driver =>
      ∃ drivers_db',
        update_driver driver_id driver_update drivers_db
        = Ok (drivers_db', set_driver_attrs driver_update driver)
        ∧ StoredDriver.id (set_driver_attrs driver_update driver) = StoredDriver.id driver
        ∧ get_driver driver_id drivers_db' = Ok (set_driver_attrs driver_update driver)
        ∧ (∀ k, k ≠ driver_id → get_driver k drivers_db' = get_driver k drivers_db)
        ∧ drivers_db'.*1 = drivers_db.*1
        ∧ (driver_update
           = {| DriverUpdateModel.available_hours := None;
                DriverUpdateModel.name := None;
                DriverUpdateModel.email := None;
                DriverUpdateModel.phone := None |} →
           drivers_db' = drivers_db)
  end.
Proof.
  rewrite update_driver_odict_get.
  destruct (odict_get drivers_db driver_id) as [driver|] eqn:Hget; [|done].
  eexists. split; [done|]. split; [done|].
  split; [by rewrite get_driver_odict_get, odict_get_set_eq|]. split.
  { intros k Hne. by rewrite !get_driver_odict_get, odict_get_set_ne. }
  split.
  - rewrite odict_keys_set.
    assert (odict_contains drivers_db driver_id = true) as ->; [|done].
    apply odict_contains_get. by eexists.
  - intros ->. apply odict_set_get. rewrite Hget. by destruct driver.
Qed.

(** X25: [delete_driver] answers 404 for an id that is not in the store.
    Otherwise the id is gone: [get_driver] and a second [delete_driver] answer 404
    for it, the other drivers are as before, and the remaining keys keep their
    order. *)
Theorem delete_driver_then_get (driver_id : string)
  (drivers_db : list (string * StoredDriver.t)) :
  match odict_get drivers_db driver_id with
  | None =>
      delete_driver driver_id drivers_db = Raise (HTTPException 404 "Driver not found")
  | Some driver =>
      ∃ drivers_db',
        delete_driver driver_id drivers_db = Ok drivers_db'
        ∧ get_driver driver_id drivers_db' = Raise (HTTPException 404 "Driver not found")
        ∧ delete_driver driver_id drivers_db'
          = Raise (HTTPException 404 "Driver not found")
        ∧ (∀ k, k ≠ driver_id → get_driver k drivers_db' = get_driver k drivers_db)
        ∧ drivers_db'.*1 = filter (λ k, k ≠ driver_id) drivers_db.*1
  end.
Proof.
  rewrite delete_driver_odict_get.
  destruct (odict_get drivers_db driver_id) as [driver|] eqn:Hget; [|done].
  eexists. split; [done|].
  split; [by rewrite get_driver_odict_get, odict_get_del_eq|].
  split; [by rewrite delete_driver_odict_get, odict_get_del_eq|]. split.
  - intros k Hne. by rewrite !get_driver_odict_get, odict_get_del_ne.
  - apply odict_keys_del.
Qed.

(** ** When a day is solved *)







(** ** A job at the depot *)

(** X28: a job whose address is the depot's is given location index 0, and
    the extraction skips every visit to node 0; so, when no other job has
    its id, the job is never a stop of any route, and it is reported as
    unassigned on every day on which it is eligible. *)
Theorem depot_job_never_routed (env : Env) (jobs : list JobModel.t)
  (num_drivers_per_day max_hours_per_driver : Z) (data_model : DataModel.t)
  (day_index : nat) (routes : list VehicleRoute.t) (unassigned : list string)
  (allowed_jobs : list nat) (j : nat) (job : JobModel.t) :
  create_data_model env jobs num_drivers_per_day max_hours_per_driver
  = Ok data_model →
  solve_vrp env data_model day_index = Ok (routes, unassigned) →
  DataModel.jobs_by_day data_model !! day_index = Some allowed_jobs →
  jobs !! j = Some job →
  JobModel.location job = DEPOT_LOCATION env →
  (∀ j' job', jobs !! j' = Some job' → JobModel.id job' = JobModel.id job →
              j' = j) →
  (∃ entry, DataModel.jobs data_model !! j = Some entry
            ∧ JobEntry.location_idx entry = 0%nat)
  ∧ (JobModel.id job ∉ stop_ids routes)
  ∧ (j ∈ allowed_jobs → JobModel.id job ∈ unassigned).
Proof.
  intros Hmodel Hsolve Hallowed Hjob Hdepot Hunique.
  destruct (create_data_model_Ok _ _ _ _ _ Hmodel)
    as (unique & location_indices & Hindex & _ & Hentries & _).
  destruct (map_jobs_with_indices_lookup _ _ _ Hentries) as [_ Hlookup].
  destruct (Hlookup j job Hjob) as (entry & Hentry & Hid & Hloc & _).
  pose proof (index_locations_depot env jobs) as [_ Hzero].
  rewrite Hindex in Hzero. simpl in Hzero.
  rewrite Hdepot, Hzero in Hloc. injection Hloc as Hloc.
  assert (JobModel.id job ∉ stop_ids routes) as Hnot.
  { intros Hin. unfold stop_ids in Hin.
    apply list_elem_of_bind in Hin as (route & Hstop & Hroute).
    apply list_elem_of_fmap in Hstop as (stop & Hstopid & Hstop).
    destruct (solve_vrp_route_stops _ _ _ _ _ _ Hsolve Hroute)
      as (routing & solution & _ & _ & Hstops).
    rewrite Hstops in Hstop.
    apply elem_of_visit_stops in Hstop
      as (node_index & arrival_time & j0 & entry' & _ & Hne & Hfirst & ->).
    apply first_at_first in Hfirst as (j' & _ & Hentry' & Hloc' & _).
    destruct (entry_of_request_job _ _ _ _ _ _ _ Hmodel Hentry')
      as (job' & Hjob' & Hid' & _).
    simpl in Hstopid.
    assert (j' = j) as -> by (apply (Hunique j' job'); congruence).
    assert (entry' = entry) as -> by congruence. congruence. }
  split; [by exists entry|]. split; [done|]. intros Hj.
  apply solve_vrp_Ok in Hsolve as (allowed' & Hallowed' & ->).
  assert (allowed' = allowed_jobs) as -> by congruence.
  apply elem_of_collect_unassigned. exists j, entry. by rewrite Hid.
Qed.

Lemma depot_job_never_routed_witness :
  create_data_model (Example.env (λ _ _, Some AtDepot.stay)) [AtDepot.job] 1 9
  = Ok AtDepot.model
  ∧ solve_vrp (Example.env (λ _ _, Some AtDepot.stay)) AtDepot.model 0
    = Ok ([], ["D"])
  ∧ (JobModel.id AtDepot.job ∉ stop_ids []).
Proof.
  split; [vm_compute; reflexivity|]. split; [vm_compute; reflexivity|].
  apply (depot_job_never_routed (Example.env (λ _ _, Some AtDepot.stay))
           [AtDepot.job] 1 9 AtDepot.model 0 [] ["D"] [0%nat] 0 AtDepot.job).
  - vm_compute. reflexivity.
  - vm_compute. reflexivity.
  - reflexivity.
  - reflexivity.
  - reflexivity.
  - intros [|j'] job' Hjob' _; [reflexivity|]. discriminate Hjob'.
Defined.
